(** * MoEngage documentation analyzer: scoring, ranking, synthesis, revision

    A shallow embedding of the rule-based engine of the repository
    (agent1_analyser.py, llm_integration.py, textstat_analyzer.py,
    revision_agent2.py and the seed article of web_scraper.py) together
    with the properties its specification states about it.

    Conventions of the embedding:
    - a Python [str] is a [string]; the texts are taken to be ASCII, so
      that [str.lower], [str.split] and [len] act per character;
    - a Python [int] is a [Z], a [len] is a [nat];
    - a Python [float] is an exact rational [Q]: every comparison the
      engine makes is against an integer threshold, and the statements
      below quantify over the value compared, so they hold for whichever
      value the floating-point arithmetic delivers;
    - an exception is a [Raise] in the result monad [res];
    - the textstat library is an oracle handed to the functions using it;
    - [datetime.now()] stamps and console output are left out. *)

From Stdlib Require Import String Ascii List ZArith QArith Qround Qminmax Lia Bool.
From Stdlib Require Import Permutation Sorted DecimalString.
Import ListNotations.

Local Open Scope string_scope.
Local Open Scope Z_scope.

(** ** Python exceptions and the result monad *)

Inductive exn : Type :=
| ZeroDivisionError
| KeyError (key : string).

Inductive res (A : Type) : Type :=
| Ok (a : A)
| Raise (e : exn).

Arguments Ok {A} a.
Arguments Raise {A} e.

Definition bind {A B : Type} (m : res A) (k : A -> res B) : res B :=
  match m with
  | Ok a => k a
  | Raise e => Raise e
  end.

Notation "x <- m ;; k" := (bind m (fun x => k))
  (at level 61, m at next level, right associativity).

Definition returns {A : Type} (m : res A) : Prop := exists a, m = Ok a.

(** ** Python string primitives *)

Module PyStr.

Definition code (c : ascii) : nat := nat_of_ascii c.

(** [str.isspace] on ASCII: tab, LF, VT, FF, CR, FS, GS, RS, US, space. *)
Definition is_space (c : ascii) : bool :=
  let n := code c in
  ((9 <=? n) && (n <=? 13) || (28 <=? n) && (n <=? 32))%nat.

Definition is_upper (c : ascii) : bool :=
  let n := code c in ((65 <=? n) && (n <=? 90))%nat.

Definition is_lower (c : ascii) : bool :=
  let n := code c in ((97 <=? n) && (n <=? 122))%nat.

Definition lower_char (c : ascii) : ascii :=
  if is_upper c then ascii_of_nat (code c + 32) else c.

Definition upper_char (c : ascii) : ascii :=
  if is_lower c then ascii_of_nat (code c - 32) else c.

(** [s.lower()] *)
Fixpoint lower (s : string) : string :=
  match s with
  | EmptyString => EmptyString
  | String c s' => String (lower_char c) (lower s')
  end.

(** [s.title()]: a cased character is upper-cased after an uncased one
    and lower-cased after a cased one. *)
Fixpoint title_from (prev_cased : bool) (s : string) : string :=
  match s with
  | EmptyString => EmptyString
  | String c s' =>
      let cased := is_upper c || is_lower c in
      let c' := if prev_cased then lower_char c else upper_char c in
      String c' (title_from cased s')
  end.

Definition title (s : string) : string := title_from false s.

(** [sub in s] *)
Fixpoint contains (sub s : string) : bool :=
  prefix sub s ||
  match s with
  | EmptyString => false
  | String _ s' => contains sub s'
  end.

(** [any(term in s for term in terms)] *)
Definition contains_any (terms : list string) (s : string) : bool :=
  existsb (fun term => contains term s) terms.

(** [sum(1 for term in terms if term in s)] *)
Definition count_present (terms : list string) (s : string) : Z :=
  Z.of_nat (List.length (filter (fun term => contains term s) terms)).

Definition rev_string (s : string) : string :=
  string_of_list_ascii (rev (list_ascii_of_string s)).

Fixpoint lstrip (s : string) : string :=
  match s with
  | EmptyString => EmptyString
  | String c s' => if is_space c then lstrip s' else s
  end.

(** [s.strip()] *)
Definition strip (s : string) : string :=
  rev_string (lstrip (rev_string (lstrip s))).

Definition nonempty (s : string) : bool :=
  match s with
  | EmptyString => false
  | String _ _ => true
  end.

(** [s.split()]: the maximal runs of non-whitespace characters. [cur]
    holds the current run in reverse. *)
Fixpoint split_ws_from (cur : list ascii) (s : string) : list string :=
  let flush :=
    match cur with
    | [] => []
    | _ :: _ => [string_of_list_ascii (rev cur)]
    end in
  match s with
  | EmptyString => flush
  | String c s' =>
      if is_space c then (flush ++ split_ws_from [] s')%list
      else split_ws_from (c :: cur) s'
  end.

Definition split_ws (s : string) : list string := split_ws_from [] s.

(** [s.split(c)] for a one-character separator: always at least one
    piece. *)
Fixpoint split_char_from (sep : ascii) (cur : list ascii) (s : string)
  : list string :=
  match s with
  | EmptyString => [string_of_list_ascii (rev cur)]
  | String c s' =>
      if Ascii.eqb c sep
      then string_of_list_ascii (rev cur) :: split_char_from sep [] s'
      else split_char_from sep (c :: cur) s'
  end.

Definition split_char (sep : ascii) (s : string) : list string :=
  split_char_from sep [] s.

(** [s.replace(a, b)] for one-character [a] and [b]. *)
Fixpoint replace_char (a b : ascii) (s : string) : string :=
  match s with
  | EmptyString => EmptyString
  | String c s' =>
      String (if Ascii.eqb c a then b else c) (replace_char a b s')
  end.

(** [s.replace(old, new)] for a non-empty [old]: leftmost, non-overlapping
    occurrences. [skip] counts the characters of a match still to drop. *)
Fixpoint replace_from (old new : string) (skip : nat) (s : string) : string :=
  match s with
  | EmptyString => EmptyString
  | String c s' =>
      match skip with
      | S k => replace_from old new k s'
      | O =>
          if prefix old s
          then new ++ replace_from old new (String.length old - 1) s'
          else String c (replace_from old new 0 s')
      end
  end.

Definition replace (old new s : string) : string := replace_from old new 0 s.

(** [', '.join(l)] and friends *)
Fixpoint join (sep : string) (l : list string) : string :=
  match l with
  | [] => EmptyString
  | [x] => x
  | x :: l' => x ++ sep ++ join sep l'
  end.

(** [str(n)] for an integer *)
Definition of_Z (n : Z) : string :=
  match n with
  | Z0 => "0"
  | Zpos p => NilZero.string_of_uint (Pos.to_uint p)
  | Zneg p => "-" ++ NilZero.string_of_uint (Pos.to_uint p)
  end.

End PyStr.

(** The sentence segmentation shared by the components:
    [[s.strip() for s in
      content.replace('!', '.').replace('?', '.').split('.') if s.strip()]] *)
Definition sentences_of (content : string) : list string :=
  let normalized :=
    PyStr.replace_char "?" "." (PyStr.replace_char "!" "." content) in
  map PyStr.strip
      (filter (fun s => PyStr.nonempty (PyStr.strip s))
              (PyStr.split_char "." normalized)).

Definition word_count (s : string) : Z :=
  Z.of_nat (List.length (PyStr.split_ws s)).

(** ** Numbers *)

(** [a / b] on numbers: true division, ZeroDivisionError on a zero
    denominator. *)
Definition pydiv (a b : Z) : res Q :=
  if b =? 0 then Raise ZeroDivisionError else Ok (inject_Z a / inject_Z b)%Q.

(** Nearest integer, ties to even. *)
Definition round_half_even (q : Q) : Z :=
  let f := Qfloor q in
  let r := (q - inject_Z f)%Q in
  match (r ?= 1 # 2)%Q with
  | Lt => f
  | Gt => f + 1
  | Eq => if Z.even f then f else f + 1
  end.

(** [round(q, 1)] *)
Definition round1 (q : Q) : Q := (inject_Z (round_half_even (q * 10)) / 10)%Q.

(** [f"{q:.1f}"] *)
Definition format_1f (q : Q) : string :=
  let n := round_half_even (q * 10) in
  let sign := match (q ?= 0)%Q with Lt => "-" | _ => EmptyString end in
  sign ++ PyStr.of_Z (Z.abs n / 10) ++ "." ++ PyStr.of_Z (Z.abs n mod 10).

(** [f"{q:.0f}"] *)
Definition format_0f (q : Q) : string :=
  let n := round_half_even q in
  let sign := match (q ?= 0)%Q with Lt => "-" | _ => EmptyString end in
  sign ++ PyStr.of_Z (Z.abs n).

(** [round(q, ndigits)] *)
Definition pyround (q : Q) (ndigits : nat) : Q :=
  let scale := inject_Z (10 ^ Z.of_nat ndigits) in
  (inject_Z (round_half_even (q * scale)) / scale)%Q.

(** ** agent1_analyser.py *)

Module Agent1.

(** *** Data model *)

Record Heading : Type := { level : string; text : string }.

Record DocList : Type := { type : string; items : list string }.

(** The dict produced by the scraper ([scraped_data] / [structure_data]);
    [.get(key, [])] on a missing key is the empty list. *)
Record Document : Type := {
  url : string;
  doc_title : string;
  content : string;
  headings : list Heading;
  paragraphs : list string;
  lists : list DocList
}.

Record DimensionResult : Type := {
  score : Z;
  assessment : string;
  metrics : list (string * Q);
  suggestions : list string
}.

(** What the three textstat calls of [_analyze_readability] deliver on a
    text; [None] when one of them raises. *)
Record TextstatScores : Type := { fk_grade : Q; fog_index : Q; ease_score : Q }.

Definition textstat : Type := string -> option TextstatScores.

(** *** AnalysisEngine._analyze_readability *)

(** The [try ... except] block: the library values, or the fallback
    computed from the average sentence length. *)
Definition readability_indices (ts : textstat) (content : string)
  : res TextstatScores :=
  match ts content with
  | Some m => Ok m
  | None =>
      let words := PyStr.split_ws content in
      let sentences := sentences_of content in
      avg_sentence_length <-
        match sentences with
        | [] => Ok 20%Q
        | _ :: _ =>
            pydiv (Z.of_nat (List.length words)) (Z.of_nat (List.length sentences))
        end ;;
      Ok {| fk_grade := (avg_sentence_length * (39 # 100) + (118 # 10) - (1559 # 100))%Q;
            fog_index := (avg_sentence_length * (4 # 10) + 12)%Q;
            ease_score := ((206835 # 1000) - (1015 # 1000) * avg_sentence_length)%Q |}
  end.

(** Python [x >= n] on a number. *)
Definition Qge_bool (x y : Q) : bool := Qle_bool y x.
Definition Qgt_bool (x y : Q) : bool := negb (Qle_bool x y).
Definition Qlt_bool (x y : Q) : bool := negb (Qle_bool y x).

(** The marketer-specific scoring ladder on the ease index. *)
Definition score_of_ease (ease : Q) : Z * string :=
  if Qge_bool ease 70 then (95, "Excellent for marketers")
  else if Qge_bool ease 60 then (80, "Good for marketers")
  else if Qge_bool ease 50 then (65, "Acceptable for marketers")
  else if Qge_bool ease 40 then (45, "Challenging for marketers")
  else (25, "Too complex for marketers").

(** [_detect_jargon]: the dict is walked in insertion order, the test is
    case-sensitive. *)
Definition jargon_terms : list (string * string) :=
  [ ("SDK", "software development kit");
    ("API", "programming interface");
    ("implementation", "setup");
    ("configuration", "settings");
    ("instantiate", "create");
    ("utilize", "use");
    ("facilitate", "help") ].

Definition _detect_jargon (content : string) : list string :=
  map (fun jf => "'" ++ fst jf ++ "' → '" ++ snd jf ++ "'")
      (filter (fun jf => PyStr.contains (fst jf) content) jargon_terms).

Definition long_sentences (content : string) : list string :=
  filter (fun s => 25 <? Z.of_nat (List.length (PyStr.split_ws s)))
         (sentences_of content).

Definition affirm_readability : string :=
  "Readability is appropriate for marketing professionals".

Definition readability_suggestions (m : TextstatScores) (content : string)
  : list string :=
  let s1 :=
    if Qgt_bool (fk_grade m) 10
    then ["Reading level is Grade " ++ format_1f (fk_grade m)
          ++ " - aim for Grade 8-10 for marketing teams"]
    else [] in
  let s2 :=
    if Qgt_bool (fog_index m) 12
    then ["Gunning Fog index is " ++ format_1f (fog_index m)
          ++ " - reduce sentence complexity and technical terms"]
    else [] in
  let jargon_found := _detect_jargon content in
  let s3 :=
    match jargon_found with
    | [] => []
    | _ :: _ =>
        ["Replace technical jargon: "
         ++ PyStr.join ", " (firstn 3 jargon_found)
         ++ " with marketer-friendly terms"]
    end in
  let long := long_sentences content in
  let s4 :=
    match long with
    | [] => []
    | _ :: _ =>
        ["Break up " ++ PyStr.of_Z (Z.of_nat (List.length long))
         ++ " sentences longer than 25 words"]
    end in
  let suggestions := (s1 ++ s2 ++ s3 ++ s4)%list in
  match suggestions with
  | [] => [affirm_readability]
  | _ :: _ => suggestions
  end.

Definition _analyze_readability (ts : textstat) (content : string)
  : res DimensionResult :=
  m <- readability_indices ts content ;;
  let '(score, assessment) := score_of_ease (ease_score m) in
  Ok {| score := score;
        assessment := assessment;
        metrics := [ ("flesch_kincaid_grade", round1 (fk_grade m));
                     ("gunning_fog_index", round1 (fog_index m));
                     ("reading_ease_score", round1 (ease_score m)) ];
        suggestions := readability_suggestions m content |}.

(** *** AnalysisEngine._analyze_structure (the rich path) *)

(** One step of a scorer: a triggered check appends its suggestion and
    lowers the score. *)
Definition penalize (trigger : bool) (suggestion : string) (penalty : Z)
  (st : Z * list string) : Z * list string :=
  if trigger then (fst st - penalty, (snd st ++ [suggestion])%list) else st.

Definition or_affirm (affirm : string) (l : list string) : list string :=
  match l with
  | [] => [affirm]
  | _ :: _ => l
  end.

Definition long_paragraphs (paragraphs : list string) : list string :=
  filter (fun p => 100 <? Z.of_nat (List.length (PyStr.split_ws p))) paragraphs.

Definition has_steps (content : string) : bool :=
  PyStr.contains "1." content || PyStr.contains "step" (PyStr.lower content).

Definition affirm_structure : string :=
  "Document structure supports good user experience".

Definition structure_checks (content : string) (d : Document)
  : Z * list string :=
  let n := Z.of_nat (List.length (headings d)) in
  let st := (70, []) in
  let st :=
    if n <? 3
    then penalize true
           "Add more section headings to improve navigation (currently {len(headings)})"
           15 st
    else penalize (8 <? n)
           "Consider consolidating sections - too many headings can confuse users"
           5 st in
  let st :=
    penalize (match lists d with [] => true | _ :: _ => false end)
      "Convert dense text to bullet points or numbered lists for better scannability"
      10 st in
  let long := long_paragraphs (paragraphs d) in
  let st :=
    penalize (match long with [] => false | _ :: _ => true end)
      ("Break up " ++ PyStr.of_Z (Z.of_nat (List.length long))
       ++ " paragraphs longer than 100 words")
      10 st in
  penalize (PyStr.contains "how to" (PyStr.lower content) && negb (has_steps content))
    "Add numbered steps for 'how to' procedures"
    10 st.

Definition _analyze_structure (content : string) (d : Document)
  : DimensionResult :=
  let '(score, suggestions) := structure_checks content d in
  {| score := Z.max 30 score;
     assessment := if 75 <=? score then "Well-organized for marketers"
                   else "Structure needs improvement";
     metrics := [];
     suggestions := or_affirm affirm_structure suggestions |}.

(** *** AnalysisEngine._analyze_completeness *)

Definition example_markers : list string := ["example"; "for instance"; "such as"].
Definition troubleshooting_markers : list string := ["troubleshoot"; "problem"; "issue"].
Definition prerequisite_markers : list string := ["prerequisite"; "before"; "first"].
Definition business_value_markers : list string :=
  ["benefit"; "improve"; "increase"; "optimize"].

Definition has_examples (content : string) : bool :=
  PyStr.contains_any example_markers (PyStr.lower content).

Definition has_troubleshooting (content : string) : bool :=
  PyStr.contains_any troubleshooting_markers (PyStr.lower content).

Definition affirm_completeness : string :=
  "Content provides comprehensive information for marketer success".

Definition completeness_checks (content : string) : Z * list string :=
  let st := (70, []) in
  let st :=
    penalize (negb (has_examples content))
      "Add concrete examples to help marketers understand practical applications"
      15 st in
  let st :=
    penalize (negb (has_troubleshooting content))
      "Include troubleshooting section for common issues marketers might face"
      10 st in
  let st :=
    penalize (negb (PyStr.contains_any prerequisite_markers (PyStr.lower content)))
      "Add prerequisites section to set expectations"
      5 st in
  let wc := word_count content in
  let st :=
    if wc <? 300
    then penalize true
           "Content seems brief - consider adding more detailed explanations"
           15 st
    else penalize (2000 <? wc)
           "Content is quite long - consider breaking into multiple focused articles"
           5 st in
  penalize (negb (PyStr.contains_any business_value_markers (PyStr.lower content)))
    "Add business value explanation to help marketers understand importance"
    10 st.

Definition _analyze_completeness (content : string) : DimensionResult :=
  let '(score, suggestions) := completeness_checks content in
  {| score := Z.max 30 score;
     assessment := if 70 <=? score then "Complete for marketer needs"
                   else "Missing key information";
     metrics := [];
     suggestions := or_affirm affirm_completeness suggestions |}.

(** *** AnalysisEngine._analyze_style *)

Definition second_person_terms : list string :=
  [" you "; " your "; "you'll"; "you're"].

Definition has_second_person (content : string) : bool :=
  PyStr.contains_any second_person_terms (PyStr.lower content).

Definition action_words : list string :=
  ["click"; "select"; "navigate"; "access"; "configure"; "set up"].

Definition passive_indicators : list string :=
  ["is configured"; "are displayed"; "was created"; "were sent"].

Definition wordy_phrases : list string :=
  ["in order to"; "due to the fact that"; "at this point in time"].

Definition suggest_second_person : string :=
  "Use second-person language (you, your) to make instructions more personal".

Definition affirm_style : string :=
  "Writing style follows good practices for marketing audience".

Definition style_checks (content : string) : Z * list string :=
  let low := PyStr.lower content in
  let st := (75, []) in
  let st := penalize (negb (has_second_person content)) suggest_second_person 15 st in
  let st :=
    penalize (PyStr.count_present action_words low <? 3)
      "Use more action-oriented language with specific verbs" 10 st in
  let st :=
    penalize (3 <? PyStr.count_present passive_indicators low)
      "Reduce passive voice - use active voice for clearer instructions" 10 st in
  let st :=
    penalize (match filter (fun p => PyStr.contains p low) wordy_phrases with
              | [] => false
              | _ :: _ => true
              end)
      "Eliminate wordy phrases for more concise communication" 5 st in
  penalize (PyStr.contains "login" low && PyStr.contains "log in" low)
    "Use consistent terminology throughout (choose 'log in' or 'login')" 5 st.

Definition _analyze_style (content : string) : DimensionResult :=
  let '(score, suggestions) := style_checks content in
  {| score := Z.max 40 score;
     assessment := if 70 <=? score then "Appropriate style for marketers"
                   else "Style needs improvement";
     metrics := [];
     suggestions := or_affirm affirm_style suggestions |}.

(** *** AnalysisEngine.perform_comprehensive_analysis

    The result dict, in insertion order. *)
Definition perform_comprehensive_analysis (ts : textstat) (content : string)
  (structure_data : Document) : res (list (string * DimensionResult)) :=
  readability <- _analyze_readability ts content ;;
  Ok [ ("readability", readability);
       ("structure", _analyze_structure content structure_data);
       ("completeness", _analyze_completeness content);
       ("style", _analyze_style content) ].

(** *** MoEngageAnalyzer: the suggestion ranker *)

Inductive Priority : Type := CRITICAL | HIGH | MEDIUM | LOW.

Inductive Effort : Type := Low | Medium | High.

Record ActionItem : Type := {
  category : string;
  priority : Priority;
  action : string;
  rationale : string;
  expected_impact : Z;
  effort_estimate : Effort
}.

(** [impact_matrix.get(category, 5)] *)
Definition _estimate_impact (category : string) (current_score : Z) : Z :=
  if String.eqb category "readability" then (if current_score <? 60 then 10 else 7)
  else if String.eqb category "structure" then (if current_score <? 70 then 6 else 4)
  else if String.eqb category "completeness" then (if current_score <? 65 then 8 else 5)
  else if String.eqb category "style" then (if current_score <? 75 then 5 else 3)
  else 5.

Definition _estimate_effort (suggestion : string) : Effort :=
  let low := PyStr.lower suggestion in
  if PyStr.contains_any ["add"; "include"; "create"] low then Medium
  else if PyStr.contains_any ["replace"; "change"; "simplify"] low then Low
  else if PyStr.contains_any ["restructure"; "reorganize"] low then High
  else Low.

(** The if / elif ladder of [_generate_action_items]. *)
Definition priority_of (category : string) (score : Z) : Priority :=
  if String.eqb category "readability" && (score <? 70) then CRITICAL
  else if score <? 60 then HIGH
  else if score <? 80 then MEDIUM
  else LOW.

Definition priority_order (p : Priority) : Z :=
  match p with
  | CRITICAL => 4
  | HIGH => 3
  | MEDIUM => 2
  | LOW => 1
  end.

(** The items one dimension contributes, in the order of its suggestions. *)
Definition items_of (entry : string * DimensionResult) : list ActionItem :=
  let '(cat, results) := entry in
  map (fun suggestion =>
         {| category := PyStr.title cat;
            priority := priority_of cat (score results);
            action := suggestion;
            rationale := "Current " ++ cat ++ " score: "
                         ++ PyStr.of_Z (score results) ++ "/100";
            expected_impact := _estimate_impact cat (score results);
            effort_estimate := _estimate_effort suggestion |})
      (suggestions results).

(** The list built by the two nested loops, before it is sorted. *)
Definition collected_items (analysis_results : list (string * DimensionResult))
  : list ActionItem :=
  flat_map items_of analysis_results.

(** The sort key [(priority_order[x['priority']], x['expected_impact'])]
    and the order of Python tuples. *)
Definition sort_key (x : ActionItem) : Z * Z :=
  (priority_order (priority x), expected_impact x).

Definition key_ltb (a b : Z * Z) : bool :=
  (fst a <? fst b) || ((fst a =? fst b) && (snd a <? snd b)).

Definition key_eqb (a b : Z * Z) : bool :=
  (fst a =? fst b) && (snd a =? snd b).

(** [list.sort(key=..., reverse=True)]: a stable sort, largest key first;
    elements with equal keys stay in their original order. An element is
    inserted in front of the sorted rest and moves right only past
    strictly larger keys. *)
Section StableSort.

Context {A : Type} (key : A -> Z * Z).

Fixpoint insert_desc (x : A) (l : list A) : list A :=
  match l with
  | [] => [x]
  | y :: l' =>
      if key_ltb (key x) (key y) then y :: insert_desc x l' else x :: l
  end.

Fixpoint sort_desc (l : list A) : list A :=
  match l with
  | [] => []
  | x :: l' => insert_desc x (sort_desc l')
  end.

End StableSort.

Definition _generate_action_items
  (analysis_results : list (string * DimensionResult)) : list ActionItem :=
  firstn 8 (sort_desc sort_key (collected_items analysis_results)).

(** *** MoEngageAnalyzer: the report synthesizer *)

(** [d[key]] *)
Fixpoint lookup {V : Type} (key : string) (d : list (string * V)) : res V :=
  match d with
  | [] => Raise (KeyError key)
  | (k, v) :: d' => if String.eqb k key then Ok v else lookup key d'
  end.

Definition weights : list (string * Q) :=
  [ ("readability", 4 # 10); ("structure", 2 # 10);
    ("completeness", 25 # 100); ("style", 15 # 100) ].

(** [sum(analysis_results[c]['score'] * weights[c] for c in weights.keys())] *)
Fixpoint weighted_sum (analysis_results : list (string * DimensionResult))
  (ws : list (string * Q)) (acc : Q) : res Q :=
  match ws with
  | [] => Ok acc
  | (c, w) :: ws' =>
      r <- lookup c analysis_results ;;
      weighted_sum analysis_results ws' (acc + inject_Z (score r) * w)%Q
  end.

Definition _calculate_grade (score : Q) : string :=
  if Qge_bool score 90 then "A"
  else if Qge_bool score 80 then "B"
  else if Qge_bool score 70 then "C"
  else if Qge_bool score 60 then "D"
  else "F".

Definition marketer_accessibility_of (weighted_score : Q) : string :=
  if Qge_bool weighted_score 75 then "High"
  else if Qge_bool weighted_score 60 then "Medium"
  else "Low".

Record Complexity : Type := {
  avg_sentence_length : Q;
  jargon_density : Z;
  complex_word_ratio : Q;
  estimated_reading_level : Q
}.

Definition _assess_complexity (content : string) : res Complexity :=
  let words := PyStr.split_ws content in
  let sentences := sentences_of content in
  let n_words := Z.of_nat (List.length words) in
  let n_sentences := Z.of_nat (List.length sentences) in
  let jargon_count :=
    PyStr.count_present
      ["API"; "SDK"; "implementation"; "configuration"; "instantiate"; "parameters"]
      content in
  let complex_words := filter (fun w => (8 <? String.length w)%nat) words in
  ratio <-
    match words with
    | [] => Ok 0%Q
    | _ :: _ => pydiv (Z.of_nat (List.length complex_words)) n_words
    end ;;
  avg <-
    match sentences with
    | [] => Ok 0%Q
    | _ :: _ => pydiv n_words n_sentences
    end ;;
  level <-
    match sentences with
    | [] => Ok 12%Q
    | _ :: _ =>
        q <- pydiv n_words n_sentences ;;
        Ok (Qmin 16 (Qmax 6 (q * (4 # 10) + 5)))%Q
    end ;;
  Ok {| avg_sentence_length := avg;
        jargon_density := jargon_count;
        complex_word_ratio := pyround ratio 3;
        estimated_reading_level := level |}.

Definition _get_business_recommendation (score : Q) : string :=
  if Qlt_bool score 60 then "URGENT: Revise before marketing team training"
  else if Qlt_bool score 75 then "MODERATE: Improve before wider distribution"
  else "GOOD: Ready for marketing team use".

Record BusinessImpact : Type := {
  user_experience_assessment : string;
  feature_adoption_risk : string;
  support_ticket_likelihood : string;
  recommended_action : string
}.

Definition _assess_business_impact
  (analysis_results : list (string * DimensionResult)) (overall_score : Q)
  : res BusinessImpact :=
  readability <- lookup "readability" analysis_results ;;
  completeness <- lookup "completeness" analysis_results ;;
  let readability_score := score readability in
  let '(user_experience, adoption_risk) :=
    if readability_score <? 60
    then ("Poor - Marketers likely to struggle", "High")
    else if readability_score <? 75
    then ("Moderate - Some marketers may need help", "Medium")
    else ("Good - Accessible to marketing teams", "Low") in
  Ok {| user_experience_assessment := user_experience;
        feature_adoption_risk := adoption_risk;
        support_ticket_likelihood :=
          if Qlt_bool overall_score 65 then "High"
          else if Qlt_bool overall_score 80 then "Medium" else "Low";
        recommended_action := _get_business_recommendation overall_score |}.

Record Report : Type := {
  meta_url : string;
  meta_title : string;
  profile_word_count : Z;
  profile_headings : nat;
  profile_lists : nat;
  profile_paragraphs : nat;
  complexity_indicators : Complexity;
  dimensional_analysis : list (string * DimensionResult);
  weighted_score : Q;
  letter_grade : string;
  marketer_accessibility : string;
  prioritized_recommendations : list ActionItem;
  business_impact : BusinessImpact
}.

Definition _synthesize_results (scraped_data : Document)
  (analysis_results : list (string * DimensionResult)) : res Report :=
  weighted <- weighted_sum analysis_results weights 0%Q ;;
  let action_items := _generate_action_items analysis_results in
  complexity <- _assess_complexity (content scraped_data) ;;
  impact <- _assess_business_impact analysis_results weighted ;;
  Ok {| meta_url := url scraped_data;
        meta_title := doc_title scraped_data;
        profile_word_count := word_count (content scraped_data);
        profile_headings := List.length (headings scraped_data);
        profile_lists := List.length (lists scraped_data);
        profile_paragraphs := List.length (paragraphs scraped_data);
        complexity_indicators := complexity;
        dimensional_analysis := analysis_results;
        weighted_score := round1 weighted;
        letter_grade := _calculate_grade weighted;
        marketer_accessibility := marketer_accessibility_of weighted;
        prioritized_recommendations := action_items;
        business_impact := impact |}.

(** *** The seed article of [_get_fallback_content] *)

Definition dq : string := String (ascii_of_nat 34) EmptyString.

Definition fallback_text : string :=
  "Explore the Number of Notifications Received by Users

The Notification Received report helps you understand how many notifications your users have received across different channels like Push, Email, SMS, and In-app. This report provides insights into your notification distribution and user engagement patterns.

Overview

This report shows the distribution of notifications sent to users over a selected time period. You can analyze the data by different dimensions and understand your notification patterns better.

How to Access the Report

To access the Notification Received report, follow these steps:

1. Navigate to Analytics dashboard
2. Click on Reports in the left sidebar
3. Select Notification Reports from the dropdown
4. Choose " ++ dq ++
  "Notifications Received by Users" ++ dq ++
  " from the list

Understanding the Data

The report displays data in multiple formats:

- Overall Distribution: Shows the percentage breakdown of users by notification count
- Channel-wise Analysis: Breaks down notifications by channel (Push, Email, SMS, In-app)
- Time-based Trends: Shows how notification patterns change over time

Key Metrics

The following metrics are available in this report:

Total Notifications Sent: The total number of notifications delivered across all channels
Unique Users Reached: Number of distinct users who received at least one notification
Average Notifications per User: Mean number of notifications received per user
Channel Distribution: Percentage breakdown by notification channel

Implementation Steps

To implement notification tracking, you need to configure the following:

Configure your notification channels in the MoEngage dashboard
Set up proper event tracking for notification delivery
Ensure your mobile app and website have the MoEngage SDK integrated
Test the implementation to verify data is being captured correctly".

Definition _get_fallback_content (url : string) : Document :=
  {| url := url;
     doc_title := "Explore the Number of Notifications Received by Users";
     content := fallback_text;
     headings :=
       [ {| level := "h1"; text := "Explore the Number of Notifications Received by Users" |};
         {| level := "h2"; text := "Overview" |};
         {| level := "h2"; text := "How to Access the Report" |};
         {| level := "h2"; text := "Understanding the Data" |};
         {| level := "h2"; text := "Key Metrics" |};
         {| level := "h2"; text := "Implementation Steps" |} ];
     paragraphs :=
       [ "The Notification Received report helps you understand how many notifications your users have received across different channels like Push, Email, SMS, and In-app.";
         "This report provides insights into your notification distribution and user engagement patterns.";
         "This report shows the distribution of notifications sent to users over a selected time period." ];
     lists :=
       [ {| type := "ol";
            items :=
              [ "Navigate to Analytics dashboard";
                "Click on Reports in the left sidebar";
                "Select Notification Reports from the dropdown";
                "Choose " ++ dq ++ "Notifications Received by Users" ++ dq ++ " from the list" ] |} ] |}.

(** *** MoEngageAnalyzer.analyze_documentation

    [scraper] stands for [RobustWebScraper.extract_content]: the network
    layer, which delivers a document or nothing. Saving and printing the
    report are left out. *)

Inductive Outcome : Type :=
| Analysed (report : Report)
| ErrorReport (url : string) (error : exn).

Definition analyze_documentation (scraper : string -> option Document)
  (ts : textstat) (url : string) : Outcome :=
  let scraped_data :=
    match scraper url with
    | Some d =>
        if (String.length (content d) <? 50)%nat then _get_fallback_content url else d
    | None => _get_fallback_content url
    end in
  match
    (analysis_results <-
       perform_comprehensive_analysis ts (content scraped_data) scraped_data ;;
     _synthesize_results scraped_data analysis_results)
  with
  | Ok report => Analysed report
  | Raise e => ErrorReport url e
  end.

End Agent1.

(** ** web_scraper.py: the seed article of the scraper *)

Module Scraper.

Import Agent1.

Definition fallback_text : string :=
  "The Notification Received report helps you understand how many notifications your users have received across different channels like Push, Email, SMS, and In-app. This report provides insights into your notification distribution and user engagement patterns.

To access the Notification Received report, follow these steps:
1. Navigate to Analytics dashboard
2. Click on Reports in the left sidebar
3. Select Notification Reports from the dropdown
4. Choose " ++ dq ++
  "Notifications Received by Users" ++ dq ++
  " from the list

The report displays data in multiple formats:
- Overall Distribution: Shows the percentage breakdown of users by notification count
- Channel-wise Analysis: Breaks down notifications by channel
- Time-based Trends: Shows how notification patterns change over time

Key metrics include Total Notifications Sent, Unique Users Reached, Average Notifications per User, and Channel Distribution.".

Record Scraped : Type := {
  doc : Document;
  scraped_word_count : Z;
  success : bool;
  fallback : bool
}.

Definition create_fallback_content (url : string) : Scraped :=
  {| doc :=
       {| url := url;
          doc_title := "Explore the Number of Notifications Received by Users";
          content := fallback_text;
          headings :=
            [ {| level := "h1"; text := "Explore the Number of Notifications Received by Users" |};
              {| level := "h2"; text := "How to Access the Report" |};
              {| level := "h2"; text := "Understanding the Data" |};
              {| level := "h2"; text := "Key Metrics" |} ];
          paragraphs :=
            [ "The Notification Received report helps you understand how many notifications your users have received across different channels.";
              "This report provides insights into your notification distribution and user engagement patterns." ];
          lists :=
            [ {| type := "ol";
                 items :=
                   [ "Navigate to Analytics dashboard";
                     "Click on Reports in the left sidebar";
                     "Select Notification Reports from the dropdown";
                     "Choose " ++ dq ++ "Notifications Received by Users" ++ dq ++ " from the list" ] |} ] |};
     scraped_word_count := 150;
     success := false;
     fallback := true |}.

End Scraper.

(** ** llm_integration.py: AdvancedAnalyzer, the text-only scorers *)

Module AdvancedAnalyzer.

(** [s.istitle()]: an upper-case character only after an uncased one, a
    lower-case character only after a cased one, and at least one cased
    character. *)
Fixpoint istitle_from (prev_cased seen : bool) (s : string) : bool :=
  match s with
  | EmptyString => seen
  | String c s' =>
      if PyStr.is_upper c
      then (if prev_cased then false else istitle_from true true s')
      else if PyStr.is_lower c
      then (if prev_cased then istitle_from true true s' else false)
      else istitle_from false seen s'
  end.

Definition istitle (s : string) : bool := istitle_from false false s.

(** [s.split(sep)] for a non-empty separator string. *)
Fixpoint split_str_from (sep : string) (skip : nat) (cur : list ascii)
  (s : string) : list string :=
  match s with
  | EmptyString => [string_of_list_ascii (rev cur)]
  | String c s' =>
      match skip with
      | S k => split_str_from sep k cur s'
      | O =>
          if prefix sep s
          then string_of_list_ascii (rev cur)
               :: split_str_from sep (String.length sep - 1) [] s'
          else split_str_from sep 0 (c :: cur) s'
      end
  end.

Definition split_str (sep s : string) : list string := split_str_from sep 0 [] s.

Definition nl : string := String (ascii_of_nat 10) EmptyString.

Definition calculate_readability_score (content : string)
  (avg_sentence_length : Q) : res Z :=
  let score := 80 in
  let score :=
    if Agent1.Qgt_bool avg_sentence_length 25 then score - 30
    else if Agent1.Qgt_bool avg_sentence_length 20 then score - 15
    else if Agent1.Qgt_bool avg_sentence_length 15 then score - 5
    else score in
  let jargon_terms := ["SDK"; "API"; "configure"; "implementation"; "instantiate"] in
  let jargon_count :=
    PyStr.count_present (map PyStr.lower jargon_terms) (PyStr.lower content) in
  let score := score - jargon_count * 5 in
  let complex_words :=
    filter (fun w => (8 <? String.length w)%nat) (PyStr.split_ws content) in
  ratio <- pydiv (Z.of_nat (List.length complex_words))
                 (Z.of_nat (List.length (PyStr.split_ws content))) ;;
  let score := if Agent1.Qgt_bool ratio (15 # 100) then score - 10 else score in
  Ok (Z.max 20 (Z.min 100 score)).

Definition potential_headings (content : string) : list string :=
  map PyStr.strip
      (filter (fun line =>
                 PyStr.nonempty (PyStr.strip line)
                 && (String.length (PyStr.strip line) <? 80)%nat
                 && istitle (PyStr.strip line))
              (PyStr.split_char (ascii_of_nat 10) content)).

Definition calculate_structure_score (content : string) : Z :=
  let score := 75 in
  let n := Z.of_nat (List.length (potential_headings content)) in
  let score :=
    if 3 <=? n then score + 10
    else if n <? 2 then score - 15
    else score in
  let score :=
    if PyStr.contains "1." content || PyStr.contains "2." content
    then score + 5 else score in
  let score :=
    if PyStr.contains "-" content || PyStr.contains "•" content
    then score + 5 else score in
  let paragraphs :=
    filter (fun p => PyStr.nonempty (PyStr.strip p)) (split_str (nl ++ nl) content) in
  let score := if (10 <? List.length paragraphs)%nat then score - 5 else score in
  Z.max 30 (Z.min 100 score).

Definition calculate_completeness_score (content : string) (word_count : Z) : Z :=
  let low := PyStr.lower content in
  let score := 70 in
  let score :=
    if word_count <? 200 then score - 20
    else if word_count <? 400 then score - 10
    else if 1500 <? word_count then score - 5
    else score in
  let score :=
    if PyStr.contains "example" low || PyStr.contains "for instance" low
    then score + 10 else score - 15 in
  let score :=
    if PyStr.contains "troubleshoot" low || PyStr.contains "problem" low
    then score + 5 else score - 10 in
  let score :=
    if existsb (fun i => PyStr.contains (PyStr.of_Z i ++ ".") content) [1; 2; 3; 4; 5]
    then score + 10 else score - 5 in
  Z.max 30 (Z.min 100 score).

Definition calculate_style_score (content : string) : Z :=
  let low := PyStr.lower content in
  let score := 75 in
  let score :=
    if PyStr.contains "you" low || PyStr.contains "your" low
    then score + 10 else score - 15 in
  let action_count :=
    PyStr.count_present ["click"; "select"; "navigate"; "access"; "configure"] low in
  let score :=
    if 3 <=? action_count then score + 5
    else if action_count <? 2 then score - 10
    else score in
  let passive_count :=
    PyStr.count_present ["is configured"; "are set"; "was created"] low in
  let score := if 2 <? passive_count then score - 10 else score in
  Z.max 40 (Z.min 100 score).

Definition get_readability_assessment (score : Z) : string :=
  if 80 <=? score then "Excellent readability for marketers"
  else if 70 <=? score then "Good readability for marketers"
  else if 60 <=? score then "Acceptable readability for marketers"
  else "Poor readability - too complex for marketers".

Definition get_readability_suggestions (content : string)
  (avg_sentence_length : Q) : list string :=
  let s1 :=
    if Agent1.Qgt_bool avg_sentence_length 25
    then ["Average sentence length is " ++ format_1f avg_sentence_length
          ++ " words. Break sentences longer than 25 words."]
    else [] in
  let found_jargon :=
    filter (fun term => PyStr.contains term content) ["SDK"; "API"; "configure"] in
  let s2 :=
    match found_jargon with
    | [] => []
    | _ :: _ => ["Explain technical terms: " ++ PyStr.join ", " found_jargon]
    end in
  Agent1.or_affirm "Readability is good for the target audience." (s1 ++ s2)%list.

Definition get_structure_suggestions (content : string) : list string :=
  let headings :=
    filter (fun line =>
              PyStr.nonempty (PyStr.strip line)
              && (String.length (PyStr.strip line) <? 80)%nat
              && istitle (PyStr.strip line))
           (PyStr.split_char (ascii_of_nat 10) content) in
  let s1 :=
    if (List.length headings <? 3)%nat
    then ["Add more section headings to improve navigation"] else [] in
  let s2 :=
    if negb (PyStr.contains "1." content)
    then ["Use numbered lists for step-by-step procedures"] else [] in
  Agent1.or_affirm "Document structure is appropriate" (s1 ++ s2)%list.

Definition get_completeness_suggestions (content : string) (word_count : Z)
  : list string :=
  let low := PyStr.lower content in
  let s1 :=
    if negb (PyStr.contains "example" low)
    then ["Add concrete examples to illustrate concepts"] else [] in
  let s2 :=
    if negb (PyStr.contains "troubleshoot" low)
    then ["Include troubleshooting section for common issues"] else [] in
  let s3 :=
    if word_count <? 300
    then ["Expand content with more detailed explanations"] else [] in
  Agent1.or_affirm "Content appears comprehensive" (s1 ++ s2 ++ s3)%list.

Definition get_style_suggestions (content : string) : list string :=
  let low := PyStr.lower content in
  let s1 :=
    if negb (PyStr.contains "you" low)
    then ["Use second-person language (you, your) for direct communication"]
    else [] in
  let s2 :=
    if negb (PyStr.contains_any ["click"; "select"; "navigate"] low)
    then ["Use more action-oriented language with specific verbs"] else [] in
  Agent1.or_affirm "Writing style is appropriate for the audience" (s1 ++ s2)%list.

Record Dimension : Type := {
  score : Z;
  assessment : string;
  suggestions : list string
}.

(** [analyze_with_local_advanced] (and, line for line, [parse_hf_response]) *)
Definition analyze_with_local_advanced (content : string)
  : res (list (string * Dimension)) :=
  let words := PyStr.split_ws content in
  let sentences := sentences_of content in
  let word_count := Z.of_nat (List.length words) in
  let sentence_count := Z.of_nat (List.length sentences) in
  avg_sentence_length <-
    (if 0 <? sentence_count then pydiv word_count sentence_count else Ok 0%Q) ;;
  readability_score <- calculate_readability_score content avg_sentence_length ;;
  let structure_score := calculate_structure_score content in
  let completeness_score := calculate_completeness_score content word_count in
  let style_score := calculate_style_score content in
  Ok [ ("readability",
        {| score := readability_score;
           assessment := get_readability_assessment readability_score;
           suggestions := get_readability_suggestions content avg_sentence_length |});
       ("structure",
        {| score := structure_score;
           assessment := if 70 <=? structure_score then "Well-structured"
                         else "Structure needs improvement";
           suggestions := get_structure_suggestions content |});
       ("completeness",
        {| score := completeness_score;
           assessment := if 70 <=? completeness_score then "Content is complete"
                         else "Missing key information";
           suggestions := get_completeness_suggestions content word_count |});
       ("style",
        {| score := style_score;
           assessment := if 70 <=? style_score then "Good writing style"
                         else "Style needs improvement";
           suggestions := get_style_suggestions content |}) ].

End AdvancedAnalyzer.

(** ** textstat_analyzer.py: the library path and its fallback *)

Module TextstatAnalyzer.

Import Agent1.

(** What the textstat calls of [analyze_readability_fixed] deliver. *)
Record LibraryMetrics : Type := {
  flesch_kincaid : Q;
  gunning_fog : Q;
  flesch_reading_ease : Q;
  automated_readability : Q;
  coleman_liau : Q;
  syllable_count : Z;
  lexicon_count : Z;
  sentence_count : Z
}.

(** [None]: the library is missing or one of its calls raised. *)
Definition library : Type := string -> option LibraryMetrics.

Record Analysis : Type := {
  assessment : string;
  score : Z;
  marketer_friendly : bool;
  detailed_metrics : list (string * Q);
  grade_level_interpretation : list (string * string);
  suggestions : list string;
  analysis_method : string
}.

Definition fallback_readability_analysis (content : string) : res Analysis :=
  let words := PyStr.split_ws content in
  let sentences := sentences_of content in
  let word_count := Z.of_nat (List.length words) in
  let sentence_count :=
    match sentences with
    | [] => 1
    | _ :: _ => Z.of_nat (List.length sentences)
    end in
  avg_words_per_sentence <- pydiv word_count sentence_count ;;
  let estimated_fk := (avg_words_per_sentence * (39 # 100) + (118 # 10) - (1559 # 100))%Q in
  let '(assessment, score) :=
    if Qgt_bool avg_words_per_sentence 25
    then ("Complex - may be difficult for marketers", 50)
    else if Qgt_bool avg_words_per_sentence 20
    then ("Moderate - acceptable for marketers", 70)
    else ("Good - appropriate for marketers", 85) in
  Ok {| assessment := assessment;
        score := score;
        marketer_friendly := 70 <=? score;
        detailed_metrics :=
          [ ("word_count", inject_Z word_count);
            ("sentence_count", inject_Z sentence_count);
            ("avg_sentence_length", round1 avg_words_per_sentence);
            ("estimated_flesch_kincaid", round1 estimated_fk) ];
        grade_level_interpretation := [];
        suggestions :=
          [ "Using basic analysis - average sentence length: "
            ++ format_1f avg_words_per_sentence ++ " words";
            "Install textstat for detailed metrics: pip install textstat";
            "Estimated reading level: Grade " ++ format_0f estimated_fk ];
        analysis_method := "fallback_basic" |}.

(** The six-step ladder of the library path. *)
Definition ease_level_of (ease : Q) : string * Z * bool :=
  if Qge_bool ease 80 then ("Very Easy - Perfect for marketers", 95, true)
  else if Qge_bool ease 70 then ("Easy - Good for marketers", 85, true)
  else if Qge_bool ease 60 then ("Standard - Acceptable for marketers", 75, true)
  else if Qge_bool ease 50 then ("Fairly Difficult - May challenge marketers", 60, false)
  else if Qge_bool ease 30 then ("Difficult - Too complex for marketers", 40, false)
  else ("Very Difficult - Inappropriate for marketers", 20, false).

Definition library_suggestions (m : LibraryMetrics) (avg_sentence_length : Q)
  : list string :=
  let fk := flesch_kincaid m in
  let fog := gunning_fog m in
  let ease := flesch_reading_ease m in
  [ "Flesch-Kincaid grade level is " ++ format_1f fk ++
    (if Qgt_bool fk 12 then " (college level) - aim for 8-10 for marketers"
     else if Qgt_bool fk 10 then " - consider simplifying for broader accessibility"
     else " - good level for marketers");
    "Gunning Fog index is " ++ format_1f fog ++
    (if Qgt_bool fog 12 then " - reduce complex words and long sentences"
     else if Qgt_bool fog 10 then " - good but could be more accessible"
     else " - excellent accessibility");
    "Reading ease score is " ++ format_1f ease ++
    (if Qlt_bool ease 60 then " - aim for 60+ for marketing content"
     else " - good accessibility");
    "Average sentence length is " ++ format_1f avg_sentence_length ++
    (if Qgt_bool avg_sentence_length 25 then " words - break up long sentences"
     else if Qgt_bool avg_sentence_length 20 then " words - consider shorter sentences"
     else " words - good length") ].

Definition analyze_readability_fixed (lib : library) (content : string)
  : res Analysis :=
  match lib content with
  | None => fallback_readability_analysis content
  | Some m =>
      avg_sentence_length <-
        (if 0 <? sentence_count m
         then pydiv (lexicon_count m) (sentence_count m) else Ok 0%Q) ;;
      let '(ease_level, ease_score, friendly) :=
        ease_level_of (flesch_reading_ease m) in
      Ok {| assessment := ease_level;
            score := ease_score;
            marketer_friendly := friendly;
            detailed_metrics :=
              [ ("flesch_kincaid_grade", round1 (flesch_kincaid m));
                ("gunning_fog_index", round1 (gunning_fog m));
                ("flesch_reading_ease", round1 (flesch_reading_ease m));
                ("automated_readability_index", round1 (automated_readability m));
                ("coleman_liau_index", round1 (coleman_liau m));
                ("word_count", inject_Z (lexicon_count m));
                ("sentence_count", inject_Z (sentence_count m));
                ("syllable_count", inject_Z (syllable_count m));
                ("avg_sentence_length", round1 avg_sentence_length) ];
            grade_level_interpretation :=
              [ ("flesch_kincaid", "Grade " ++ format_0f (flesch_kincaid m) ++ " level");
                ("target_audience", "Non-technical marketers");
                ("recommended_grade", "8-10 for optimal accessibility") ];
            suggestions := library_suggestions m avg_sentence_length;
            analysis_method := "textstat_library" |}
  end.

(** What a caller sees of a result once the method tag is put aside. *)
Definition without_method_tag (a : Analysis)
  : string * Z * bool * list (string * Q) * list (string * string) * list string :=
  (assessment a, score a, marketer_friendly a, detailed_metrics a,
   grade_level_interpretation a, suggestions a).

End TextstatAnalyzer.

(** ** revision_agent2.py: the completeness pass and the statistics *)

Module DocumentRevisionAgent.

(** An entry of [self.revision_log], without its time stamp. *)
Record RevisionEntry : Type := { category : string; description : string }.

Definition revision_log : Type := list RevisionEntry.

(** [log_change]: append to the log. *)
Definition log_change (category description : string) (log : revision_log)
  : revision_log :=
  (log ++ [ {| category := category; description := description |} ])%list.

Definition nl : string := String (ascii_of_nat 10) EmptyString.

Definition troubleshooting_block : string :=
  nl ++ nl ++ "Troubleshooting" ++ nl ++ nl ++ "If you encounter issues:" ++ nl
  ++ "- Check your permissions" ++ nl ++ "- Verify the data range selected" ++ nl
  ++ "- Contact support if problems persist".

Definition example_text : string :=
  nl ++ nl ++ "Example: If you sent 1,000 notifications to 500 users, your average notifications per user would be 2.0.".

(** The two tests the pass itself makes. *)
Definition mentions_troubleshooting (text : string) : bool :=
  PyStr.contains "troubleshoot" (PyStr.lower text)
  || PyStr.contains "problem" (PyStr.lower text).

Definition mentions_example (text : string) : bool :=
  PyStr.contains "example" (PyStr.lower text)
  || PyStr.contains "for instance" (PyStr.lower text).

(** [improve_completeness]: the text and the log are threaded through. *)
Definition improve_completeness (content : string) (log : revision_log)
  : string * revision_log :=
  let revised := content in
  let '(revised, log) :=
    if negb (mentions_troubleshooting revised)
    then (revised ++ troubleshooting_block,
          log_change "completeness" "Added Troubleshooting section" log)
    else (revised, log) in
  if negb (mentions_example revised)
  then
    if PyStr.contains "Key Metrics" revised
    then (PyStr.replace "Key Metrics"
            ("Key Metrics" ++ example_text ++ nl ++ nl ++ "Metrics Overview") revised,
          log_change "completeness" "Added usage example" log)
    else (revised, log)
  else (revised, log).

(** [re.split(r'[.!?]+', text)]: the pieces between the runs of sentence
    marks. *)
Definition is_mark (c : ascii) : bool :=
  Ascii.eqb c "." || Ascii.eqb c "!" || Ascii.eqb c "?".

Fixpoint split_marks_from (in_run : bool) (cur : list ascii) (s : string)
  : list string :=
  match s with
  | EmptyString => [string_of_list_ascii (rev cur)]
  | String c s' =>
      if is_mark c
      then if in_run then split_marks_from true cur s'
           else string_of_list_ascii (rev cur) :: split_marks_from true [] s'
      else split_marks_from false (c :: cur) s'
  end.

Definition split_marks (s : string) : list string := split_marks_from false [] s.

Record ContentStats : Type := {
  words : Z;
  sentences : Z;
  avg_sentence_length : Q
}.

Definition get_content_stats (content : string) : res ContentStats :=
  let words := Z.of_nat (List.length (PyStr.split_ws content)) in
  let sentences :=
    Z.of_nat (List.length
                (filter (fun s => PyStr.nonempty (PyStr.strip s))
                        (split_marks content))) in
  avg <- (if 0 <? sentences then pydiv words sentences else Ok 0%Q) ;;
  Ok {| words := words; sentences := sentences; avg_sentence_length := avg |}.

End DocumentRevisionAgent.

(** ** agent1_analyser.py: RobustWebScraper, the strategy driver

    The network calls are oracles: [direct], [session] and [get] stand
    for a request followed by [_parse_html], [None] when the request or
    the parse raises or the status is not 200. Delays and header
    randomisation are left out. *)

Module RobustWebScraper.

Import Agent1.

(** [_extract_article_id]: an [IndexError] ends in the [except] and
    gives [None], like a URL without [/articles/]. *)
Definition _extract_article_id (url : string) : option string :=
  if PyStr.contains "/articles/" url
  then
    match AdvancedAnalyzer.split_str "/articles/" url with
    | _ :: part :: _ =>
        match PyStr.split_char "-" part with
        | before_dash :: _ =>
            match PyStr.split_char "#" before_dash with
            | before_hash :: _ => Some before_hash
            | [] => None
            end
        | [] => None
        end
    | _ => None
    end
  else None.



(** The loop of [extract_content] over the outcomes of the strategies:
    the first document with more than 100 characters of content. *)
Fixpoint first_long_enough (outcomes : list (option Document)) : option Document :=
  match outcomes with
  | [] => None
  | Some d :: rest =>
      if (100 <? String.length (content d))%nat then Some d
      else first_long_enough rest
  | None :: rest => first_long_enough rest
  end.


End RobustWebScraper.

(** ** web_scraper.py: MoEngageScraper and test_with_analyzer *)

Module MoEngageScraper.

Import Agent1.

Definition extract_article_id (url : string) : option string :=
  if PyStr.contains "/articles/" url
  then
    match AdvancedAnalyzer.split_str "/articles/" url with
    | _ :: article_part :: _ =>
        match PyStr.split_char "-" article_part with
        | before_dash :: _ =>
            match PyStr.split_char "#" before_dash with
            | before_hash :: _ =>
                match PyStr.split_char "?" before_hash with
                | before_query :: _ => Some before_query
                | [] => None
                end
            | [] => None
            end
        | [] => None
        end
    | _ => None
    end
  else None.

(** What [parse_content] builds around the extracted document; it sets
    no [fallback] key, which reads as false. *)
Definition parsed (d : Document) : Scraper.Scraped :=
  {| Scraper.doc := d;
     Scraper.scraped_word_count := word_count (content d);
     Scraper.success := true;
     Scraper.fallback := false |}.

Fixpoint first_long_answer (get : string -> option Document) (urls : list string)
  : option Document :=
  match urls with
  | [] => None
  | alt_url :: rest =>
      match get alt_url with
      | Some d =>
          if (100 <? String.length (content d))%nat then Some d
          else first_long_answer get rest
      | None => first_long_answer get rest
      end
  end.

Definition alternative_format (get : string -> option Document) (url : string)
  : option Document :=
  match extract_article_id url with
  | None => None
  | Some article_id =>
      if PyStr.nonempty article_id
      then first_long_answer get
             [ "https://help.moengage.com/hc/en-us/articles/" ++ article_id;
               "https://help.moengage.com/hc/articles/" ++ article_id;
               PyStr.replace "#" "?section=" url ]
      else None
  end.

Definition scrape_article (direct session get : string -> option Document)
  (url : string) : Scraper.Scraped :=
  match
    RobustWebScraper.first_long_enough
      [direct url; session url; alternative_format get url]
  with
  | Some d => parsed d
  | None => Scraper.create_fallback_content url
  end.

Record QuickAnalysis : Type := {
  scraped_successfully : bool;
  stat_word_count : Z;
  stat_sentence_count : Z;
  stat_avg_sentence_length : Q;
  readability_score : Z;
  readability_assessment : string;
  structure_score : Z;
  completeness_score : Z;
  style_score : Z;
  overall_score : Q;
  grade : string
}.

(** [test_with_analyzer], without the file it writes. *)
Definition test_with_analyzer (scraped_content : Scraper.Scraped)
  : res QuickAnalysis :=
  let d := Scraper.doc scraped_content in
  let words := PyStr.split_ws (content d) in
  let sentences := sentences_of (content d) in
  let word_count := Z.of_nat (List.length words) in
  let sentence_count := Z.of_nat (List.length sentences) in
  avg_sentence_length <-
    (if 0 <? sentence_count then pydiv word_count sentence_count else Ok 0%Q) ;;
  let '(readability_score, readability_assessment) :=
    if Qgt_bool avg_sentence_length 25
    then (45, "Complex - may be difficult for marketers")
    else if Qgt_bool avg_sentence_length 20
    then (70, "Moderate - acceptable for marketers")
    else (85, "Good - appropriate for marketers") in
  let structure_score :=
    if (3 <=? List.length (headings d))%nat then 75 else 60 in
  let completeness_score := if 300 <? word_count then 70 else 50 in
  let has_you := PyStr.contains "you" (PyStr.lower (content d)) in
  let style_score := if has_you then 75 else 60 in
  overall <-
    pydiv (readability_score + structure_score + completeness_score + style_score) 4 ;;
  Ok {| scraped_successfully := Scraper.success scraped_content;
        stat_word_count := word_count;
        stat_sentence_count := sentence_count;
        stat_avg_sentence_length := round1 avg_sentence_length;
        readability_score := readability_score;
        readability_assessment := readability_assessment;
        structure_score := structure_score;
        completeness_score := completeness_score;
        style_score := style_score;
        overall_score := round1 overall;
        grade := if Qge_bool overall 90 then "A"
                 else if Qge_bool overall 80 then "B"
                 else if Qge_bool overall 70 then "C"
                 else if Qge_bool overall 60 then "D"
                 else "F" |}.

End MoEngageScraper.

(** ** llm_integration.py: the driver of AdvancedAnalyzer

    [hf] stands for the request to the inference API: the body of a
    response with status 200, [None] for another status or a failed
    request. [openai_key] tells whether a usable key is configured. *)

Module AdvancedDriver.

Import AdvancedAnalyzer.

(** [check_available_methods]: the Hugging Face test is [... or True]. *)
Definition check_available_methods (openai_key : bool) : list string :=
  ((if openai_key then ["openai"] else []) ++ ["huggingface"] ++ ["local"])%list.

(** [parse_hf_response] does not look at the response: its body is the
    body of [analyze_with_local_advanced]. *)
Definition parse_hf_response (hf_result content : string)
  : res (list (string * Dimension)) :=
  analyze_with_local_advanced content.

(** [analyze_with_huggingface]: an exception of the parse is caught and
    gives [None]. *)
Definition analyze_with_huggingface (hf : string -> option string)
  (content : string) : option (list (string * Dimension)) :=
  match hf content with
  | Some hf_result =>
      match parse_hf_response hf_result content with
      | Ok result => Some result
      | Raise _ => None
      end
  | None => None
  end.

Record Overall : Type := {
  method_used : string;
  analysis_results : list (string * Dimension);
  overall_score : Q;
  grade : string;
  category_scores : list (string * Z)
}.

Definition comprehensive_analysis (openai_key : bool)
  (hf : string -> option string) (content : string) : res Overall :=
  let available_methods := check_available_methods openai_key in
  let result :=
    if existsb (String.eqb "huggingface") available_methods
    then analyze_with_huggingface hf content
    else None in
  result <-
    match result with
    | Some r => Ok r
    | None => analyze_with_local_advanced content
    end ;;
  let scores := map (fun area => score (snd area)) result in
  overall <-
    pydiv (fold_left Z.add scores 0) (Z.of_nat (List.length scores)) ;;
  Ok {| method_used :=
          if negb (existsb (String.eqb "huggingface") available_methods)
          then "local_advanced" else "huggingface";
        analysis_results := result;
        overall_score := round1 overall;
        grade := if Agent1.Qge_bool overall 90 then "A"
                 else if Agent1.Qge_bool overall 80 then "B"
                 else if Agent1.Qge_bool overall 70 then "C"
                 else if Agent1.Qge_bool overall 60 then "D"
                 else "F";
        category_scores := map (fun area => (fst area, score (snd area))) result |}.

End AdvancedDriver.

(** ** revision_agent2.py: the readability pass and the summary *)

Module DocumentRevision.

Import DocumentRevisionAgent.

Definition jargon_replacements : list (string * string) :=
  [ ("SDK", "software development kit (SDK)");
    ("API", "programming interface (API)");
    ("configure", "set up");
    ("implementation", "setup");
    ("utilize", "use");
    ("facilitate", "help with");
    ("initialize", "start");
    ("instantiate", "create") ].

Definition wordy_replacements : list (string * string) :=
  [ ("in order to", "to");
    ("due to the fact that", "because");
    ("at this point in time", "now");
    ("it is important to note that", EmptyString);
    ("please be aware that", EmptyString) ].

(** [split_sentences] *)
Definition split_sentences (text : string) : list string :=
  map PyStr.strip
      (filter (fun s => PyStr.nonempty (PyStr.strip s)) (split_marks text)).

(** [s.split(sep, 1)]: the text before and after the first occurrence of
    a non-empty [sep], or nothing when there is none. *)
Fixpoint split_once_from (sep : string) (cur : list ascii) (s : string)
  : option (string * string) :=
  match s with
  | EmptyString => None
  | String c s' =>
      if prefix sep s
      then Some (string_of_list_ascii (rev cur),
                 substring (String.length sep) (String.length s) s)
      else split_once_from sep (c :: cur) s'
  end.

Definition split_once (sep s : string) : option (string * string) :=
  split_once_from sep [] s.

(** [s.capitalize()] *)
Definition capitalize (s : string) : string :=
  match s with
  | EmptyString => EmptyString
  | String c s' => String (PyStr.upper_char c) (PyStr.lower s')
  end.

Definition conjunctions : list string :=
  [" and "; " but "; " however "; " therefore "; " because "].

(** [simplify_sentence]: the loop over the conjunctions. *)
Fixpoint simplify_with (conjs : list string) (sentence : string) : string :=
  match conjs with
  | [] => sentence
  | conjunction :: rest =>
      if PyStr.contains conjunction (PyStr.lower sentence)
      then
        match split_once conjunction sentence with
        | Some (part0, part1) =>
            if (8 <? List.length (PyStr.split_ws part0))%nat
               && (8 <? List.length (PyStr.split_ws part1))%nat
            then PyStr.strip part0 ++ ". " ++ capitalize (PyStr.strip part1)
            else simplify_with rest sentence
        | None => simplify_with rest sentence
        end
      else simplify_with rest sentence
  end.

Definition simplify_sentence (sentence : string) : string :=
  simplify_with conjunctions sentence.

(** [re.sub(re.escape(old), new, s, flags=re.IGNORECASE)] for a
    non-empty lower-case [old] of letters and blanks: leftmost,
    non-overlapping matches, whatever the letter case. *)
Fixpoint replace_ci_from (old new : string) (skip : nat) (s : string) : string :=
  match s with
  | EmptyString => EmptyString
  | String c s' =>
      match skip with
      | S k => replace_ci_from old new k s'
      | O =>
          if prefix old (PyStr.lower s)
          then new ++ replace_ci_from old new (String.length old - 1) s'
          else String c (replace_ci_from old new 0 s')
      end
  end.

Definition replace_ci (old new s : string) : string := replace_ci_from old new 0 s.

(** The first loop of [improve_readability]. *)
Fixpoint replace_jargon (table : list (string * string)) (revised : string)
  (log : revision_log) : string * revision_log :=
  match table with
  | [] => (revised, log)
  | (jargon, replacement) :: rest =>
      if PyStr.contains jargon revised
      then replace_jargon rest (PyStr.replace jargon replacement revised)
             (log_change "readability"
                ("Replaced '" ++ jargon ++ "' with '" ++ replacement ++ "'") log)
      else replace_jargon rest revised log
  end.

(** The second loop: the sentences over 25 words are handed to
    [simplify_sentence]. *)
Fixpoint simplify_long (sentences : list string) (log : revision_log)
  : list string * revision_log :=
  match sentences with
  | [] => ([], log)
  | sentence :: rest =>
      let n := List.length (PyStr.split_ws sentence) in
      if (25 <? n)%nat
      then
        let simplified := simplify_sentence sentence in
        if String.eqb simplified sentence
        then let '(out, log') := simplify_long rest log in (sentence :: out, log')
        else
          let '(out, log') :=
            simplify_long rest
              (log_change "readability"
                 ("Split long sentence (" ++ PyStr.of_Z (Z.of_nat n) ++ " words)")
                 log) in
          (simplified :: out, log')
      else let '(out, log') := simplify_long rest log in (sentence :: out, log')
  end.

(** The third loop. *)
Fixpoint replace_wordy (table : list (string * string)) (revised : string)
  (log : revision_log) : string * revision_log :=
  match table with
  | [] => (revised, log)
  | (wordy, simple) :: rest =>
      if PyStr.contains wordy (PyStr.lower revised)
      then replace_wordy rest (replace_ci wordy simple revised)
             (log_change "readability"
                ("Simplified '" ++ wordy ++ "' to '" ++ simple ++ "'") log)
      else replace_wordy rest revised log
  end.

Definition improve_readability (content : string) (log : revision_log)
  : string * revision_log :=
  let '(revised, log) := replace_jargon jargon_replacements content log in
  let '(new_sentences, log) := simplify_long (split_sentences revised) log in
  replace_wordy wordy_replacements (PyStr.join " " new_sentences) log.

(** The counting loop of [generate_revision_summary]: a dict in
    insertion order. *)
Fixpoint bump (category : string) (d : list (string * Z)) : list (string * Z) :=
  match d with
  | [] => [(category, 0 + 1)]
  | (k, n) :: d' =>
      if String.eqb k category then (k, n + 1) :: d'
      else (k, n) :: bump category d'
  end.

Definition changes_by_category (log : revision_log) : list (string * Z) :=
  fold_left (fun d log_entry => bump (category log_entry) d) log [].

(** [estimate_readability_improvement] *)
Definition estimate_readability_improvement (original revised : string)
  : res string :=
  original_stats <- get_content_stats original ;;
  revised_stats <- get_content_stats revised ;;
  let original_avg := avg_sentence_length original_stats in
  let revised_avg := avg_sentence_length revised_stats in
  Ok (if Agent1.Qlt_bool revised_avg original_avg
      then "Improved: " ++ format_1f original_avg ++ " → "
           ++ format_1f revised_avg ++ " avg words/sentence"
      else "Maintained sentence length").

(** [f"{n:+d}"] *)
Definition format_signed (n : Z) : string :=
  if n <? 0 then PyStr.of_Z n else "+" ++ PyStr.of_Z n.

Record Summary : Type := {
  total_revisions : nat;
  summary_changes_by_category : list (string * Z);
  word_count_change : string;
  sentence_count_change : string;
  readability_improvement : string;
  revision_categories : list string
}.

Definition generate_revision_summary (log : revision_log)
  (original revised : string) : res Summary :=
  original_stats <- get_content_stats original ;;
  revised_stats <- get_content_stats revised ;;
  let counts := changes_by_category log in
  improvement <- estimate_readability_improvement original revised ;;
  Ok {| total_revisions := List.length log;
        summary_changes_by_category := counts;
        word_count_change :=
          PyStr.of_Z (words original_stats) ++ " → " ++ PyStr.of_Z (words revised_stats)
          ++ " (" ++ format_signed (words revised_stats - words original_stats) ++ ")";
        sentence_count_change :=
          PyStr.of_Z (sentences original_stats) ++ " → "
          ++ PyStr.of_Z (sentences revised_stats)
          ++ " (" ++ format_signed (sentences revised_stats - sentences original_stats)
          ++ ")";
        readability_improvement := improvement;
        revision_categories := map fst counts |}.

End DocumentRevision.

(** * Properties *)

(** ** The string and number primitives on small inputs *)

Example split_ws_ex :
  PyStr.split_ws "  To access  the report " = ["To"; "access"; "the"; "report"].
Proof. reflexivity. Qed.

Example sentences_of_ex :
  sentences_of "Hi there! How are you?  Fine. " = ["Hi there"; "How are you"; "Fine"].
Proof. reflexivity. Qed.

Example title_ex : PyStr.title "readability" = "Readability".
Proof. reflexivity. Qed.

Example replace_ex : PyStr.replace "ab" "X" "aabab-abb" = "aXX-Xb".
Proof. reflexivity. Qed.

Example format_1f_ex : format_1f (1234 # 100) = "12.3" /\ format_1f (-(5 # 100)) = "-0.0".
Proof. split; reflexivity. Qed.

Example istitle_ex :
  AdvancedAnalyzer.istitle "Key Metrics" = true
  /\ AdvancedAnalyzer.istitle "How to Access the Report" = false.
Proof. split; reflexivity. Qed.

Example split_marks_ex :
  DocumentRevisionAgent.split_marks "Hi there!? Fine." = ["Hi there"; " Fine"; EmptyString].
Proof. reflexivity. Qed.

(** ** Shared facts about the scorers *)

Lemma bind_ok {A B : Type} (m : res A) (k : A -> res B) (a : A) :
  m = Ok a -> bind m k = k a.
Proof. intros ->. reflexivity. Qed.

Lemma pydiv_returns (a b : Z) : b <> 0 -> exists q, pydiv a b = Ok q.
Proof.
  intros Hb. unfold pydiv.
  destruct (Z.eqb_spec b 0) as [E | _]; [contradiction | eauto].
Qed.

Lemma pydiv_zero (a : Z) : pydiv a 0 = Raise ZeroDivisionError.
Proof. reflexivity. Qed.

Lemma length_cons_nonzero {A : Type} (x : A) (l : list A) :
  Z.of_nat (List.length (x :: l)) <> 0.
Proof. cbn [List.length]. lia. Qed.

Lemma or_affirm_length (affirm : string) (l : list string) :
  (1 <= List.length (Agent1.or_affirm affirm l))%nat.
Proof. destruct l; cbn; lia. Qed.

Lemma or_affirm_nil (affirm : string) : Agent1.or_affirm affirm [] = [affirm].
Proof. reflexivity. Qed.

(** A check never raises the score, lowers it by at most its penalty, and
    leaves the score untouched exactly when it adds no suggestion. *)
Lemma penalize_spec (trigger : bool) (s : string) (p : Z) (st : Z * list string) :
  (trigger = false /\ Agent1.penalize trigger s p st = st)
  \/ (trigger = true
      /\ Agent1.penalize trigger s p st = (fst st - p, (snd st ++ [s])%list)).
Proof. destruct trigger; cbn; auto. Qed.

Ltac split_ifs :=
  repeat match goal with
         | |- context [if ?b then _ else _] => destruct b
         | |- context [match ?l with [] => _ | _ :: _ => _ end] => destruct l
         end.

(** ** The rich-path structure scorer *)

Lemma structure_checks_range (content : string) (d : Agent1.Document) :
  25 <= fst (Agent1.structure_checks content d) <= 70.
Proof.
  unfold Agent1.structure_checks, Agent1.penalize.
  split_ifs; cbn [fst snd]; lia.
Qed.

Lemma structure_checks_affirm (content : string) (d : Agent1.Document) :
  snd (Agent1.structure_checks content d) = []
  <-> fst (Agent1.structure_checks content d) = 70.
Proof.
  unfold Agent1.structure_checks, Agent1.penalize.
  split_ifs; cbn [fst snd app]; split; intros H; try reflexivity; try lia;
    try discriminate H.
Qed.

Lemma analyze_structure_score (content : string) (d : Agent1.Document) :
  Agent1.score (Agent1._analyze_structure content d)
  = Z.max 30 (fst (Agent1.structure_checks content d)).
Proof.
  unfold Agent1._analyze_structure.
  destruct (Agent1.structure_checks content d); reflexivity.
Qed.

Lemma analyze_structure_suggestions (content : string) (d : Agent1.Document) :
  Agent1.suggestions (Agent1._analyze_structure content d)
  = Agent1.or_affirm Agent1.affirm_structure
      (snd (Agent1.structure_checks content d)).
Proof.
  unfold Agent1._analyze_structure.
  destruct (Agent1.structure_checks content d); reflexivity.
Qed.

(** C9. For every input the rich-path structure scorer returns a score
    between 30 and 70: the checks only subtract from the base 70 and the
    result is clamped below at 30, so the score never exceeds 70 and in
    particular never reaches 100. The base 70 is attained (on the seed
    article). *)
Theorem structure_score_in_30_70 :
  (forall content d,
      30 <= Agent1.score (Agent1._analyze_structure content d) <= 70)
  /\ (forall content d, fst (Agent1.structure_checks content d) <= 70)
  /\ (forall content d, Agent1.score (Agent1._analyze_structure content d) <> 100)
  /\ Agent1.score
       (Agent1._analyze_structure Agent1.fallback_text
          (Agent1._get_fallback_content "https://help.moengage.com")) = 70.
Proof.
  assert (R : forall content d,
             30 <= Agent1.score (Agent1._analyze_structure content d) <= 70).
  { intros content d. rewrite analyze_structure_score.
    pose proof (structure_checks_range content d). lia. }
  split; [exact R | split; [| split]].
  - intros content d. apply structure_checks_range.
  - intros content d. specialize (R content d). lia.
  - vm_compute. reflexivity.
Qed.

(** ** The completeness and style scorers *)

Lemma completeness_checks_range (content : string) :
  15 <= fst (Agent1.completeness_checks content) <= 70.
Proof.
  unfold Agent1.completeness_checks, Agent1.penalize.
  split_ifs; cbn [fst snd]; lia.
Qed.

Lemma completeness_checks_affirm (content : string) :
  snd (Agent1.completeness_checks content) = []
  <-> fst (Agent1.completeness_checks content) = 70.
Proof.
  unfold Agent1.completeness_checks, Agent1.penalize.
  split_ifs; cbn [fst snd app]; split; intros H; try reflexivity; try lia;
    try discriminate H.
Qed.

Lemma analyze_completeness_score (content : string) :
  Agent1.score (Agent1._analyze_completeness content)
  = Z.max 30 (fst (Agent1.completeness_checks content)).
Proof.
  unfold Agent1._analyze_completeness.
  destruct (Agent1.completeness_checks content); reflexivity.
Qed.

Lemma analyze_completeness_suggestions (content : string) :
  Agent1.suggestions (Agent1._analyze_completeness content)
  = Agent1.or_affirm Agent1.affirm_completeness
      (snd (Agent1.completeness_checks content)).
Proof.
  unfold Agent1._analyze_completeness.
  destruct (Agent1.completeness_checks content); reflexivity.
Qed.

Lemma style_checks_range (content : string) :
  30 <= fst (Agent1.style_checks content) <= 75.
Proof.
  unfold Agent1.style_checks, Agent1.penalize.
  split_ifs; cbn [fst snd]; lia.
Qed.

Lemma style_checks_affirm (content : string) :
  snd (Agent1.style_checks content) = []
  <-> fst (Agent1.style_checks content) = 75.
Proof.
  unfold Agent1.style_checks, Agent1.penalize.
  split_ifs; cbn [fst snd app]; split; intros H; try reflexivity; try lia;
    try discriminate H.
Qed.

Lemma analyze_style_score (content : string) :
  Agent1.score (Agent1._analyze_style content)
  = Z.max 40 (fst (Agent1.style_checks content)).
Proof.
  unfold Agent1._analyze_style.
  destruct (Agent1.style_checks content); reflexivity.
Qed.

Lemma analyze_style_suggestions (content : string) :
  Agent1.suggestions (Agent1._analyze_style content)
  = Agent1.or_affirm Agent1.affirm_style (snd (Agent1.style_checks content)).
Proof.
  unfold Agent1._analyze_style.
  destruct (Agent1.style_checks content); reflexivity.
Qed.

(** ** The readability scorer *)

Lemma score_of_ease_cases (ease : Q) :
  Agent1.score_of_ease ease = (95, "Excellent for marketers")
  \/ Agent1.score_of_ease ease = (80, "Good for marketers")
  \/ Agent1.score_of_ease ease = (65, "Acceptable for marketers")
  \/ Agent1.score_of_ease ease = (45, "Challenging for marketers")
  \/ Agent1.score_of_ease ease = (25, "Too complex for marketers").
Proof.
  unfold Agent1.score_of_ease. split_ifs; auto 6.
Qed.

(** The guard [if sentences else 20] keeps the fallback division away
    from a zero denominator. *)
Lemma readability_indices_returns (ts : Agent1.textstat) (content : string) :
  exists m, Agent1.readability_indices ts content = Ok m.
Proof.
  unfold Agent1.readability_indices.
  destruct (ts content) as [m | ]; [eauto | ].
  destruct (sentences_of content) as [ | s l] eqn:E.
  - cbn. eauto.
  - destruct (pydiv_returns (Z.of_nat (List.length (PyStr.split_ws content)))
                (Z.of_nat (List.length (s :: l)))) as [q Hq].
    { apply length_cons_nonzero. }
    rewrite Hq. cbn. eauto.
Qed.

Lemma analyze_readability_ok (ts : Agent1.textstat) (content : string)
  (m : Agent1.TextstatScores) :
  Agent1.readability_indices ts content = Ok m ->
  Agent1._analyze_readability ts content
  = Ok {| Agent1.score := fst (Agent1.score_of_ease (Agent1.ease_score m));
          Agent1.assessment := snd (Agent1.score_of_ease (Agent1.ease_score m));
          Agent1.metrics :=
            [ ("flesch_kincaid_grade", round1 (Agent1.fk_grade m));
              ("gunning_fog_index", round1 (Agent1.fog_index m));
              ("reading_ease_score", round1 (Agent1.ease_score m)) ];
          Agent1.suggestions := Agent1.readability_suggestions m content |}.
Proof.
  intros H. unfold Agent1._analyze_readability. rewrite H. cbn [bind].
  destruct (Agent1.score_of_ease (Agent1.ease_score m)); reflexivity.
Qed.

Lemma readability_suggestions_length (m : Agent1.TextstatScores) (content : string) :
  (1 <= List.length (Agent1.readability_suggestions m content))%nat.
Proof.
  unfold Agent1.readability_suggestions.
  match goal with
  | |- context [match ?l with [] => _ | _ :: _ => ?l end] => destruct l
  end; cbn [List.length]; lia.
Qed.

(** No trigger (grade level at most 10, fog index at most 12, no jargon
    term, no sentence over 25 words): exactly the affirming suggestion. *)
Lemma readability_suggestions_affirm (m : Agent1.TextstatScores) (content : string) :
  Agent1.Qgt_bool (Agent1.fk_grade m) 10 = false ->
  Agent1.Qgt_bool (Agent1.fog_index m) 12 = false ->
  Agent1._detect_jargon content = [] ->
  Agent1.long_sentences content = [] ->
  Agent1.readability_suggestions m content = [Agent1.affirm_readability].
Proof.
  intros H1 H2 H3 H4. unfold Agent1.readability_suggestions.
  rewrite H1, H2, H3, H4. reflexivity.
Qed.

(** The four scorers of the analysis engine always return: scores within
    [25, 95], [30, 70], [30, 70] and [40, 75], at least one suggestion
    each. *)
Lemma analysis_engine_results (ts : Agent1.textstat) (content : string)
  (d : Agent1.Document) :
  exists rd,
    Agent1._analyze_readability ts content = Ok rd
    /\ Agent1.perform_comprehensive_analysis ts content d
       = Ok [ ("readability", rd);
              ("structure", Agent1._analyze_structure content d);
              ("completeness", Agent1._analyze_completeness content);
              ("style", Agent1._analyze_style content) ]
    /\ In (Agent1.score rd) [95; 80; 65; 45; 25]
    /\ (1 <= List.length (Agent1.suggestions rd))%nat
    /\ 30 <= Agent1.score (Agent1._analyze_structure content d) <= 70
    /\ (1 <= List.length (Agent1.suggestions (Agent1._analyze_structure content d)))%nat
    /\ 30 <= Agent1.score (Agent1._analyze_completeness content) <= 70
    /\ (1 <= List.length (Agent1.suggestions (Agent1._analyze_completeness content)))%nat
    /\ 40 <= Agent1.score (Agent1._analyze_style content) <= 75
    /\ (1 <= List.length (Agent1.suggestions (Agent1._analyze_style content)))%nat.
Proof.
  destruct (readability_indices_returns ts content) as [m Hm].
  pose proof (analyze_readability_ok ts content m Hm) as Hr.
  eexists. split; [exact Hr | ].
  split. { unfold Agent1.perform_comprehensive_analysis. rewrite Hr. reflexivity. }
  cbn [Agent1.score Agent1.suggestions].
  split.
  { destruct (score_of_ease_cases (Agent1.ease_score m))
      as [E | [E | [E | [E | E]]]]; rewrite E; cbn; auto 6. }
  split. { apply readability_suggestions_length. }
  rewrite analyze_structure_score, analyze_structure_suggestions.
  rewrite analyze_completeness_score, analyze_completeness_suggestions.
  rewrite analyze_style_score, analyze_style_suggestions.
  pose proof (structure_checks_range content d).
  pose proof (completeness_checks_range content).
  pose proof (style_checks_range content).
  repeat split; try lia; apply or_affirm_length.
Qed.

(** ** Comparisons of numbers *)

Lemma Qge_bool_true (x y : Q) : Agent1.Qge_bool x y = true <-> (y <= x)%Q.
Proof. unfold Agent1.Qge_bool. apply Qle_bool_iff. Qed.

Lemma Qge_bool_false (x y : Q) : Agent1.Qge_bool x y = false <-> (x < y)%Q.
Proof.
  unfold Agent1.Qge_bool. split.
  - intros H. apply Qnot_le_lt. intros L. apply Qle_bool_iff in L. congruence.
  - intros H. destruct (Qle_bool y x) eqn:E; [ | reflexivity].
    apply Qle_bool_iff in E. exfalso. exact (Qlt_not_le _ _ H E).
Qed.

Lemma Qge_bool_reflect (x y : Q) :
  (Agent1.Qge_bool x y = true /\ (y <= x)%Q)
  \/ (Agent1.Qge_bool x y = false /\ (x < y)%Q).
Proof.
  destruct (Agent1.Qge_bool x y) eqn:E.
  - left. split; [reflexivity | now apply Qge_bool_true].
  - right. split; [reflexivity | now apply Qge_bool_false].
Qed.

Lemma Qlt_bool_true (x y : Q) : Agent1.Qlt_bool x y = true <-> (x < y)%Q.
Proof.
  unfold Agent1.Qlt_bool. rewrite negb_true_iff.
  exact (Qge_bool_false x y).
Qed.

Ltac ladder e :=
  repeat match goal with
         | |- context [Agent1.Qge_bool e ?n] =>
             let E := fresh "E" in
             let L := fresh "L" in
             destruct (Qge_bool_reflect e n) as [[E L] | [E L]]; rewrite E
         end.

Ltac absurd_order :=
  match goal with
  | H1 : (?a <= ?e)%Q, H2 : (?e < ?b)%Q |- _ =>
      exfalso; apply (Qlt_irrefl e);
      apply (Qlt_le_trans _ b); [exact H2 | ];
      apply (Qle_trans _ a); [ | exact H1];
      unfold Qle; cbn; lia
  end.

(** ** The step function of the readability scorer *)

Lemma score_of_ease_steps (ease : Q) :
  ((70 <= ease)%Q -> fst (Agent1.score_of_ease ease) = 95)
  /\ ((60 <= ease)%Q /\ (ease < 70)%Q -> fst (Agent1.score_of_ease ease) = 80)
  /\ ((50 <= ease)%Q /\ (ease < 60)%Q -> fst (Agent1.score_of_ease ease) = 65)
  /\ ((40 <= ease)%Q /\ (ease < 50)%Q -> fst (Agent1.score_of_ease ease) = 45)
  /\ ((ease < 40)%Q -> fst (Agent1.score_of_ease ease) = 25).
Proof.
  unfold Agent1.score_of_ease.
  split; [ | split; [ | split; [ | split]]].
  - intros H. ladder ease; try reflexivity; absurd_order.
  - intros [H H']. ladder ease; try reflexivity; absurd_order.
  - intros [H H']. ladder ease; try reflexivity; absurd_order.
  - intros [H H']. ladder ease; try reflexivity; absurd_order.
  - intros H. ladder ease; try reflexivity; absurd_order.
Qed.

(** C3. The readability score is a step function of the ease index the
    scorer works with: at least 70 gives 95, from 60 up to 70 gives 80,
    from 50 up to 60 gives 65, from 40 up to 50 gives 45, below 40 gives
    25; the boundaries are exact (70.0 gives 95, 69.999 gives 80). The
    scorer returns on every text and applies this ladder to the ease
    index of either path. *)
Theorem readability_score_is_step_function :
  (forall ts content m,
      Agent1.readability_indices ts content = Ok m ->
      exists r,
        Agent1._analyze_readability ts content = Ok r
        /\ Agent1.score r = fst (Agent1.score_of_ease (Agent1.ease_score m)))
  /\ (forall ts content, exists m, Agent1.readability_indices ts content = Ok m)
  /\ (forall ease : Q,
         ((70 <= ease)%Q -> fst (Agent1.score_of_ease ease) = 95)
         /\ ((60 <= ease)%Q /\ (ease < 70)%Q -> fst (Agent1.score_of_ease ease) = 80)
         /\ ((50 <= ease)%Q /\ (ease < 60)%Q -> fst (Agent1.score_of_ease ease) = 65)
         /\ ((40 <= ease)%Q /\ (ease < 50)%Q -> fst (Agent1.score_of_ease ease) = 45)
         /\ ((ease < 40)%Q -> fst (Agent1.score_of_ease ease) = 25))
  /\ fst (Agent1.score_of_ease 70) = 95
  /\ fst (Agent1.score_of_ease (69999 # 1000)) = 80.
Proof.
  split; [ | split; [ | split; [ | split]]].
  - intros ts content m H. eexists. split.
    + apply analyze_readability_ok. exact H.
    + reflexivity.
  - apply readability_indices_returns.
  - apply score_of_ease_steps.
  - reflexivity.
  - reflexivity.
Qed.

(** The ladder at one value of each bucket, through the scorer itself. *)
Lemma readability_score_is_step_function_witness :
  let ts (ease : Q) : Agent1.textstat :=
    fun _ => Some {| Agent1.fk_grade := 8; Agent1.fog_index := 9;
                     Agent1.ease_score := ease |} in
  (exists r, Agent1._analyze_readability (ts 72%Q) "Click the button." = Ok r
             /\ Agent1.score r = 95)
  /\ fst (Agent1.score_of_ease (65 # 1)) = 80
  /\ fst (Agent1.score_of_ease (399 # 10)) = 25.
Proof.
  intros ts.
  destruct readability_score_is_step_function as [Hrun [_ [Hstep _]]].
  split; [ | split].
  - destruct (Hrun (ts 72%Q) "Click the button." _ eq_refl) as [r [Hr Hs]].
    exists r. split; [exact Hr | ]. rewrite Hs. reflexivity.
  - apply (proj1 (proj2 (Hstep (65 # 1)))). split; unfold Qle, Qlt; cbn; lia.
  - apply (proj2 (proj2 (proj2 (proj2 (Hstep (399 # 10)))))). unfold Qlt; cbn; lia.
Defined.

(** ** The report synthesizer *)

(** Every division of [_assess_complexity] sits behind its guard. *)
Lemma assess_complexity_returns (content : string) :
  exists c, Agent1._assess_complexity content = Ok c.
Proof.
  unfold Agent1._assess_complexity.
  set (words := PyStr.split_ws content).
  set (sentences := sentences_of content).
  assert (Hr : exists q,
             match words with
             | [] => Ok 0%Q
             | _ :: _ =>
                 pydiv (Z.of_nat (List.length
                          (filter (fun w => (8 <? String.length w)%nat) words)))
                       (Z.of_nat (List.length words))
             end = Ok q).
  { destruct words as [ | w ws]; [eauto | ].
    apply pydiv_returns, length_cons_nonzero. }
  destruct Hr as [ratio ->]. cbn [bind].
  destruct sentences as [ | s ss]; cbn [bind]; [eauto | ].
  destruct (pydiv_returns (Z.of_nat (List.length words))
              (Z.of_nat (List.length (s :: ss)))) as [q Hq].
  { apply length_cons_nonzero. }
  rewrite Hq. cbn [bind]. eauto.
Qed.

Lemma synthesize_results_ok (doc : Agent1.Document)
  (rd st cp sy : Agent1.DimensionResult) :
  let results :=
    [ ("readability", rd); ("structure", st); ("completeness", cp); ("style", sy) ] in
  let dot :=
    (0 + inject_Z (Agent1.score rd) * (4 # 10)
       + inject_Z (Agent1.score st) * (2 # 10)
       + inject_Z (Agent1.score cp) * (25 # 100)
       + inject_Z (Agent1.score sy) * (15 # 100))%Q in
  Agent1.weighted_sum results Agent1.weights 0%Q = Ok dot
  /\ exists report,
       Agent1._synthesize_results doc results = Ok report
       /\ Agent1.dimensional_analysis report = results
       /\ Agent1.weighted_score report = round1 dot
       /\ Agent1.letter_grade report = Agent1._calculate_grade dot
       /\ Agent1.marketer_accessibility report = Agent1.marketer_accessibility_of dot
       /\ Agent1.prioritized_recommendations report
          = Agent1._generate_action_items results.
Proof.
  intros results dot.
  assert (Hw : Agent1.weighted_sum results Agent1.weights 0%Q = Ok dot)
    by reflexivity.
  split; [exact Hw | ].
  unfold Agent1._synthesize_results. rewrite Hw. cbn [bind].
  destruct (assess_complexity_returns (Agent1.content doc)) as [c ->].
  cbn [bind].
  assert (Hb : exists b, Agent1._assess_business_impact results dot = Ok b).
  { unfold Agent1._assess_business_impact. subst results. cbn [Agent1.lookup String.eqb bind].
    cbn. split_ifs; eauto. }
  destruct Hb as [b ->]. cbn [bind].
  eexists. split; [reflexivity | ]. cbn. repeat split.
Qed.





(** ** The stable descending sort *)

Lemma key_ltb_spec (a b : Z * Z) :
  Agent1.key_ltb a b = true
  <-> fst a < fst b \/ (fst a = fst b /\ snd a < snd b).
Proof.
  unfold Agent1.key_ltb.
  rewrite orb_true_iff, andb_true_iff, !Z.ltb_lt, Z.eqb_eq. reflexivity.
Qed.

Lemma key_ltb_false (a b : Z * Z) :
  Agent1.key_ltb a b = false
  <-> fst a > fst b \/ (fst a = fst b /\ snd a >= snd b).
Proof.
  destruct (Agent1.key_ltb a b) eqn:E.
  - apply key_ltb_spec in E. split; [discriminate | lia].
  - split; [intros _ | reflexivity].
    assert (N : ~ (fst a < fst b \/ (fst a = fst b /\ snd a < snd b))).
    { intros H. apply key_ltb_spec in H. congruence. }
    lia.
Qed.

Lemma key_eqb_spec (a b : Z * Z) : Agent1.key_eqb a b = true <-> a = b.
Proof.
  unfold Agent1.key_eqb. rewrite andb_true_iff, !Z.eqb_eq.
  destruct a, b; cbn. split; [intros [-> ->]; reflexivity | ].
  intros H; inversion H; auto.
Qed.

Section StableSortFacts.

Context {A : Type} (key : A -> Z * Z).

(** [a] may stand before [b]: its key is not smaller. *)
Definition not_below (a b : A) : Prop :=
  fst (key a) > fst (key b)
  \/ (fst (key a) = fst (key b) /\ snd (key a) >= snd (key b)).

Definition same_key (k : Z * Z) (x : A) : bool := Agent1.key_eqb (key x) k.

Lemma not_below_trans (a b c : A) :
  not_below a b -> not_below b c -> not_below a c.
Proof. unfold not_below. lia. Qed.

Lemma insert_desc_perm (x : A) (l : list A) :
  Permutation (Agent1.insert_desc key x l) (x :: l).
Proof.
  induction l as [ | y l IH]; cbn.
  - apply Permutation_refl.
  - destruct (Agent1.key_ltb (key x) (key y)).
    + apply perm_trans with (y :: x :: l).
      * apply perm_skip. exact IH.
      * apply perm_swap.
    + apply Permutation_refl.
Qed.

Lemma sort_desc_perm (l : list A) : Permutation (Agent1.sort_desc key l) l.
Proof.
  induction l as [ | x l IH]; cbn.
  - apply perm_nil.
  - apply perm_trans with (x :: Agent1.sort_desc key l).
    + apply insert_desc_perm.
    + apply perm_skip. exact IH.
Qed.

Lemma insert_desc_sorted (x : A) (l : list A) :
  StronglySorted not_below l ->
  StronglySorted not_below (Agent1.insert_desc key x l).
Proof.
  induction 1 as [ | y l Hs IH Hall]; cbn.
  - constructor; constructor.
  - destruct (Agent1.key_ltb (key x) (key y)) eqn:E.
    + constructor; [exact IH | ].
      apply Forall_forall. intros z Hz.
      apply (Permutation_in _ (insert_desc_perm x l)) in Hz.
      destruct Hz as [<- | Hz].
      * apply key_ltb_spec in E. unfold not_below. lia.
      * rewrite Forall_forall in Hall. apply Hall. exact Hz.
    + apply key_ltb_false in E.
      constructor; [constructor; assumption | ].
      constructor; [exact E | ].
      apply Forall_forall. intros z Hz.
      rewrite Forall_forall in Hall.
      apply not_below_trans with y; [exact E | apply Hall; exact Hz].
Qed.

Lemma sort_desc_sorted (l : list A) :
  StronglySorted not_below (Agent1.sort_desc key l).
Proof.
  induction l as [ | x l IH]; cbn.
  - constructor.
  - apply insert_desc_sorted. exact IH.
Qed.

(** Stability: the elements of any one key keep their order. *)
Lemma insert_desc_stable (k : Z * Z) (x : A) (l : list A) :
  filter (same_key k) (Agent1.insert_desc key x l)
  = filter (same_key k) (x :: l).
Proof.
  induction l as [ | y l IH]; [reflexivity | ].
  cbn [Agent1.insert_desc].
  destruct (Agent1.key_ltb (key x) (key y)) eqn:E; [ | reflexivity].
  cbn [filter]. rewrite IH. cbn [filter].
  unfold same_key.
  destruct (Agent1.key_eqb (key x) k) eqn:Ex;
    destruct (Agent1.key_eqb (key y) k) eqn:Ey; try reflexivity.
  apply key_eqb_spec in Ex, Ey. apply key_ltb_spec in E.
  rewrite Ex, Ey in E. lia.
Qed.

Lemma sort_desc_stable (k : Z * Z) (l : list A) :
  filter (same_key k) (Agent1.sort_desc key l) = filter (same_key k) l.
Proof.
  induction l as [ | x l IH]; [reflexivity | ].
  cbn [Agent1.sort_desc]. rewrite insert_desc_stable.
  cbn [filter]. rewrite IH. reflexivity.
Qed.

Lemma sort_desc_length (l : list A) :
  List.length (Agent1.sort_desc key l) = List.length l.
Proof. apply Permutation_length, sort_desc_perm. Qed.

(** The first element of the sorted list has a largest key. *)
Lemma sort_desc_head (l : list A) (x : A) (rest : list A) :
  Agent1.sort_desc key l = x :: rest ->
  forall y, In y l -> x = y \/ not_below x y.
Proof.
  intros E y Hy.
  pose proof (sort_desc_sorted l) as S. rewrite E in S.
  apply (Permutation_in _ (Permutation_sym (sort_desc_perm l))) in Hy.
  rewrite E in Hy. destruct Hy as [-> | Hy]; [left; reflexivity | right].
  inversion S as [ | ? ? _ Hall]; subst.
  rewrite Forall_forall in Hall. apply Hall. exact Hy.
Qed.

End StableSortFacts.

(** ** The suggestion ranker *)

Lemma priority_of_rule (cat : string) (s : Z) :
  (cat = "readability" /\ s < 70 -> Agent1.priority_of cat s = Agent1.CRITICAL)
  /\ (~ (cat = "readability" /\ s < 70) -> s < 60 ->
      Agent1.priority_of cat s = Agent1.HIGH)
  /\ (~ (cat = "readability" /\ s < 70) -> 60 <= s < 80 ->
      Agent1.priority_of cat s = Agent1.MEDIUM)
  /\ (80 <= s -> Agent1.priority_of cat s = Agent1.LOW).
Proof.
  unfold Agent1.priority_of.
  destruct (String.eqb_spec cat "readability") as [Ec | Ec];
    destruct (Z.ltb_spec s 70); destruct (Z.ltb_spec s 60);
    destruct (Z.ltb_spec s 80); cbn [andb];
    repeat split; intros; try reflexivity; try lia; tauto.
Qed.

Lemma items_of_spec (cat : string) (r : Agent1.DimensionResult) :
  map Agent1.action (Agent1.items_of (cat, r)) = Agent1.suggestions r
  /\ Forall (fun x =>
               Agent1.category x = PyStr.title cat
               /\ Agent1.priority x = Agent1.priority_of cat (Agent1.score r)
               /\ Agent1.expected_impact x
                  = Agent1._estimate_impact cat (Agent1.score r))
            (Agent1.items_of (cat, r)).
Proof.
  unfold Agent1.items_of. split.
  - rewrite map_map. cbn. apply map_id.
  - apply Forall_forall. intros x Hx. apply in_map_iff in Hx.
    destruct Hx as [s [<- _]]. cbn. auto.
Qed.

(** C4. Every (dimension, suggestion) pair becomes one action item, in
    encounter order, whose priority is CRITICAL when the dimension is
    readability and its score is below 70, otherwise HIGH below 60, MEDIUM
    below 80 and LOW from 80 on. The items are sorted by priority rank and
    then expected impact, both descending; items with equal keys keep
    their encounter order; the first 8 are returned, so never more
    than 8. *)
Theorem suggestion_ranker_stable_top8 :
  forall analysis_results : list (string * Agent1.DimensionResult),
    let items := Agent1.collected_items analysis_results in
    map Agent1.action items
    = flat_map (fun entry => Agent1.suggestions (snd entry)) analysis_results
    /\ (forall cat r x,
           In (cat, r) analysis_results -> In x (Agent1.items_of (cat, r)) ->
           In x items
           /\ Agent1.priority x = Agent1.priority_of cat (Agent1.score r)
           /\ (cat = "readability" /\ Agent1.score r < 70 ->
               Agent1.priority x = Agent1.CRITICAL)
           /\ (~ (cat = "readability" /\ Agent1.score r < 70) ->
               Agent1.score r < 60 -> Agent1.priority x = Agent1.HIGH)
           /\ (~ (cat = "readability" /\ Agent1.score r < 70) ->
               60 <= Agent1.score r < 80 -> Agent1.priority x = Agent1.MEDIUM)
           /\ (80 <= Agent1.score r -> Agent1.priority x = Agent1.LOW))
    /\ exists sorted,
         Permutation sorted items
         /\ StronglySorted
              (fun a b =>
                 Agent1.priority_order (Agent1.priority a)
                 > Agent1.priority_order (Agent1.priority b)
                 \/ (Agent1.priority_order (Agent1.priority a)
                     = Agent1.priority_order (Agent1.priority b)
                     /\ Agent1.expected_impact a >= Agent1.expected_impact b))
              sorted
         /\ (forall k,
                filter (fun x => Agent1.key_eqb (Agent1.sort_key x) k) sorted
                = filter (fun x => Agent1.key_eqb (Agent1.sort_key x) k) items)
         /\ Agent1._generate_action_items analysis_results = firstn 8 sorted
         /\ List.length (Agent1._generate_action_items analysis_results)
            = Nat.min 8 (List.length items).
Proof.
  intros analysis_results items.
  split; [ | split].
  - subst items. unfold Agent1.collected_items.
    induction analysis_results as [ | [cat r] rest IH]; [reflexivity | ].
    cbn [flat_map]. rewrite map_app, IH.
    rewrite (proj1 (items_of_spec cat r)). reflexivity.
  - intros cat r x Hin Hx.
    assert (Hp : Agent1.priority x = Agent1.priority_of cat (Agent1.score r)).
    { pose proof (proj2 (items_of_spec cat r)) as F.
      rewrite Forall_forall in F. apply (F x Hx). }
    split.
    { subst items. unfold Agent1.collected_items. apply in_flat_map.
      exists (cat, r). split; assumption. }
    split; [exact Hp | ].
    rewrite Hp. apply priority_of_rule.
  - exists (Agent1.sort_desc Agent1.sort_key items).
    split; [apply sort_desc_perm | ].
    split; [exact (sort_desc_sorted Agent1.sort_key items) | ].
    split; [intros k; exact (sort_desc_stable Agent1.sort_key k items) | ].
    split; [reflexivity | ].
    unfold Agent1._generate_action_items. fold items.
    rewrite length_firstn, sort_desc_length. reflexivity.
Qed.

(** Ten suggestions over four dimensions: the readability ones (score 65)
    are CRITICAL, eight items come back. *)
Lemma suggestion_ranker_stable_top8_witness :
  let result (n : Z) (l : list string) : Agent1.DimensionResult :=
    {| Agent1.score := n; Agent1.assessment := "Good for marketers";
       Agent1.metrics := []; Agent1.suggestions := l |} in
  let rd := result 65 ["Break up 2 sentences longer than 25 words";
                       "Replace technical jargon"; "Reduce sentence complexity"] in
  let results :=
    [ ("readability", rd);
      ("structure", result 55 ["Add more section headings"; "Add numbered steps";
                               "Convert dense text to bullet points"]);
      ("completeness", result 85 ["Add concrete examples"; "Add prerequisites section"]);
      ("style", result 75 ["Eliminate wordy phrases"; "Reduce passive voice"]) ] in
  List.length (Agent1._generate_action_items results) = 8%nat
  /\ (forall x, In x (Agent1.items_of ("readability", rd)) ->
                Agent1.priority x = Agent1.CRITICAL)
  /\ map Agent1.action (Agent1._generate_action_items results)
     = [ "Break up 2 sentences longer than 25 words";
         "Replace technical jargon"; "Reduce sentence complexity";
         "Add more section headings"; "Add numbered steps";
         "Convert dense text to bullet points";
         "Eliminate wordy phrases"; "Reduce passive voice" ].
Proof.
  intros result rd results.
  destruct (suggestion_ranker_stable_top8 results) as [_ [Hp [sorted [_ [_ [_ [_ Hlen]]]]]]].
  split; [exact Hlen | split].
  - intros x Hx.
    destruct (Hp "readability" rd x (or_introl eq_refl) Hx) as [_ [_ [Hc _]]].
    apply Hc. split; [reflexivity | cbn; lia].
  - reflexivity.
Defined.

(** ** Which functions return on every text *)

(** The whole pipeline of the analyzer (scoring, ranking, synthesis)
    returns a report on every text and every outcome of the scraper and
    of textstat: no [ErrorReport] comes from it. *)
Lemma analyze_documentation_returns
  (scraper : string -> option Agent1.Document) (ts : Agent1.textstat)
  (url : string) :
  exists report, Agent1.analyze_documentation scraper ts url = Agent1.Analysed report.
Proof.
  unfold Agent1.analyze_documentation.
  match goal with
  | |- context [Agent1.perform_comprehensive_analysis ts (Agent1.content ?d) ?d] =>
      generalize d
  end.
  intros d.
  destruct (analysis_engine_results ts (Agent1.content d) d) as [rd [_ [Hp _]]].
  rewrite Hp. cbn [bind].
  destruct (synthesize_results_ok d rd
              (Agent1._analyze_structure (Agent1.content d) d)
              (Agent1._analyze_completeness (Agent1.content d))
              (Agent1._analyze_style (Agent1.content d)))
    as [_ [report [Hr _]]].
  rewrite Hr. eauto.
Qed.

Lemma get_content_stats_returns (content : string) :
  exists st, DocumentRevisionAgent.get_content_stats content = Ok st.
Proof.
  unfold DocumentRevisionAgent.get_content_stats.
  match goal with
  | |- context [if 0 <? ?n then pydiv ?w ?n else _] =>
      destruct (Z.ltb_spec 0 n) as [Hn | Hn];
      [destruct (pydiv_returns w n) as [q Hq]; [lia | rewrite Hq] | ]
  end; cbn [bind]; eauto.
Qed.

Lemma fallback_readability_returns (content : string) :
  exists a,
    TextstatAnalyzer.fallback_readability_analysis content = Ok a
    /\ In (TextstatAnalyzer.score a) [50; 70; 85]
    /\ TextstatAnalyzer.analysis_method a = "fallback_basic"
    /\ In (TextstatAnalyzer.assessment a)
          [ "Complex - may be difficult for marketers";
            "Moderate - acceptable for marketers";
            "Good - appropriate for marketers" ].
Proof.
  unfold TextstatAnalyzer.fallback_readability_analysis.
  match goal with
  | |- context [pydiv ?w ?n] =>
      destruct (pydiv_returns w n) as [q Hq];
      [destruct (sentences_of content); [lia | apply length_cons_nonzero]
      | rewrite Hq]
  end.
  cbn [bind].
  destruct (Agent1.Qgt_bool q 25); [ | destruct (Agent1.Qgt_bool q 20)];
    eexists; (split; [reflexivity | cbn; auto 6]).
Qed.

(** [AdvancedAnalyzer.calculate_readability_score] divides by the number
    of words without a guard: it raises exactly on the texts without a
    word and otherwise returns a score within [20, 100]. *)
Lemma advanced_readability_score_spec (content : string) (avg : Q) :
  (PyStr.split_ws content = [] ->
   AdvancedAnalyzer.calculate_readability_score content avg
   = Raise ZeroDivisionError)
  /\ (PyStr.split_ws content <> [] ->
      exists s,
        AdvancedAnalyzer.calculate_readability_score content avg = Ok s
        /\ 20 <= s <= 100).
Proof.
  unfold AdvancedAnalyzer.calculate_readability_score. split.
  - intros ->. reflexivity.
  - intros Hne.
    destruct (PyStr.split_ws content) as [ | w ws]; [contradiction | ].
    match goal with
    | |- context [pydiv ?a ?b] =>
        destruct (pydiv_returns a b) as [q Hq];
        [apply length_cons_nonzero | rewrite Hq]
    end.
    cbn [bind]. eexists. split; [reflexivity | lia].
Qed.

Lemma advanced_other_scores_range (content : string) (wc : Z) :
  30 <= AdvancedAnalyzer.calculate_structure_score content <= 100
  /\ 30 <= AdvancedAnalyzer.calculate_completeness_score content wc <= 100
  /\ 40 <= AdvancedAnalyzer.calculate_style_score content <= 100.
Proof.
  unfold AdvancedAnalyzer.calculate_structure_score,
    AdvancedAnalyzer.calculate_completeness_score,
    AdvancedAnalyzer.calculate_style_score.
  repeat split; lia.
Qed.

Lemma advanced_suggestions_length (content : string) (avg : Q) (wc : Z) :
  (1 <= List.length (AdvancedAnalyzer.get_readability_suggestions content avg))%nat
  /\ (1 <= List.length (AdvancedAnalyzer.get_structure_suggestions content))%nat
  /\ (1 <= List.length (AdvancedAnalyzer.get_completeness_suggestions content wc))%nat
  /\ (1 <= List.length (AdvancedAnalyzer.get_style_suggestions content))%nat.
Proof.
  unfold AdvancedAnalyzer.get_readability_suggestions,
    AdvancedAnalyzer.get_structure_suggestions,
    AdvancedAnalyzer.get_completeness_suggestions,
    AdvancedAnalyzer.get_style_suggestions.
  repeat split; apply or_affirm_length.
Qed.

(** C1. On the empty document the readability scorer of AdvancedAnalyzer
    returns no score: the division by the word count raises
    ZeroDivisionError, for whatever average sentence length it is
    given. *)
Theorem advanced_readability_raises_on_empty_text :
  forall avg : Q,
    AdvancedAnalyzer.calculate_readability_score EmptyString avg
    = Raise ZeroDivisionError.
Proof.
  intros avg.
  apply (proj1 (advanced_readability_score_spec EmptyString avg)).
  reflexivity.
Qed.

(** C7. On the empty text the local analysis of AdvancedAnalyzer does not
    return normally: its sentence-count division is guarded, the
    word-count division of its readability scorer is not, and the call
    ends in ZeroDivisionError; so it does on a text of blanks. *)
Theorem advanced_local_analysis_raises_on_empty_text :
  AdvancedAnalyzer.analyze_with_local_advanced EmptyString = Raise ZeroDivisionError
  /\ AdvancedAnalyzer.analyze_with_local_advanced "   " = Raise ZeroDivisionError.
Proof. split; reflexivity. Qed.

(** ** Second-person detection of the style scorer *)

Lemma style_second_person_penalty (content : string) :
  Agent1.has_second_person content = false ->
  In Agent1.suggest_second_person
     (Agent1.suggestions (Agent1._analyze_style content))
  /\ fst (Agent1.style_checks content) <= 60
  /\ Agent1.score (Agent1._analyze_style content) <= 60.
Proof.
  intros H.
  rewrite analyze_style_score, analyze_style_suggestions.
  unfold Agent1.style_checks, Agent1.penalize. rewrite H. cbn [negb].
  split_ifs; cbn [fst snd app Agent1.or_affirm];
    (split; [cbn; auto 8 | split; lia]).
Qed.

(** C10. There is a text that begins with "You", so it does contain a
    second-person pronoun, none of whose occurrences is one of the four
    patterns the style scorer looks for (the words you and your between
    spaces, you'll, you're): the scorer takes the 15 points of the
    missing-second-person check (75 becomes 60, no other check triggers)
    and emits the add-second-person suggestion. So it does for every
    text without one of the four patterns. *)
Theorem style_scorer_misses_leading_you :
  (exists content,
      prefix "You" content = true
      /\ PyStr.contains "you" (PyStr.lower content) = true
      /\ PyStr.contains_any [" you "; " your "; "you'll"; "you're"]
           (PyStr.lower content) = false
      /\ Agent1.has_second_person content = false
      /\ Agent1.score (Agent1._analyze_style content) = 75 - 15
      /\ Agent1.suggestions (Agent1._analyze_style content)
         = [Agent1.suggest_second_person])
  /\ (forall content,
         PyStr.contains_any [" you "; " your "; "you'll"; "you're"]
           (PyStr.lower content) = false ->
         In Agent1.suggest_second_person
            (Agent1.suggestions (Agent1._analyze_style content))
         /\ Agent1.score (Agent1._analyze_style content) <= 75 - 15).
Proof.
  split.
  - exists "You should click Reports, select a channel and navigate to Analytics.".
    repeat split; vm_compute; reflexivity.
  - intros content H.
    destruct (style_second_person_penalty content H) as [Hi [_ Hs]].
    split; [exact Hi | exact Hs].
Qed.

Lemma style_scorer_misses_leading_you_witness :
  In Agent1.suggest_second_person
     (Agent1.suggestions (Agent1._analyze_style "Your campaign is ready."))
  /\ Agent1.score (Agent1._analyze_style "Your campaign is ready.") <= 75 - 15.
Proof.
  apply (proj2 style_scorer_misses_leading_you "Your campaign is ready.").
  reflexivity.
Defined.

(** ** The completeness pass of the revision agent *)

Lemma improve_completeness_noop (content : string)
  (log : DocumentRevisionAgent.revision_log) :
  DocumentRevisionAgent.mentions_troubleshooting content = true ->
  DocumentRevisionAgent.mentions_example content = true ->
  DocumentRevisionAgent.improve_completeness content log = (content, log).
Proof.
  intros Ht He. unfold DocumentRevisionAgent.improve_completeness.
  rewrite Ht. cbn [negb]. rewrite He. reflexivity.
Qed.

(** The pass only ever appends entries of the category completeness, at
    most two of them. *)
Lemma improve_completeness_log (content : string)
  (log : DocumentRevisionAgent.revision_log) :
  exists added,
    snd (DocumentRevisionAgent.improve_completeness content log) = (log ++ added)%list
    /\ (List.length added <= 2)%nat
    /\ Forall (fun e => DocumentRevisionAgent.category e = "completeness") added.
Proof.
  unfold DocumentRevisionAgent.improve_completeness,
    DocumentRevisionAgent.log_change.
  destruct (DocumentRevisionAgent.mentions_troubleshooting content); cbn [negb];
    split_ifs; cbn [snd];
    first
      [ exists []; rewrite app_nil_r;
        split; [reflexivity | split; [cbn; lia | constructor]]
      | eexists; split; [reflexivity | split; [cbn; lia | repeat constructor]]
      | eexists;
        split; [rewrite <- app_assoc; reflexivity
               | split; [cbn; lia | repeat constructor]] ].
Qed.

(** A document the completeness scorer accepts as having an example
    marker ("such as") and a troubleshooting marker ("issue") is still
    edited by the pass, which knows neither word: two entries are
    logged. *)
Lemma completeness_pass_edits_scorer_compliant_text :
  let text := "Key Metrics such as delivery issues" in
  Agent1.has_examples text = true
  /\ Agent1.has_troubleshooting text = true
  /\ snd (DocumentRevisionAgent.improve_completeness text [])
     = [ {| DocumentRevisionAgent.category := "completeness";
            DocumentRevisionAgent.description := "Added Troubleshooting section" |};
         {| DocumentRevisionAgent.category := "completeness";
            DocumentRevisionAgent.description := "Added usage example" |} ]
  /\ fst (DocumentRevisionAgent.improve_completeness text []) <> text.
Proof.
  cbv zeta. split; [reflexivity | split; [reflexivity | split]].
  - vm_compute. reflexivity.
  - vm_compute. discriminate.
Qed.

(** C8 (amended). When the text contains, in any letter case,
    "troubleshoot" or "problem" and also "example" or "for instance",
    the completeness pass is a no-op: it returns the text unchanged and
    the log as it was, so on an empty log it leaves no entry. *)
Theorem completeness_pass_noop_on_own_markers :
  forall (content : string) (log : DocumentRevisionAgent.revision_log),
    PyStr.contains "troubleshoot" (PyStr.lower content) = true
    \/ PyStr.contains "problem" (PyStr.lower content) = true ->
    PyStr.contains "example" (PyStr.lower content) = true
    \/ PyStr.contains "for instance" (PyStr.lower content) = true ->
    DocumentRevisionAgent.improve_completeness content log = (content, log)
    /\ snd (DocumentRevisionAgent.improve_completeness content []) = [].
Proof.
  intros content log Ht He.
  assert (Ht' : DocumentRevisionAgent.mentions_troubleshooting content = true).
  { unfold DocumentRevisionAgent.mentions_troubleshooting.
    apply orb_true_iff. exact Ht. }
  assert (He' : DocumentRevisionAgent.mentions_example content = true).
  { unfold DocumentRevisionAgent.mentions_example.
    apply orb_true_iff. exact He. }
  split.
  - apply improve_completeness_noop; assumption.
  - rewrite (improve_completeness_noop content [] Ht' He'). reflexivity.
Qed.

Lemma completeness_pass_noop_on_own_markers_witness :
  let text := "Key Metrics. For example, 2.0 per user. Troubleshooting: check your permissions." in
  DocumentRevisionAgent.improve_completeness text [] = (text, [])
  /\ snd (DocumentRevisionAgent.improve_completeness text []) = [].
Proof.
  cbv zeta.
  apply completeness_pass_noop_on_own_markers; left; reflexivity.
Defined.

(** ** The two readability paths *)

Lemma library_path_result (lib : TextstatAnalyzer.library) (content : string)
  (m : TextstatAnalyzer.LibraryMetrics) :
  lib content = Some m ->
  exists a,
    TextstatAnalyzer.analyze_readability_fixed lib content = Ok a
    /\ (TextstatAnalyzer.assessment a, TextstatAnalyzer.score a,
        TextstatAnalyzer.marketer_friendly a)
       = TextstatAnalyzer.ease_level_of (TextstatAnalyzer.flesch_reading_ease m)
    /\ TextstatAnalyzer.analysis_method a = "textstat_library"
    /\ List.length (TextstatAnalyzer.suggestions a) = 4%nat.
Proof.
  intros H. unfold TextstatAnalyzer.analyze_readability_fixed. rewrite H.
  match goal with
  | |- context [if 0 <? ?n then pydiv ?w ?n else _] =>
      destruct (Z.ltb_spec 0 n) as [Hn | Hn];
      [destruct (pydiv_returns w n) as [q Hq]; [lia | rewrite Hq] | ]
  end; cbn [bind];
    destruct (TextstatAnalyzer.ease_level_of (TextstatAnalyzer.flesch_reading_ease m))
      as [[lvl sc] fr];
    eexists; (split; [reflexivity | cbn; auto]).
Qed.

Lemma ease_level_of_cases (ease : Q) :
  In (TextstatAnalyzer.ease_level_of ease)
     [ ("Very Easy - Perfect for marketers", 95, true);
       ("Easy - Good for marketers", 85, true);
       ("Standard - Acceptable for marketers", 75, true);
       ("Fairly Difficult - May challenge marketers", 60, false);
       ("Difficult - Too complex for marketers", 40, false);
       ("Very Difficult - Inappropriate for marketers", 20, false) ].
Proof.
  unfold TextstatAnalyzer.ease_level_of. split_ifs; cbn; auto 8.
Qed.

(** On a short text, with indices of the size textstat reports for it,
    the library path answers "Easy - Good for marketers" with four
    suggestions and the fallback path "Good - appropriate for marketers"
    with three: a caller tells them apart without the method tag. *)
Lemma readability_paths_distinguishable :
  let content := "Open the report. Check the numbers." in
  let lib : TextstatAnalyzer.library :=
    fun _ => Some {| TextstatAnalyzer.flesch_kincaid := 328 # 100;
                     TextstatAnalyzer.gunning_fog := 12 # 10;
                     TextstatAnalyzer.flesch_reading_ease := 7689 # 100;
                     TextstatAnalyzer.automated_readability := 205 # 100;
                     TextstatAnalyzer.coleman_liau := 178 # 100;
                     TextstatAnalyzer.syllable_count := 9;
                     TextstatAnalyzer.lexicon_count := 6;
                     TextstatAnalyzer.sentence_count := 2 |} in
  exists a b,
    TextstatAnalyzer.analyze_readability_fixed lib content = Ok a
    /\ TextstatAnalyzer.fallback_readability_analysis content = Ok b
    /\ TextstatAnalyzer.assessment a = "Easy - Good for marketers"
    /\ TextstatAnalyzer.assessment b = "Good - appropriate for marketers"
    /\ List.length (TextstatAnalyzer.suggestions a) = 4%nat
    /\ List.length (TextstatAnalyzer.suggestions b) = 3%nat
    /\ TextstatAnalyzer.without_method_tag a <> TextstatAnalyzer.without_method_tag b.
Proof.
  cbv zeta. eexists. eexists.
  split; [vm_compute; reflexivity | ].
  split; [vm_compute; reflexivity | ].
  cbn [TextstatAnalyzer.assessment TextstatAnalyzer.suggestions List.length].
  repeat split.
  unfold TextstatAnalyzer.without_method_tag.
  cbn [TextstatAnalyzer.assessment]. intros H. inversion H.
Qed.

(** C5 (amended). Both readability paths return a score between 0 and
    100. Inside the analysis engine the library values and the fallback
    values go through one and the same ladder, so score and assessment
    come from the same five buckets whichever path ran. In the textstat
    analyzer the library path has six buckets (95, 85, 75, 60, 40, 20)
    and the fallback three of its own (85, 70, 50) under other labels:
    on every text the two results differ in their assessment and in the
    number of their suggestions, not only in the method tag. *)
Theorem readability_paths_share_range_not_buckets :
  (forall lib content,
      exists a,
        TextstatAnalyzer.analyze_readability_fixed lib content = Ok a
        /\ 0 <= TextstatAnalyzer.score a <= 100)
  /\ (forall content,
         exists b,
           TextstatAnalyzer.fallback_readability_analysis content = Ok b
           /\ In (TextstatAnalyzer.score b) [50; 70; 85]
           /\ TextstatAnalyzer.analysis_method b = "fallback_basic")
  /\ (forall ts content,
         exists m r,
           Agent1.readability_indices ts content = Ok m
           /\ Agent1._analyze_readability ts content = Ok r
           /\ (Agent1.score r, Agent1.assessment r)
              = Agent1.score_of_ease (Agent1.ease_score m)
           /\ In (Agent1.score r) [95; 80; 65; 45; 25])
  /\ (forall lib content m,
         lib content = Some m ->
         exists a b,
           TextstatAnalyzer.analyze_readability_fixed lib content = Ok a
           /\ TextstatAnalyzer.fallback_readability_analysis content = Ok b
           /\ In (TextstatAnalyzer.score a) [95; 85; 75; 60; 40; 20]
           /\ TextstatAnalyzer.analysis_method a = "textstat_library"
           /\ TextstatAnalyzer.assessment a <> TextstatAnalyzer.assessment b
           /\ List.length (TextstatAnalyzer.suggestions a) = 4%nat
           /\ List.length (TextstatAnalyzer.suggestions b) = 3%nat
           /\ TextstatAnalyzer.without_method_tag a
              <> TextstatAnalyzer.without_method_tag b).
Proof.
  assert (Hlib : forall lib content m,
             lib content = Some m ->
             exists a,
               TextstatAnalyzer.analyze_readability_fixed lib content = Ok a
               /\ In (TextstatAnalyzer.assessment a, TextstatAnalyzer.score a)
                     [ ("Very Easy - Perfect for marketers", 95);
                       ("Easy - Good for marketers", 85);
                       ("Standard - Acceptable for marketers", 75);
                       ("Fairly Difficult - May challenge marketers", 60);
                       ("Difficult - Too complex for marketers", 40);
                       ("Very Difficult - Inappropriate for marketers", 20) ]
               /\ TextstatAnalyzer.analysis_method a = "textstat_library"
               /\ List.length (TextstatAnalyzer.suggestions a) = 4%nat).
  { intros lib content m H.
    destruct (library_path_result lib content m H) as [a [Ha [Hl [Hm Hs]]]].
    exists a. split; [exact Ha | split; [ | split; assumption]].
    pose proof (ease_level_of_cases (TextstatAnalyzer.flesch_reading_ease m)) as C.
    rewrite <- Hl in C. cbn [In] in C. cbn [In].
    repeat (destruct C as [C | C];
            [inversion C; auto 8 | ]).
    contradiction. }
  assert (Hfb : forall content,
             exists b,
               TextstatAnalyzer.fallback_readability_analysis content = Ok b
               /\ In (TextstatAnalyzer.score b) [50; 70; 85]
               /\ TextstatAnalyzer.analysis_method b = "fallback_basic"
               /\ In (TextstatAnalyzer.assessment b)
                     [ "Complex - may be difficult for marketers";
                       "Moderate - acceptable for marketers";
                       "Good - appropriate for marketers" ]
               /\ List.length (TextstatAnalyzer.suggestions b) = 3%nat).
  { intros content.
    destruct (fallback_readability_returns content) as [b [Hb [Hs [Hm Ha]]]].
    exists b. repeat split; try assumption.
    revert Hb. unfold TextstatAnalyzer.fallback_readability_analysis.
    match goal with
    | |- context [pydiv ?w ?n] => destruct (pydiv w n) as [q | e]
    end; cbn [bind]; [ | discriminate].
    split_ifs; intros E; inversion E; reflexivity. }
  split; [ | split; [ | split]].
  - intros lib content.
    destruct (lib content) as [m | ] eqn:E.
    + destruct (Hlib lib content m E) as [a [Ha [Hin _]]].
      exists a. split; [exact Ha | ].
      cbn [In] in Hin.
      repeat (destruct Hin as [Hin | Hin]; [inversion Hin; lia | ]).
      contradiction.
    + unfold TextstatAnalyzer.analyze_readability_fixed. rewrite E.
      destruct (Hfb content) as [b [Hb [Hin _]]].
      exists b. split; [exact Hb | ].
      cbn [In] in Hin.
      repeat (destruct Hin as [Hin | Hin]; [lia | ]).
      contradiction.
  - intros content. destruct (Hfb content) as [b [Hb [Hs [Hm _]]]].
    exists b. auto.
  - intros ts content.
    destruct (readability_indices_returns ts content) as [m Hm].
    exists m. eexists.
    split; [exact Hm | ].
    split; [apply analyze_readability_ok; exact Hm | ].
    cbn [Agent1.score Agent1.assessment].
    split; [destruct (Agent1.score_of_ease (Agent1.ease_score m)); reflexivity | ].
    destruct (score_of_ease_cases (Agent1.ease_score m))
      as [E | [E | [E | [E | E]]]]; rewrite E; cbn; auto 6.
  - intros lib content m H.
    destruct (Hlib lib content m H) as [a [Ha [Hin [Hm Hs]]]].
    destruct (Hfb content) as [b [Hb [_ [_ [Hab Hsb]]]]].
    exists a, b.
    assert (Hne : TextstatAnalyzer.assessment a <> TextstatAnalyzer.assessment b).
    { cbn [In] in Hin, Hab.
      repeat (destruct Hin as [Hin | Hin]; [ | ]);
        try contradiction;
        inversion Hin as [[Ea Es]];
        repeat (destruct Hab as [Hab | Hab]; [ | ]);
        try contradiction; rewrite <- Hab; discriminate. }
    split; [exact Ha | split; [exact Hb | ]].
    split.
    { cbn [In] in Hin. cbn [In].
      repeat (destruct Hin as [Hin | Hin]; [inversion Hin; auto 8 | ]).
      contradiction. }
    split; [exact Hm | split; [exact Hne | split; [exact Hs | split; [exact Hsb | ]]]].
    unfold TextstatAnalyzer.without_method_tag. intros E. inversion E.
    apply Hne. assumption.
Qed.

Lemma readability_paths_share_range_not_buckets_witness :
  let content := "Open the report. Check the numbers." in
  let lib : TextstatAnalyzer.library :=
    fun _ => Some {| TextstatAnalyzer.flesch_kincaid := 328 # 100;
                     TextstatAnalyzer.gunning_fog := 12 # 10;
                     TextstatAnalyzer.flesch_reading_ease := 7689 # 100;
                     TextstatAnalyzer.automated_readability := 205 # 100;
                     TextstatAnalyzer.coleman_liau := 178 # 100;
                     TextstatAnalyzer.syllable_count := 9;
                     TextstatAnalyzer.lexicon_count := 6;
                     TextstatAnalyzer.sentence_count := 2 |} in
  exists a b,
    TextstatAnalyzer.analyze_readability_fixed lib content = Ok a
    /\ TextstatAnalyzer.fallback_readability_analysis content = Ok b
    /\ TextstatAnalyzer.assessment a <> TextstatAnalyzer.assessment b.
Proof.
  intros content lib.
  destruct readability_paths_share_range_not_buckets as [_ [_ [_ H]]].
  destruct (H lib content _ eq_refl) as [a [b [Ha [Hb [_ [_ [Hne _]]]]]]].
  exists a, b. auto.
Defined.

(** ** The analyzer on its seed article *)

Lemma items_of_in (cat : string) (r : Agent1.DimensionResult) (x : Agent1.ActionItem) :
  In x (Agent1.items_of (cat, r)) ->
  In (Agent1.action x) (Agent1.suggestions r)
  /\ Agent1.category x = PyStr.title cat
  /\ Agent1.sort_key x
     = (Agent1.priority_order (Agent1.priority_of cat (Agent1.score r)),
        Agent1._estimate_impact cat (Agent1.score r)).
Proof.
  unfold Agent1.items_of. intros H. apply in_map_iff in H.
  destruct H as [s [<- Hs]]. cbn. auto.
Qed.

(** Whatever the indices, a readability suggestion is one of five
    sentences, none of which is the add-second-person suggestion. *)
Lemma readability_suggestions_shape (m : Agent1.TextstatScores)
  (content s : string) :
  In s (Agent1.readability_suggestions m content) ->
  (exists t, s = "Reading level is Grade " ++ t)
  \/ (exists t, s = "Gunning Fog index is " ++ t)
  \/ (exists t, s = "Replace technical jargon: " ++ t)
  \/ (exists t, s = "Break up " ++ t)
  \/ s = Agent1.affirm_readability.
Proof.
  unfold Agent1.readability_suggestions.
  set (s1 := if Agent1.Qgt_bool (Agent1.fk_grade m) 10 then _ else _).
  set (s2 := if Agent1.Qgt_bool (Agent1.fog_index m) 12 then _ else _).
  set (s3 := match Agent1._detect_jargon content with [] => _ | _ :: _ => _ end).
  set (s4 := match Agent1.long_sentences content with [] => _ | _ :: _ => _ end).
  assert (H : forall t, In t (s1 ++ s2 ++ s3 ++ s4)%list ->
                        (exists u, t = "Reading level is Grade " ++ u)
                        \/ (exists u, t = "Gunning Fog index is " ++ u)
                        \/ (exists u, t = "Replace technical jargon: " ++ u)
                        \/ (exists u, t = "Break up " ++ u)
                        \/ t = Agent1.affirm_readability).
  { intros t Ht. rewrite !in_app_iff in Ht.
    destruct Ht as [Ht | [Ht | [Ht | Ht]]].
    - subst s1. destruct (Agent1.Qgt_bool (Agent1.fk_grade m) 10);
        [destruct Ht as [<- | []]; eauto | destruct Ht].
    - subst s2. destruct (Agent1.Qgt_bool (Agent1.fog_index m) 12);
        [destruct Ht as [<- | []]; eauto 6 | destruct Ht].
    - subst s3. destruct (Agent1._detect_jargon content);
        [destruct Ht | destruct Ht as [<- | []]; eauto 7].
    - subst s4. destruct (Agent1.long_sentences content);
        [destruct Ht | destruct Ht as [<- | []]; eauto 8]. }
  destruct (s1 ++ s2 ++ s3 ++ s4)%list as [ | t rest].
  - intros [<- | []]. auto 8.
  - intros Hs. apply H. exact Hs.
Qed.

Lemma readability_never_suggests_second_person (m : Agent1.TextstatScores)
  (content : string) :
  ~ In Agent1.suggest_second_person (Agent1.readability_suggestions m content).
Proof.
  intros H. apply readability_suggestions_shape in H.
  destruct H as [[t H] | [[t H] | [[t H] | [[t H] | H]]]]; discriminate H.
Qed.

(** The seed article: the style scorer finds second-person language and
    has nothing to object to. *)
Lemma seed_style :
  Agent1.has_second_person Agent1.fallback_text = true
  /\ Agent1.score (Agent1._analyze_style Agent1.fallback_text) = 75
  /\ Agent1.suggestions (Agent1._analyze_style Agent1.fallback_text)
     = [Agent1.affirm_style].
Proof. repeat split; vm_compute; reflexivity. Qed.

Lemma seed_structure (url : string) :
  Agent1.score (Agent1._analyze_structure Agent1.fallback_text
                  (Agent1._get_fallback_content url)) = 70
  /\ Agent1.suggestions (Agent1._analyze_structure Agent1.fallback_text
                           (Agent1._get_fallback_content url))
     = [Agent1.affirm_structure].
Proof. split; vm_compute; reflexivity. Qed.

Lemma seed_completeness :
  Agent1.score (Agent1._analyze_completeness Agent1.fallback_text) = 30
  /\ hd_error (Agent1.suggestions (Agent1._analyze_completeness Agent1.fallback_text))
     = Some "Add concrete examples to help marketers understand practical applications"
  /\ ~ In Agent1.suggest_second_person
          (Agent1.suggestions (Agent1._analyze_completeness Agent1.fallback_text)).
Proof.
  split; [vm_compute; reflexivity | split; [vm_compute; reflexivity | ]].
  vm_compute. intros H.
  repeat (destruct H as [H | H]; [discriminate H | ]).
  exact H.
Qed.

Lemma in_firstn {A : Type} (n : nat) (l : list A) (x : A) :
  In x (firstn n l) -> In x l.
Proof.
  intros H. rewrite <- (firstn_skipn n l). apply in_or_app. left. exact H.
Qed.

Lemma generated_items_in (results : list (string * Agent1.DimensionResult))
  (x : Agent1.ActionItem) :
  In x (Agent1._generate_action_items results) ->
  exists cat r, In (cat, r) results /\ In x (Agent1.items_of (cat, r)).
Proof.
  unfold Agent1._generate_action_items. intros H.
  apply in_firstn in H.
  apply (Permutation_in _ (sort_desc_perm Agent1.sort_key _)) in H.
  unfold Agent1.collected_items in H. apply in_flat_map in H.
  destruct H as [[cat r] [Hin Hx]]. eauto.
Qed.

(** The seed article scores 75 on style, above 60: it addresses the
    reader as you and your. So does the seed article of the scraper. *)
Lemma seed_article_style_above_60 :
  ~ (Agent1.score (Agent1._analyze_style Agent1.fallback_text) <= 60)
  /\ ~ (Agent1.score (Agent1._analyze_style Scraper.fallback_text) <= 60)
  /\ PyStr.contains " you " (PyStr.lower Agent1.fallback_text) = true
  /\ ~ In Agent1.suggest_second_person
          (Agent1.suggestions (Agent1._analyze_style Agent1.fallback_text)).
Proof.
  split; [vm_compute; intros H; apply H; reflexivity | ].
  split; [vm_compute; intros H; apply H; reflexivity | ].
  split; [vm_compute; reflexivity | ].
  rewrite (proj2 (proj2 seed_style)). intros [H | []]. discriminate H.
Qed.

(** With the structure, completeness and style results of the seed
    article, a completeness item outranks the structure and the style
    items, and no item carries the add-second-person suggestion. *)
Lemma ranking_without_second_person (rd st cp sy : Agent1.DimensionResult) :
  let results :=
    [ ("readability", rd); ("structure", st); ("completeness", cp); ("style", sy) ] in
  ~ In Agent1.suggest_second_person (Agent1.suggestions rd) ->
  Agent1.score st = 70 ->
  Agent1.suggestions st = [Agent1.affirm_structure] ->
  Agent1.score cp = 30 ->
  Agent1.suggestions cp <> [] ->
  ~ In Agent1.suggest_second_person (Agent1.suggestions cp) ->
  Agent1.score sy = 75 ->
  Agent1.suggestions sy = [Agent1.affirm_style] ->
  (forall x,
      In x (Agent1._generate_action_items results) ->
      Agent1.action x <> Agent1.suggest_second_person)
  /\ exists top rest,
       Agent1._generate_action_items results = top :: rest
       /\ (Agent1.category top = "Readability"
           \/ Agent1.category top = "Completeness").
Proof.
  intros results Hrd Hs1 Hs2 Hc1 Hc2 Hc3 Hy1 Hy2.
  assert (Hsrc : forall x,
             In x (Agent1.collected_items results) ->
             In x (Agent1.items_of ("readability", rd))
             \/ In x (Agent1.items_of ("structure", st))
             \/ In x (Agent1.items_of ("completeness", cp))
             \/ In x (Agent1.items_of ("style", sy))).
  { intros x Hx. unfold Agent1.collected_items, results in Hx.
    cbn [flat_map] in Hx.
    rewrite !in_app_iff in Hx. cbn [In] in Hx. tauto. }
  split.
  - intros x Hx E.
    unfold Agent1._generate_action_items in Hx. apply in_firstn in Hx.
    apply (Permutation_in _ (sort_desc_perm Agent1.sort_key _)) in Hx.
    destruct (Hsrc x Hx) as [H | [H | [H | H]]];
      apply items_of_in in H; destruct H as [H _]; rewrite E in H.
    + exact (Hrd H).
    + rewrite Hs2 in H. destruct H as [H | []]. discriminate H.
    + exact (Hc3 H).
    + rewrite Hy2 in H. destruct H as [H | []]. discriminate H.
  - set (items := Agent1.collected_items results) in *.
    destruct (Agent1.suggestions cp) as [ | c0 crest] eqn:Ecp;
      [contradiction | ].
    set (y0 := {| Agent1.category := PyStr.title "completeness";
                  Agent1.priority := Agent1.priority_of "completeness" (Agent1.score cp);
                  Agent1.action := c0;
                  Agent1.rationale := "Current " ++ "completeness" ++ " score: "
                                      ++ PyStr.of_Z (Agent1.score cp) ++ "/100";
                  Agent1.expected_impact :=
                    Agent1._estimate_impact "completeness" (Agent1.score cp);
                  Agent1.effort_estimate := Agent1._estimate_effort c0 |}).
    assert (Hy0in : In y0 items).
    { subst items. unfold Agent1.collected_items, results. cbn [flat_map].
      rewrite !in_app_iff. right. right. left.
      unfold Agent1.items_of. rewrite Ecp. left. reflexivity. }
    destruct (Agent1.sort_desc Agent1.sort_key items) as [ | top rest] eqn:Es.
    { pose proof (sort_desc_length Agent1.sort_key items) as L.
      rewrite Es in L. destruct items; [destruct Hy0in | discriminate L]. }
    exists top, (firstn 7 rest).
    split; [unfold Agent1._generate_action_items; fold items; rewrite Es; reflexivity | ].
    assert (Htop : In top items).
    { apply (Permutation_in _ (sort_desc_perm Agent1.sort_key items)).
      rewrite Es. left. reflexivity. }
    assert (N : not_below Agent1.sort_key top y0).
    { destruct (sort_desc_head Agent1.sort_key items top rest Es y0 Hy0in)
        as [-> | N]; [unfold not_below; lia | exact N]. }
    unfold not_below in N.
    replace (Agent1.sort_key y0) with (3, 8) in N
      by (unfold Agent1.sort_key, y0; cbn [Agent1.priority Agent1.expected_impact];
          rewrite Hc1; reflexivity).
    cbn [fst snd] in N.
    destruct (Hsrc top Htop) as [H | [H | [H | H]]];
      apply items_of_in in H; destruct H as [_ [Hc Hk]].
    + left. exact Hc.
    + rewrite Hk, Hs1 in N. cbn in N. lia.
    + right. exact Hc.
    + rewrite Hk, Hy1 in N. cbn in N. lia.
Qed.

(** With no scraped document the analyzer works on its seed article. *)
Lemma analyze_documentation_on_seed (ts : Agent1.textstat) (url : string) :
  Agent1.analyze_documentation (fun _ => None) ts url
  = match
      bind (Agent1.perform_comprehensive_analysis ts Agent1.fallback_text
              (Agent1._get_fallback_content url))
           (Agent1._synthesize_results (Agent1._get_fallback_content url))
    with
    | Ok report => Agent1.Analysed report
    | Raise e => Agent1.ErrorReport url e
    end.
Proof. reflexivity. Qed.

(** C6 (amended). When the scraper delivers nothing, the analyzer runs
    on its seed article and returns a report, whatever textstat does. The
    seed article contains second-person language, its style score is 75,
    and the only style suggestion is the affirming one. No recommendation
    of the report is the add-second-person suggestion, and the top-ranked
    recommendation comes from the readability or from the completeness
    dimension. The seed article of the scraper scores 75 on style as
    well. *)
Theorem seed_article_report :
  forall (ts : Agent1.textstat) (url : string),
    exists report rd,
      Agent1.analyze_documentation (fun _ => None) ts url = Agent1.Analysed report
      /\ Agent1.dimensional_analysis report
         = [ ("readability", rd);
             ("structure",
              Agent1._analyze_structure Agent1.fallback_text
                (Agent1._get_fallback_content url));
             ("completeness", Agent1._analyze_completeness Agent1.fallback_text);
             ("style", Agent1._analyze_style Agent1.fallback_text) ]
      /\ Agent1.has_second_person Agent1.fallback_text = true
      /\ Agent1.score (Agent1._analyze_style Agent1.fallback_text) = 75
      /\ Agent1.suggestions (Agent1._analyze_style Agent1.fallback_text)
         = [Agent1.affirm_style]
      /\ Agent1.score (Agent1._analyze_style Scraper.fallback_text) = 75
      /\ (forall x,
             In x (Agent1.prioritized_recommendations report) ->
             Agent1.action x <> Agent1.suggest_second_person)
      /\ exists top rest,
           Agent1.prioritized_recommendations report = top :: rest
           /\ (Agent1.category top = "Readability"
               \/ Agent1.category top = "Completeness").
Proof.
  intros ts url.
  destruct (analysis_engine_results ts Agent1.fallback_text
              (Agent1._get_fallback_content url)) as [rd [Hrd [Hp _]]].
  destruct (synthesize_results_ok (Agent1._get_fallback_content url) rd
              (Agent1._analyze_structure Agent1.fallback_text
                 (Agent1._get_fallback_content url))
              (Agent1._analyze_completeness Agent1.fallback_text)
              (Agent1._analyze_style Agent1.fallback_text))
    as [_ [report [Hr [Hd [_ [_ [_ Hrec]]]]]]].
  exists report, rd.
  destruct seed_style as [Hy0 [Hy1 Hy2]].
  destruct (seed_structure url) as [Hs1 Hs2].
  destruct seed_completeness as [Hc1 [Hc2 Hc3]].
  split.
  { rewrite analyze_documentation_on_seed, Hp. cbn [bind]. rewrite Hr. reflexivity. }
  split; [exact Hd | ].
  split; [exact Hy0 | split; [exact Hy1 | split; [exact Hy2 | ]]].
  split; [vm_compute; reflexivity | ].
  rewrite Hrec.
  apply ranking_without_second_person; try assumption.
  - destruct (readability_indices_returns ts Agent1.fallback_text) as [m Hm].
    rewrite (analyze_readability_ok ts Agent1.fallback_text m Hm) in Hrd.
    injection Hrd as <-. cbn [Agent1.suggestions].
    apply readability_never_suggests_second_person.
  - intros E. rewrite E in Hc2. discriminate Hc2.
Qed.

Lemma seed_article_report_witness :
  exists report top rest,
    Agent1.analyze_documentation (fun _ => None) (fun _ => None)
      "https://help.moengage.com/hc/en-us/articles/360035738832"
    = Agent1.Analysed report
    /\ Agent1.prioritized_recommendations report = top :: rest
    /\ Agent1.action top <> Agent1.suggest_second_person.
Proof.
  destruct (seed_article_report (fun _ => None)
              "https://help.moengage.com/hc/en-us/articles/360035738832")
    as [report [rd [Hrun [_ [_ [_ [_ [_ [Hno [top [rest [Htop _]]]]]]]]]]]].
  exists report, top, rest.
  split; [exact Hrun | split; [exact Htop | ]].
  apply Hno. rewrite Htop. left. reflexivity.
Defined.

(** * Further properties of the code *)

(** ** The synthesizer on missing dimensions *)

Lemma lookup_raise {V : Type} (key : string) (d : list (string * V)) (e : exn) :
  Agent1.lookup key d = Raise e -> e = KeyError key.
Proof.
  induction d as [ | [k v] d IH]; cbn.
  - intros H. inversion H. reflexivity.
  - destruct (String.eqb k key); [discriminate | exact IH].
Qed.

Lemma assess_business_impact_returns
  (results : list (string * Agent1.DimensionResult)) (w : Q)
  (rd cp : Agent1.DimensionResult) :
  Agent1.lookup "readability" results = Ok rd ->
  Agent1.lookup "completeness" results = Ok cp ->
  exists b,
    Agent1._assess_business_impact results w = Ok b
    /\ Agent1.recommended_action b = Agent1._get_business_recommendation w
    /\ Agent1.support_ticket_likelihood b
       = (if Agent1.Qlt_bool w 65 then "High"
          else if Agent1.Qlt_bool w 80 then "Medium" else "Low")
    /\ (Agent1.user_experience_assessment b, Agent1.feature_adoption_risk b)
       = (if Agent1.score rd <? 60
          then ("Poor - Marketers likely to struggle", "High")
          else if Agent1.score rd <? 75
          then ("Moderate - Some marketers may need help", "Medium")
          else ("Good - Accessible to marketing teams", "Low")).
Proof.
  intros Hr Hc. unfold Agent1._assess_business_impact.
  rewrite Hr, Hc. cbn [bind].
  destruct (Agent1.score rd <? 60); [ | destruct (Agent1.score rd <? 75)];
    eexists; (split; [reflexivity | cbn; auto]).
Qed.

Lemma weighted_sum_four (results : list (string * Agent1.DimensionResult))
  (rd st cp sy : Agent1.DimensionResult) :
  Agent1.lookup "readability" results = Ok rd ->
  Agent1.lookup "structure" results = Ok st ->
  Agent1.lookup "completeness" results = Ok cp ->
  Agent1.lookup "style" results = Ok sy ->
  Agent1.weighted_sum results Agent1.weights 0%Q
  = Ok (0 + inject_Z (Agent1.score rd) * (4 # 10)
          + inject_Z (Agent1.score st) * (2 # 10)
          + inject_Z (Agent1.score cp) * (25 # 100)
          + inject_Z (Agent1.score sy) * (15 # 100))%Q.
Proof.
  intros H1 H2 H3 H4. unfold Agent1.weights. cbn [Agent1.weighted_sum].
  rewrite H1. cbn [bind]. rewrite H2. cbn [bind].
  rewrite H3. cbn [bind]. rewrite H4. reflexivity.
Qed.

(** What a returned report is made of. *)
Lemma synthesize_results_inv (doc : Agent1.Document)
  (results : list (string * Agent1.DimensionResult)) (report : Agent1.Report) :
  Agent1._synthesize_results doc results = Ok report ->
  exists w b,
    Agent1.weighted_sum results Agent1.weights 0%Q = Ok w
    /\ Agent1._assess_business_impact results w = Ok b
    /\ Agent1.weighted_score report = round1 w
    /\ Agent1.letter_grade report = Agent1._calculate_grade w
    /\ Agent1.marketer_accessibility report = Agent1.marketer_accessibility_of w
    /\ Agent1.business_impact report = b
    /\ Agent1.dimensional_analysis report = results
    /\ Agent1.prioritized_recommendations report
       = Agent1._generate_action_items results.
Proof.
  unfold Agent1._synthesize_results.
  destruct (Agent1.weighted_sum results Agent1.weights 0%Q) as [w | e] eqn:Hw;
    cbn [bind]; [ | discriminate].
  destruct (Agent1._assess_complexity (Agent1.content doc)) as [c | e];
    cbn [bind]; [ | discriminate].
  destruct (Agent1._assess_business_impact results w) as [b | e] eqn:Hb;
    cbn [bind]; [ | discriminate].
  intros H. injection H as <-. exists w, b. cbn.
  split; [reflexivity | split; [exact Hb | ]]. repeat split; reflexivity.
Qed.

(** X1. The synthesizer needs all four dimensions: with the four keys it
    returns a report on these results; without one of them it raises
    the KeyError of the first missing key, in the order readability,
    structure, completeness, style. *)
Theorem synthesize_needs_four_dimensions :
  forall (doc : Agent1.Document) (results : list (string * Agent1.DimensionResult)),
    (forall rd st cp sy,
        Agent1.lookup "readability" results = Ok rd ->
        Agent1.lookup "structure" results = Ok st ->
        Agent1.lookup "completeness" results = Ok cp ->
        Agent1.lookup "style" results = Ok sy ->
        exists report,
          Agent1._synthesize_results doc results = Ok report
          /\ Agent1.dimensional_analysis report = results)
    /\ (forall e,
           Agent1.lookup "readability" results = Raise e ->
           Agent1._synthesize_results doc results = Raise (KeyError "readability"))
    /\ (forall rd e,
           Agent1.lookup "readability" results = Ok rd ->
           Agent1.lookup "structure" results = Raise e ->
           Agent1._synthesize_results doc results = Raise (KeyError "structure"))
    /\ (forall rd st e,
           Agent1.lookup "readability" results = Ok rd ->
           Agent1.lookup "structure" results = Ok st ->
           Agent1.lookup "completeness" results = Raise e ->
           Agent1._synthesize_results doc results = Raise (KeyError "completeness"))
    /\ (forall rd st cp e,
           Agent1.lookup "readability" results = Ok rd ->
           Agent1.lookup "structure" results = Ok st ->
           Agent1.lookup "completeness" results = Ok cp ->
           Agent1.lookup "style" results = Raise e ->
           Agent1._synthesize_results doc results = Raise (KeyError "style")).
Proof.
  intros doc results.
  split; [ | split; [ | split; [ | split]]].
  - intros rd st cp sy H1 H2 H3 H4.
    unfold Agent1._synthesize_results.
    rewrite (weighted_sum_four results rd st cp sy H1 H2 H3 H4). cbn [bind].
    destruct (assess_complexity_returns (Agent1.content doc)) as [c ->].
    cbn [bind].
    destruct (assess_business_impact_returns results
                (0 + inject_Z (Agent1.score rd) * (4 # 10)
                   + inject_Z (Agent1.score st) * (2 # 10)
                   + inject_Z (Agent1.score cp) * (25 # 100)
                   + inject_Z (Agent1.score sy) * (15 # 100))%Q rd cp H1 H3)
      as [b [-> _]].
    cbn [bind]. eexists. split; reflexivity.
  - intros e H. pose proof (lookup_raise _ _ _ H) as ->.
    unfold Agent1._synthesize_results, Agent1.weights.
    cbn [Agent1.weighted_sum]. rewrite H. reflexivity.
  - intros rd e H1 H. pose proof (lookup_raise _ _ _ H) as ->.
    unfold Agent1._synthesize_results, Agent1.weights.
    cbn [Agent1.weighted_sum]. rewrite H1. cbn [bind]. rewrite H. reflexivity.
  - intros rd st e H1 H2 H. pose proof (lookup_raise _ _ _ H) as ->.
    unfold Agent1._synthesize_results, Agent1.weights.
    cbn [Agent1.weighted_sum]. rewrite H1. cbn [bind]. rewrite H2. cbn [bind].
    rewrite H. reflexivity.
  - intros rd st cp e H1 H2 H3 H. pose proof (lookup_raise _ _ _ H) as ->.
    unfold Agent1._synthesize_results, Agent1.weights.
    cbn [Agent1.weighted_sum]. rewrite H1. cbn [bind]. rewrite H2. cbn [bind].
    rewrite H3. cbn [bind]. rewrite H. reflexivity.
Qed.

Lemma synthesize_needs_four_dimensions_witness :
  let result : Agent1.DimensionResult :=
    {| Agent1.score := 65; Agent1.assessment := "Acceptable for marketers";
       Agent1.metrics := []; Agent1.suggestions := ["Add prerequisites section"] |} in
  let doc := Agent1._get_fallback_content "https://help.moengage.com" in
  (exists report,
      Agent1._synthesize_results doc
        [ ("style", result); ("completeness", result);
          ("structure", result); ("readability", result) ] = Ok report)
  /\ Agent1._synthesize_results doc [ ("readability", result); ("style", result) ]
     = Raise (KeyError "structure")
  /\ Agent1._synthesize_results doc [] = Raise (KeyError "readability").
Proof.
  intros result doc.
  split; [ | split].
  - destruct (proj1 (synthesize_needs_four_dimensions doc
                       [ ("style", result); ("completeness", result);
                         ("structure", result); ("readability", result) ])
                result result result result eq_refl eq_refl eq_refl eq_refl)
      as [report [H _]].
    exists report. exact H.
  - apply (proj1 (proj2 (proj2 (synthesize_needs_four_dimensions doc
                                  [ ("readability", result); ("style", result) ])))
             result (KeyError "structure")); reflexivity.
  - apply (proj1 (proj2 (synthesize_needs_four_dimensions doc []))
             (KeyError "readability")). reflexivity.
Defined.

(** ** The overall score of the analyzer *)

Lemma analyze_documentation_inv
  (scraper : string -> option Agent1.Document) (ts : Agent1.textstat)
  (url : string) :
  exists d rd report,
    Agent1.analyze_documentation scraper ts url = Agent1.Analysed report
    /\ Agent1._analyze_readability ts (Agent1.content d) = Ok rd
    /\ Agent1._synthesize_results d
         [ ("readability", rd);
           ("structure", Agent1._analyze_structure (Agent1.content d) d);
           ("completeness", Agent1._analyze_completeness (Agent1.content d));
           ("style", Agent1._analyze_style (Agent1.content d)) ] = Ok report.
Proof.
  unfold Agent1.analyze_documentation.
  match goal with
  | |- context [Agent1.perform_comprehensive_analysis ts (Agent1.content ?d) ?d] =>
      generalize d
  end.
  intros d.
  destruct (analysis_engine_results ts (Agent1.content d) d) as [rd [Hrd [Hp _]]].
  rewrite Hp. cbn [bind].
  destruct (synthesize_results_ok d rd
              (Agent1._analyze_structure (Agent1.content d) d)
              (Agent1._analyze_completeness (Agent1.content d))
              (Agent1._analyze_style (Agent1.content d)))
    as [_ [report [Hr _]]].
  exists d, rd, report. rewrite Hr. auto.
Qed.

Lemma dot_bounds (r s c y : Z) :
  25 <= r <= 95 -> 30 <= s <= 70 -> 30 <= c <= 70 -> 40 <= y <= 75 ->
  let dot := (0 + inject_Z r * (4 # 10) + inject_Z s * (2 # 10)
                + inject_Z c * (25 # 100) + inject_Z y * (15 # 100))%Q in
  (295 # 10 <= dot)%Q /\ (dot <= 8075 # 100)%Q.
Proof.
  intros Hr Hs Hc Hy dot. subst dot.
  unfold Qle, Qplus, Qmult, inject_Z. cbn. lia.
Qed.

(** X2. Whatever the document, the scraper and textstat deliver, the
    weighted score of the report lies between 29.5 and 80.75 before
    rounding, so the letter grade is B, C, D or F and never A. *)
Theorem overall_score_never_grade_a :
  forall (scraper : string -> option Agent1.Document) (ts : Agent1.textstat)
         (url : string),
    exists report w,
      Agent1.analyze_documentation scraper ts url = Agent1.Analysed report
      /\ Agent1.weighted_score report = round1 w
      /\ (295 # 10 <= w)%Q /\ (w <= 8075 # 100)%Q
      /\ Agent1.letter_grade report = Agent1._calculate_grade w
      /\ Agent1.letter_grade report <> "A"
      /\ In (Agent1.letter_grade report) ["B"; "C"; "D"; "F"].
Proof.
  intros scraper ts url.
  destruct (analyze_documentation_inv scraper ts url) as [d [rd [report [Ha [Hrd Hs]]]]].
  destruct (analysis_engine_results ts (Agent1.content d) d)
    as [rd' [Hrd' [_ [Hin [_ [Hst [_ [Hcp [_ [Hsy _]]]]]]]]]].
  rewrite Hrd in Hrd'. injection Hrd' as <-.
  destruct (synthesize_results_ok d rd
              (Agent1._analyze_structure (Agent1.content d) d)
              (Agent1._analyze_completeness (Agent1.content d))
              (Agent1._analyze_style (Agent1.content d)))
    as [_ [report' [Hs' [_ [Hw [Hg _]]]]]].
  rewrite Hs in Hs'. injection Hs' as <-.
  assert (Hr : 25 <= Agent1.score rd <= 95).
  { cbn [In] in Hin. lia. }
  destruct (dot_bounds _ _ _ _ Hr Hst Hcp Hsy) as [Hlo Hhi].
  eexists report, _.
  split; [exact Ha | split; [exact Hw | split; [exact Hlo | split; [exact Hhi | ]]]].
  split; [exact Hg | ].
  rewrite Hg. unfold Agent1._calculate_grade.
  match goal with
  | |- context [Agent1.Qge_bool ?w 90] =>
      destruct (Qge_bool_reflect w 90) as [[E L] | [E L]]; rewrite E
  end.
  - exfalso. apply (Qlt_irrefl 90).
    apply (Qle_lt_trans _ _ _ L). apply (Qle_lt_trans _ _ _ Hhi).
    unfold Qlt; cbn; lia.
  - split_ifs; (split; [discriminate | cbn; auto 6]).
Qed.

(** ** The ladders of a report agree *)

Lemma Qge_bool_mono (w : Q) (a b : Z) :
  a <= b -> Agent1.Qge_bool w (inject_Z b) = true ->
  Agent1.Qge_bool w (inject_Z a) = true.
Proof.
  intros Hab H. apply Qge_bool_true. apply Qge_bool_true in H.
  apply Qle_trans with (inject_Z b); [ | exact H].
  unfold Qle. cbn. lia.
Qed.

(** X3. In every report the synthesizer returns, the accessibility tier and
    the recommended action go together (High with GOOD, Medium with
    MODERATE, Low with URGENT), the grade is F exactly when the tier is
    Low, and the support-ticket likelihood is Low exactly when the grade
    is A or B. *)
Theorem report_ladders_agree :
  forall (doc : Agent1.Document)
         (results : list (string * Agent1.DimensionResult))
         (report : Agent1.Report),
    Agent1._synthesize_results doc results = Ok report ->
    let tier := Agent1.marketer_accessibility report in
    let action := Agent1.recommended_action (Agent1.business_impact report) in
    let grade := Agent1.letter_grade report in
    let tickets := Agent1.support_ticket_likelihood (Agent1.business_impact report) in
    (tier = "High" <-> action = "GOOD: Ready for marketing team use")
    /\ (tier = "Medium" <-> action = "MODERATE: Improve before wider distribution")
    /\ (tier = "Low" <-> action = "URGENT: Revise before marketing team training")
    /\ (grade = "F" <-> tier = "Low")
    /\ (tickets = "Low" <-> grade = "A" \/ grade = "B").
Proof.
  intros doc results report H.
  destruct (synthesize_results_inv doc results report H)
    as [w [b [_ [Hb [_ [Hg [Ha [Hbi _]]]]]]]].
  assert (Hact : Agent1.recommended_action b = Agent1._get_business_recommendation w
                 /\ Agent1.support_ticket_likelihood b
                    = (if Agent1.Qlt_bool w 65 then "High"
                       else if Agent1.Qlt_bool w 80 then "Medium" else "Low")).
  { revert Hb. unfold Agent1._assess_business_impact.
    destruct (Agent1.lookup "readability" results) as [rd | e]; cbn [bind];
      [ | discriminate].
    destruct (Agent1.lookup "completeness" results) as [cp | e]; cbn [bind];
      [ | discriminate].
    destruct (Agent1.score rd <? 60); [ | destruct (Agent1.score rd <? 75)];
      intros E; injection E as <-; cbn; auto. }
  destruct Hact as [Hrec Htic].
  cbv zeta. rewrite Hbi, Ha, Hg, Hrec, Htic.
  unfold Agent1.marketer_accessibility_of, Agent1._get_business_recommendation,
    Agent1._calculate_grade, Agent1.Qlt_bool.
  change (Qle_bool 60 w) with (Agent1.Qge_bool w (inject_Z 60)).
  change (Qle_bool 65 w) with (Agent1.Qge_bool w (inject_Z 65)).
  change (Qle_bool 75 w) with (Agent1.Qge_bool w (inject_Z 75)).
  change (Qle_bool 80 w) with (Agent1.Qge_bool w (inject_Z 80)).
  change (Agent1.Qge_bool w 60) with (Agent1.Qge_bool w (inject_Z 60)).
  change (Agent1.Qge_bool w 70) with (Agent1.Qge_bool w (inject_Z 70)).
  change (Agent1.Qge_bool w 75) with (Agent1.Qge_bool w (inject_Z 75)).
  change (Agent1.Qge_bool w 80) with (Agent1.Qge_bool w (inject_Z 80)).
  change (Agent1.Qge_bool w 90) with (Agent1.Qge_bool w (inject_Z 90)).
  pose proof (Qge_bool_mono w 60 65 ltac:(lia)) as M1.
  pose proof (Qge_bool_mono w 65 70 ltac:(lia)) as M2.
  pose proof (Qge_bool_mono w 70 75 ltac:(lia)) as M3.
  pose proof (Qge_bool_mono w 75 80 ltac:(lia)) as M4.
  pose proof (Qge_bool_mono w 80 90 ltac:(lia)) as M5.
  destruct (Agent1.Qge_bool w (inject_Z 90));
    destruct (Agent1.Qge_bool w (inject_Z 80));
    destruct (Agent1.Qge_bool w (inject_Z 75));
    destruct (Agent1.Qge_bool w (inject_Z 70));
    destruct (Agent1.Qge_bool w (inject_Z 65));
    destruct (Agent1.Qge_bool w (inject_Z 60));
    try (specialize (M1 eq_refl); discriminate M1);
    try (specialize (M2 eq_refl); discriminate M2);
    try (specialize (M3 eq_refl); discriminate M3);
    try (specialize (M4 eq_refl); discriminate M4);
    try (specialize (M5 eq_refl); discriminate M5);
    cbn [negb];
    repeat split; intros E; try reflexivity; try discriminate E;
    try (destruct E as [E | E]; discriminate E); auto.
Qed.

Lemma report_ladders_agree_witness :
  let result (n : Z) : Agent1.DimensionResult :=
    {| Agent1.score := n; Agent1.assessment := "Good for marketers";
       Agent1.metrics := []; Agent1.suggestions := ["Add more section headings"] |} in
  exists report,
    Agent1._synthesize_results (Agent1._get_fallback_content "https://help.moengage.com")
      [ ("readability", result 45); ("structure", result 55);
        ("completeness", result 30); ("style", result 60) ] = Ok report
    /\ (Agent1.letter_grade report = "F"
        <-> Agent1.marketer_accessibility report = "Low").
Proof.
  intros result.
  destruct (synthesize_results_ok (Agent1._get_fallback_content "https://help.moengage.com")
              (result 45) (result 55) (result 30) (result 60))
    as [_ [report [Hr _]]].
  exists report. split; [exact Hr | ].
  exact (proj1 (proj2 (proj2 (proj2 (report_ladders_agree _ _ report Hr))))).
Defined.

(** ** More on the ranker *)



Lemma priority_critical_only_readability (cat : string) (s : Z) :
  Agent1.priority_order (Agent1.priority_of cat s) >= 4 ->
  cat = "readability" /\ s < 70.
Proof.
  unfold Agent1.priority_of.
  destruct (String.eqb_spec cat "readability") as [E | E];
    destruct (Z.ltb_spec s 70); cbn [andb];
    split_ifs; cbn; intros; try lia; auto.
Qed.

(** X5. When the readability dimension scores below 70 and carries a
    suggestion, the top-ranked recommendation is a CRITICAL item of the
    readability dimension, whatever the other dimensions hold. *)
Theorem critical_readability_comes_first :
  forall (analysis_results : list (string * Agent1.DimensionResult))
         (rd : Agent1.DimensionResult),
    In ("readability", rd) analysis_results ->
    Agent1.score rd < 70 ->
    Agent1.suggestions rd <> [] ->
    exists top rest,
      Agent1._generate_action_items analysis_results = top :: rest
      /\ Agent1.priority top = Agent1.CRITICAL
      /\ Agent1.category top = "Readability".
Proof.
  intros results rd Hin Hlt Hne.
  set (items := Agent1.collected_items results).
  destruct (Agent1.suggestions rd) as [ | s0 srest] eqn:Es; [contradiction | ].
  set (y0 := {| Agent1.category := PyStr.title "readability";
                Agent1.priority := Agent1.priority_of "readability" (Agent1.score rd);
                Agent1.action := s0;
                Agent1.rationale := "Current " ++ "readability" ++ " score: "
                                    ++ PyStr.of_Z (Agent1.score rd) ++ "/100";
                Agent1.expected_impact :=
                  Agent1._estimate_impact "readability" (Agent1.score rd);
                Agent1.effort_estimate := Agent1._estimate_effort s0 |}).
  assert (Hy0 : In y0 items).
  { subst items. unfold Agent1.collected_items. apply in_flat_map.
    exists ("readability", rd). split; [exact Hin | ].
    unfold Agent1.items_of. rewrite Es. left. reflexivity. }
  assert (Hk0 : fst (Agent1.sort_key y0) = 4).
  { unfold Agent1.sort_key, y0. cbn [fst Agent1.priority].
    rewrite (proj1 (priority_of_rule "readability" (Agent1.score rd)));
      [reflexivity | split; [reflexivity | exact Hlt]]. }
  destruct (Agent1.sort_desc Agent1.sort_key items) as [ | top rest] eqn:Esort.
  { pose proof (sort_desc_length Agent1.sort_key items) as L.
    rewrite Esort in L. destruct items; [destruct Hy0 | discriminate L]. }
  exists top, (firstn 7 rest).
  split; [unfold Agent1._generate_action_items; fold items; rewrite Esort; reflexivity | ].
  assert (Htop : In top items).
  { apply (Permutation_in _ (sort_desc_perm Agent1.sort_key items)).
    rewrite Esort. left. reflexivity. }
  assert (N : fst (Agent1.sort_key top) >= 4).
  { destruct (sort_desc_head Agent1.sort_key items top rest Esort y0 Hy0)
      as [-> | N]; [lia | ].
    unfold not_below in N. lia. }
  subst items. unfold Agent1.collected_items in Htop. apply in_flat_map in Htop.
  destruct Htop as [[cat r] [_ Hx]].
  apply items_of_in in Hx. destruct Hx as [_ [Hc Hk]].
  rewrite Hk in N. cbn [fst] in N.
  destruct (priority_critical_only_readability cat (Agent1.score r) N) as [-> Hs].
  split.
  - assert (Hp : Agent1.priority_order (Agent1.priority top)
                 = Agent1.priority_order
                     (Agent1.priority_of "readability" (Agent1.score r))).
    { change (Agent1.priority_order (Agent1.priority top))
        with (fst (Agent1.sort_key top)). rewrite Hk. reflexivity. }
    rewrite (proj1 (priority_of_rule "readability" (Agent1.score r))) in Hp
      by (split; [reflexivity | exact Hs]).
    destruct (Agent1.priority top); cbn in Hp; try discriminate Hp. reflexivity.
  - rewrite Hc. reflexivity.
Qed.

Lemma critical_readability_comes_first_witness :
  let result (n : Z) (l : list string) : Agent1.DimensionResult :=
    {| Agent1.score := n; Agent1.assessment := "Good for marketers";
       Agent1.metrics := []; Agent1.suggestions := l |} in
  exists top rest,
    Agent1._generate_action_items
      [ ("style", result 40 ["Eliminate wordy phrases"]);
        ("completeness", result 30 ["Add concrete examples"]);
        ("readability", result 65 ["Break up 2 sentences longer than 25 words"]) ]
    = top :: rest
    /\ Agent1.priority top = Agent1.CRITICAL
    /\ Agent1.category top = "Readability".
Proof.
  intros result.
  apply (critical_readability_comes_first _
           (result 65 ["Break up 2 sentences longer than 25 words"])).
  - right. right. left. reflexivity.
  - cbn. lia.
  - discriminate.
Defined.

(** ** One segmentation into sentences *)

Lemma mark_normalized (c : ascii) :
  let c1 := if Ascii.eqb c "!" then "."%char else c in
  let c2 := if Ascii.eqb c1 "?" then "."%char else c1 in
  Ascii.eqb c2 "." = DocumentRevisionAgent.is_mark c
  /\ (DocumentRevisionAgent.is_mark c = false -> c2 = c).
Proof.
  unfold DocumentRevisionAgent.is_mark.
  destruct (Ascii.eqb_spec c "!") as [-> | N1]; [split; [reflexivity | discriminate] | ].
  destruct (Ascii.eqb_spec c "?") as [-> | N2]; [split; [reflexivity | discriminate] | ].
  cbn. rewrite orb_false_r, orb_false_r. split; reflexivity.
Qed.

Lemma segmentations_agree (s : string) :
  forall cur,
    filter (fun p => PyStr.nonempty (PyStr.strip p))
           (PyStr.split_char_from "." cur
              (PyStr.replace_char "?" "." (PyStr.replace_char "!" "." s)))
    = filter (fun p => PyStr.nonempty (PyStr.strip p))
             (DocumentRevisionAgent.split_marks_from false cur s)
    /\ filter (fun p => PyStr.nonempty (PyStr.strip p))
              (PyStr.split_char_from "." []
                 (PyStr.replace_char "?" "." (PyStr.replace_char "!" "." s)))
       = filter (fun p => PyStr.nonempty (PyStr.strip p))
                (DocumentRevisionAgent.split_marks_from true [] s).
Proof.
  induction s as [ | c s IH]; intros cur.
  - split; reflexivity.
  - cbn [PyStr.replace_char PyStr.split_char_from
           DocumentRevisionAgent.split_marks_from].
    destruct (mark_normalized c) as [Hm Hid]. cbv zeta in Hm, Hid.
    rewrite Hm.
    destruct (DocumentRevisionAgent.is_mark c) eqn:E.
    + split.
      * cbn [filter]. rewrite (proj2 (IH [])). reflexivity.
      * cbn [filter]. rewrite (proj2 (IH [])).
        change (PyStr.nonempty (PyStr.strip (string_of_list_ascii (rev []))))
          with false.
        reflexivity.
    + rewrite (Hid eq_refl). split.
      * apply (proj1 (IH (c :: cur))).
      * apply (proj1 (IH [c])).
Qed.

(** X6. The sentences of the revision agent are the sentences of the
    analysis engine: splitting on runs of sentence marks and splitting on
    single full stops after normalising the marks leave the same
    non-blank pieces. *)
Theorem split_sentences_is_shared_segmentation :
  forall text : string, DocumentRevision.split_sentences text = sentences_of text.
Proof.
  intros text. unfold DocumentRevision.split_sentences, sentences_of,
    DocumentRevisionAgent.split_marks, PyStr.split_char.
  rewrite (proj1 (segmentations_agree text [])). reflexivity.
Qed.

(** X7. The statistics of the revision agent count the words and sentences
    the scorers count, and its average sentence length is the one of the
    complexity indicators, zero when there is no sentence. *)
Theorem content_stats_match_scoring :
  forall content : string,
    exists st cx,
      DocumentRevisionAgent.get_content_stats content = Ok st
      /\ Agent1._assess_complexity content = Ok cx
      /\ DocumentRevisionAgent.words st = word_count content
      /\ DocumentRevisionAgent.sentences st
         = Z.of_nat (List.length (sentences_of content))
      /\ DocumentRevisionAgent.avg_sentence_length st
         = Agent1.avg_sentence_length cx
      /\ (sentences_of content = [] ->
          DocumentRevisionAgent.avg_sentence_length st = 0%Q).
Proof.
  intros content.
  assert (Hn : List.length
                 (filter (fun s => PyStr.nonempty (PyStr.strip s))
                         (DocumentRevisionAgent.split_marks content))
               = List.length (sentences_of content)).
  { rewrite <- split_sentences_is_shared_segmentation.
    unfold DocumentRevision.split_sentences. rewrite length_map. reflexivity. }
  unfold DocumentRevisionAgent.get_content_stats, Agent1._assess_complexity.
  rewrite Hn.
  set (words := PyStr.split_ws content).
  set (sents := sentences_of content).
  assert (Hr : exists q,
             match words with
             | [] => Ok 0%Q
             | _ :: _ =>
                 pydiv (Z.of_nat (List.length
                          (filter (fun w => (8 <? String.length w)%nat) words)))
                       (Z.of_nat (List.length words))
             end = Ok q).
  { destruct words as [ | w ws]; [eauto | ].
    apply pydiv_returns, length_cons_nonzero. }
  destruct Hr as [ratio ->].
  destruct sents as [ | s ss].
  - cbn. eexists. eexists. repeat split.
  - destruct (pydiv_returns (Z.of_nat (List.length words))
                (Z.of_nat (List.length (s :: ss)))) as [q Hq].
    { apply length_cons_nonzero. }
    replace (0 <? Z.of_nat (List.length (s :: ss))) with true
      by (symmetry; apply Z.ltb_lt; cbn [List.length]; lia).
    rewrite Hq. cbn [bind].
    eexists. eexists.
    split; [reflexivity | split; [reflexivity | ]].
    cbn. repeat split. discriminate.
Qed.

(** ** The counts of the revision summary *)

Definition count_for (category : string) (d : list (string * Z)) : Z :=
  match Agent1.lookup category d with
  | Ok n => n
  | Raise _ => 0
  end.

Lemma bump_count (cat cat' : string) (d : list (string * Z)) :
  count_for cat' (DocumentRevision.bump cat d)
  = count_for cat' d + (if String.eqb cat cat' then 1 else 0).
Proof.
  unfold count_for. induction d as [ | [k n] d IH].
  - cbn. destruct (String.eqb cat cat'); reflexivity.
  - cbn [DocumentRevision.bump].
    destruct (String.eqb_spec k cat) as [-> | Hk].
    + cbn [Agent1.lookup]. destruct (String.eqb cat cat'); lia.
    + cbn [Agent1.lookup]. destruct (String.eqb_spec k cat') as [-> | Hk'].
      * destruct (String.eqb_spec cat cat') as [-> | _]; [contradiction | lia].
      * exact IH.
Qed.

Lemma bump_keys (cat : string) (d : list (string * Z)) :
  (In cat (map fst d) /\ map fst (DocumentRevision.bump cat d) = map fst d)
  \/ (~ In cat (map fst d)
      /\ map fst (DocumentRevision.bump cat d) = (map fst d ++ [cat])%list).
Proof.
  induction d as [ | [k n] d IH].
  - right. split; [intros [] | reflexivity].
  - cbn [DocumentRevision.bump].
    destruct (String.eqb_spec k cat) as [-> | Hk].
    + left. split; [left; reflexivity | reflexivity].
    + destruct IH as [[Hin E] | [Hnin E]].
      * left. split; [right; exact Hin | cbn; rewrite E; reflexivity].
      * right. split; [ | cbn; rewrite E; reflexivity].
        intros [H | H]; [apply Hk; exact H | apply Hnin; exact H].
Qed.

Lemma bump_total (cat : string) (d : list (string * Z)) :
  fold_right (fun kv acc => snd kv + acc) 0 (DocumentRevision.bump cat d)
  = fold_right (fun kv acc => snd kv + acc) 0 d + 1.
Proof.
  induction d as [ | [k n] d IH]; [reflexivity | ].
  cbn [DocumentRevision.bump]. destruct (String.eqb k cat); cbn; [lia | ].
  cbn in IH. rewrite IH. lia.
Qed.

Lemma counting_invariant (log : DocumentRevisionAgent.revision_log) :
  forall d,
    NoDup (map fst d) ->
    let d' := fold_left
                (fun d e => DocumentRevision.bump (DocumentRevisionAgent.category e) d)
                log d in
    NoDup (map fst d')
    /\ fold_right (fun kv acc => snd kv + acc) 0 d'
       = fold_right (fun kv acc => snd kv + acc) 0 d + Z.of_nat (List.length log)
    /\ (forall cat,
           count_for cat d'
           = count_for cat d
             + Z.of_nat (List.length
                 (filter (fun e => String.eqb (DocumentRevisionAgent.category e) cat)
                         log)))
    /\ (forall cat,
           In cat (map fst d')
           <-> In cat (map fst d)
               \/ In cat (map DocumentRevisionAgent.category log)).
Proof.
  induction log as [ | e log IH]; intros d Hnd; cbn [fold_left].
  - cbv zeta. split; [exact Hnd | split; [cbn; lia | split]].
    + intros cat. cbn. lia.
    + intros cat. cbn. tauto.
  - set (d1 := DocumentRevision.bump (DocumentRevisionAgent.category e) d).
    assert (Hnd1 : NoDup (map fst d1)).
    { subst d1. destruct (bump_keys (DocumentRevisionAgent.category e) d)
        as [[_ E] | [Hnin E]]; rewrite E; [exact Hnd | ].
      apply NoDup_app; [exact Hnd | repeat constructor; intros [] | ].
      intros x Hx [<- | []]. exact (Hnin Hx). }
    destruct (IH d1 Hnd1) as [N [T [C K]]]. cbv zeta.
    split; [exact N | split; [ | split]].
    + rewrite T. subst d1. rewrite bump_total. cbn [List.length]. lia.
    + intros cat. rewrite C. subst d1. rewrite bump_count. cbn [filter].
      destruct (String.eqb (DocumentRevisionAgent.category e) cat);
        cbn [List.length]; lia.
    + intros cat. rewrite K. subst d1. cbn [map In].
      destruct (bump_keys (DocumentRevisionAgent.category e) d)
        as [[Hin E] | [Hnin E]]; rewrite E.
      * split; [tauto | ]. intros [H | [<- | H]]; auto.
      * rewrite in_app_iff. cbn [In]. tauto.
Qed.

(** The per-category counts of the summary add up to the number of log
    entries; each category of the log appears once, with the number of
    its entries; a category without entry is not a key. *)
Lemma changes_by_category_counts :
  forall log : DocumentRevisionAgent.revision_log,
    let counts := DocumentRevision.changes_by_category log in
    fold_right (fun kv acc => snd kv + acc) 0 counts = Z.of_nat (List.length log)
    /\ NoDup (map fst counts)
    /\ (forall cat,
           In cat (map fst counts)
           <-> In cat (map DocumentRevisionAgent.category log))
    /\ (forall cat,
           In cat (map DocumentRevisionAgent.category log) ->
           Agent1.lookup cat counts
           = Ok (Z.of_nat
                   (List.length
                      (filter (fun e => String.eqb (DocumentRevisionAgent.category e) cat)
                              log))))
    /\ (forall cat,
           ~ In cat (map DocumentRevisionAgent.category log) ->
           Agent1.lookup cat counts = Raise (KeyError cat)).
Proof.
  intros log counts.
  destruct (counting_invariant log [] (NoDup_nil _)) as [N [T [C K]]].
  cbv zeta in N, T, C, K. fold (DocumentRevision.changes_by_category log) in N, T, C, K.
  fold counts in N, T, C, K.
  assert (Hkeys : forall cat,
             In cat (map fst counts)
             <-> In cat (map DocumentRevisionAgent.category log)).
  { intros cat. rewrite K. cbn. tauto. }
  assert (Hlk : forall cat (d : list (string * Z)),
             (In cat (map fst d) -> exists n, Agent1.lookup cat d = Ok n)
             /\ (~ In cat (map fst d) -> Agent1.lookup cat d = Raise (KeyError cat))).
  { intros cat d. induction d as [ | [k n] d IH]; cbn.
    - split; [intros [] | reflexivity].
    - destruct (String.eqb_spec k cat) as [-> | Hk].
      + split; [eauto | intros H; exfalso; apply H; left; reflexivity].
      + split.
        * intros [H | H]; [contradiction | apply IH; exact H].
        * intros H. apply IH. intros H'. apply H. right. exact H'. }
  split; [cbn in T; lia | split; [exact N | split; [exact Hkeys | split]]].
  - intros cat Hin.
    destruct (proj1 (Hlk cat counts) (proj2 (Hkeys cat) Hin)) as [n Hn].
    rewrite Hn. f_equal.
    specialize (C cat). unfold count_for in C. rewrite Hn in C. cbn in C. lia.
  - intros cat Hnin. apply Hlk. intros H. apply Hnin. apply Hkeys. exact H.
Qed.

(** ** The completeness pass logs what it changes *)

Lemma length_append (s t : string) :
  String.length (s ++ t) = (String.length s + String.length t)%nat.
Proof. induction s as [ | c s IH]; cbn; [reflexivity | rewrite IH; reflexivity]. Qed.

Lemma replace_from_length (old new : string) (s : string) :
  (1 <= String.length old <= String.length new)%nat ->
  forall k,
    (String.length s
     <= String.length (PyStr.replace_from old new k s) + Nat.min k (String.length s))%nat.
Proof.
  intros H. induction s as [ | c s IH]; intros k; [cbn; lia | ].
  cbn [PyStr.replace_from].
  destruct k as [ | k].
  - destruct (prefix old (String c s)).
    + rewrite length_append.
      specialize (IH (String.length old - 1)%nat). cbn [String.length]. lia.
    + specialize (IH 0%nat). cbn [String.length]. lia.
  - specialize (IH k). cbn [String.length]. lia.
Qed.

Lemma replace_grows (old new s : string) :
  (1 <= String.length old < String.length new)%nat ->
  PyStr.contains old s = true ->
  (String.length s < String.length (PyStr.replace old new s))%nat.
Proof.
  intros H. unfold PyStr.replace.
  induction s as [ | c s IH]; intros Hc.
  - cbn in Hc. rewrite orb_false_r in Hc.
    destruct old; [cbn in H; lia | discriminate Hc].
  - cbn [PyStr.contains] in Hc. cbn [PyStr.replace_from].
    destruct (prefix old (String c s)) eqn:P.
    + rewrite length_append.
      pose proof (replace_from_length old new s ltac:(lia)
                    (String.length old - 1)%nat).
      cbn [String.length]. lia.
    + cbn [orb] in Hc. specialize (IH Hc). cbn [String.length]. lia.
Qed.

(** X9. The completeness pass never shortens the text, only appends entries
    of its own category to the log, and returns the text unchanged
    exactly when it logs nothing. *)
Theorem completeness_pass_logs_its_changes :
  forall (content : string) (log : DocumentRevisionAgent.revision_log),
    let result := DocumentRevisionAgent.improve_completeness content log in
    (String.length content <= String.length (fst result))%nat
    /\ (fst result = content <-> snd result = log)
    /\ exists added,
         snd result = (log ++ added)%list
         /\ (List.length added <= 2)%nat
         /\ Forall (fun e => DocumentRevisionAgent.category e = "completeness") added.
Proof.
  intros content log result.
  split; [ | split; [ | apply improve_completeness_log]].
  - subst result. unfold DocumentRevisionAgent.improve_completeness.
    destruct (DocumentRevisionAgent.mentions_troubleshooting content); cbn [negb].
    + destruct (negb (DocumentRevisionAgent.mentions_example content));
        [ | cbn; lia].
      destruct (PyStr.contains "Key Metrics" content) eqn:K; cbn [fst]; [ | lia].
      apply Nat.lt_le_incl, replace_grows; [vm_compute; lia | exact K].
    + match goal with
      | |- context [if ?b then _ else _] => destruct b
      end; [ | cbn [fst]; rewrite length_append; lia].
      match goal with
      | |- context [if ?b then _ else _] => destruct b
      end; cbn [fst]; [ | rewrite length_append; lia].
      match goal with
      | |- (_ <= String.length (PyStr.replace ?o ?n ?s))%nat =>
          pose proof (replace_from_length o n s ltac:(vm_compute; lia) 0%nat) as L;
          rewrite length_append in L
      end.
      unfold PyStr.replace. cbn [Nat.min] in L. lia.
  - subst result. unfold DocumentRevisionAgent.improve_completeness,
      DocumentRevisionAgent.log_change.
    assert (Hlog : forall (l a : DocumentRevisionAgent.revision_log),
               a <> [] -> (l ++ a)%list <> l).
    { intros l a Ha E. apply (f_equal (@List.length _)) in E.
      rewrite length_app in E. destruct a; [contradiction | cbn in E; lia]. }
    assert (Hblock : (0 < String.length DocumentRevisionAgent.troubleshooting_block)%nat)
      by (vm_compute; lia).
    destruct (DocumentRevisionAgent.mentions_troubleshooting content); cbn [negb].
    + destruct (negb (DocumentRevisionAgent.mentions_example content));
        [ | cbn; tauto].
      destruct (PyStr.contains "Key Metrics" content) eqn:K; [ | cbn; tauto].
      cbn [fst snd]. split; intros E; exfalso.
      * match type of E with
        | PyStr.replace ?o ?n ?s = _ =>
            pose proof (replace_grows o n s ltac:(vm_compute; lia) K) as G
        end.
        rewrite E in G. lia.
      * revert E. apply Hlog. discriminate.
    + match goal with
      | |- context [if ?b then _ else _] => destruct b
      end.
      * match goal with
        | |- context [if ?b then _ else _] => destruct b
        end; cbn [fst snd]; split; intros E; exfalso.
        -- match type of E with
           | PyStr.replace ?o ?n ?s = _ =>
               pose proof (replace_from_length o n s ltac:(vm_compute; lia) 0%nat) as L;
               unfold PyStr.replace in E; rewrite E in L;
               rewrite length_append in L; cbn [Nat.min] in L; lia
           end.
        -- revert E. rewrite <- app_assoc. apply Hlog. discriminate.
        -- apply (f_equal String.length) in E. rewrite length_append in E. lia.
        -- revert E. apply Hlog. discriminate.
      * cbn [fst snd]. split; intros E; exfalso.
        -- apply (f_equal String.length) in E. rewrite length_append in E. lia.
        -- revert E. apply Hlog. discriminate.
Qed.

(** ** The readability pass and the sentence marks *)

(** [c] occurs in [s]. *)
Definition occurs (c : ascii) (s : string) : Prop := In c (list_ascii_of_string s).

Lemma occurs_contains (c : ascii) (s : string) :
  PyStr.contains (String c EmptyString) s = true <-> occurs c s.
Proof.
  unfold occurs. induction s as [ | x s IH].
  - cbn. split; [discriminate | intros []].
  - cbn [PyStr.contains prefix list_ascii_of_string In].
    rewrite orb_true_iff, IH.
    destruct (ascii_dec c x) as [-> | N].
    + split; [auto | intros _; left; destruct s; reflexivity].
    + split; [intros [H | H]; [discriminate H | auto] | ].
      intros [H | H]; [congruence | auto].
Qed.

Lemma occurs_append (c : ascii) (a b : string) :
  occurs c (a ++ b) <-> occurs c a \/ occurs c b.
Proof.
  unfold occurs. induction a as [ | x a IH]; cbn; [tauto | ].
  rewrite IH. tauto.
Qed.

Lemma occurs_of_list (c : ascii) (l : list ascii) :
  occurs c (string_of_list_ascii l) <-> In c l.
Proof. unfold occurs. rewrite list_ascii_of_string_of_list_ascii. reflexivity. Qed.

Lemma occurs_lstrip (c : ascii) (s : string) :
  occurs c (PyStr.lstrip s) -> occurs c s.
Proof.
  unfold occurs. induction s as [ | x s IH]; cbn; [auto | ].
  destruct (PyStr.is_space x); [intros H; right; exact (IH H) | auto].
Qed.

Lemma occurs_rev_string (c : ascii) (s : string) :
  occurs c (PyStr.rev_string s) <-> occurs c s.
Proof.
  unfold PyStr.rev_string. rewrite occurs_of_list. unfold occurs.
  symmetry. apply in_rev.
Qed.

Lemma occurs_strip (c : ascii) (s : string) :
  occurs c (PyStr.strip s) -> occurs c s.
Proof.
  unfold PyStr.strip. intros H.
  apply (proj1 (occurs_rev_string _ _)) in H. apply occurs_lstrip in H.
  apply (proj1 (occurs_rev_string _ _)) in H. apply occurs_lstrip in H.
  exact H.
Qed.

Lemma occurs_substring (c : ascii) (s : string) :
  forall n m, occurs c (substring n m s) -> occurs c s.
Proof.
  unfold occurs. induction s as [ | x s IH]; intros n m.
  - destruct n, m; cbn; auto.
  - destruct n as [ | n]; [destruct m as [ | m] | ]; cbn.
    + intros [].
    + intros [H | H]; [auto | right; exact (IH _ _ H)].
    + intros H. right. exact (IH _ _ H).
Qed.

(** The pieces between runs of sentence marks hold no sentence mark. *)
Lemma split_marks_pieces (s : string) :
  forall in_run cur piece c,
    (forall x, In x cur -> DocumentRevisionAgent.is_mark x = false) ->
    In piece (DocumentRevisionAgent.split_marks_from in_run cur s) ->
    occurs c piece -> DocumentRevisionAgent.is_mark c = false.
Proof.
  induction s as [ | x s IH]; intros in_run cur piece c Hcur Hin Hc.
  - cbn in Hin. destruct Hin as [<- | []].
    apply (proj1 (occurs_of_list _ _)) in Hc. apply (proj2 (in_rev _ _)) in Hc. auto.
  - cbn [DocumentRevisionAgent.split_marks_from] in Hin.
    destruct (DocumentRevisionAgent.is_mark x) eqn:E.
    + destruct in_run.
      * exact (IH true cur piece c Hcur Hin Hc).
      * destruct Hin as [<- | Hin].
        -- apply (proj1 (occurs_of_list _ _)) in Hc. apply (proj2 (in_rev _ _)) in Hc. auto.
        -- apply (IH true [] piece c); [intros ? [] | exact Hin | exact Hc].
    + apply (IH false (x :: cur) piece c); [ | exact Hin | exact Hc].
      intros y [<- | Hy]; auto.
Qed.

Lemma split_sentences_no_mark (text sentence : string) (c : ascii) :
  In sentence (DocumentRevision.split_sentences text) ->
  occurs c sentence -> DocumentRevisionAgent.is_mark c = false.
Proof.
  unfold DocumentRevision.split_sentences. intros Hin Hc.
  apply in_map_iff in Hin. destruct Hin as [piece [<- Hp]].
  apply filter_In in Hp. destruct Hp as [Hp _].
  apply occurs_strip in Hc.
  exact (split_marks_pieces text false [] piece c ltac:(intros ? []) Hp Hc).
Qed.

(** Changing the letter case never produces or removes a sentence mark. *)
Lemma case_keeps_marks (x : ascii) :
  (DocumentRevisionAgent.is_mark (PyStr.lower_char x) = true -> PyStr.lower_char x = x)
  /\ (DocumentRevisionAgent.is_mark (PyStr.upper_char x) = true -> PyStr.upper_char x = x).
Proof.
  destruct x as [[] [] [] [] [] [] [] []]; vm_compute;
    split; intros H; try reflexivity; discriminate H.
Qed.

Lemma occurs_lower_mark (c : ascii) (s : string) :
  DocumentRevisionAgent.is_mark c = true ->
  occurs c (PyStr.lower s) -> occurs c s.
Proof.
  unfold occurs. intros Hm. induction s as [ | x s IH]; cbn; [auto | ].
  intros [H | H]; [left | right; exact (IH H)].
  rewrite <- H in Hm. rewrite (proj1 (case_keeps_marks x) Hm) in H. exact H.
Qed.

Lemma occurs_capitalize_mark (c : ascii) (s : string) :
  DocumentRevisionAgent.is_mark c = true ->
  occurs c (DocumentRevision.capitalize s) -> occurs c s.
Proof.
  intros Hm. destruct s as [ | x s]; [auto | ].
  unfold occurs. cbn. intros [H | H].
  - left. rewrite <- H in Hm. rewrite (proj2 (case_keeps_marks x) Hm) in H. exact H.
  - right. exact (occurs_lower_mark c s Hm H).
Qed.

Lemma split_once_parts (sep s : string) (c : ascii) :
  forall cur a b,
    DocumentRevision.split_once_from sep cur s = Some (a, b) ->
    (occurs c a -> In c cur \/ occurs c s) /\ (occurs c b -> occurs c s).
Proof.
  induction s as [ | x s IH]; intros cur a b; cbn [DocumentRevision.split_once_from];
    [discriminate | ].
  destruct (prefix sep (String x s)).
  - intros E. injection E as <- <-. split.
    + intros H. apply (proj1 (occurs_of_list _ _)) in H. apply (proj2 (in_rev _ _)) in H. auto.
    + exact (occurs_substring c (String x s) (String.length sep)
               (String.length (String x s))).
  - intros E. destruct (IH _ _ _ E) as [Ha Hb]. split.
    + intros H. destruct (Ha H) as [[<- | H'] | H']; unfold occurs; cbn; auto.
    + intros H. unfold occurs. cbn. right. exact (Hb H).
Qed.

(** A sentence mark other than the full stop is never introduced by
    [simplify_sentence]; the full stop only together with a change. *)
Lemma simplify_with_marks (conjs : list string) (sentence : string) (c : ascii) :
  DocumentRevisionAgent.is_mark c = true ->
  occurs c (DocumentRevision.simplify_with conjs sentence) ->
  occurs c sentence
  \/ (c = "."%char /\ DocumentRevision.simplify_with conjs sentence <> sentence).
Proof.
  intros Hm. induction conjs as [ | conj_word rest IH];
    cbn [DocumentRevision.simplify_with]; [auto | ].
  destruct (PyStr.contains conj_word (PyStr.lower sentence)); [ | exact IH].
  unfold DocumentRevision.split_once.
  destruct (DocumentRevision.split_once_from conj_word [] sentence)
    as [[part0 part1] | ] eqn:E; [ | exact IH].
  destruct ((8 <? List.length (PyStr.split_ws part0))%nat
            && (8 <? List.length (PyStr.split_ws part1))%nat); [ | exact IH].
  destruct (split_once_parts conj_word sentence c [] part0 part1 E) as [H0 H1].
  intros H. apply (proj1 (occurs_append _ _ _)) in H. destruct H as [H | H].
  - apply occurs_strip in H. destruct (H0 H) as [[] | H']. left. exact H'.
  - apply (proj1 (occurs_append _ _ _)) in H. destruct H as [H | H].
    + unfold occurs in H. cbn in H.
      destruct H as [<- | [<- | []]]; [ | discriminate Hm].
      destruct (string_dec
                  (PyStr.strip part0 ++ ". " ++ DocumentRevision.capitalize (PyStr.strip part1))
                  sentence) as [Eq | Ne]; [ | right; split; [reflexivity | exact Ne]].
      left. rewrite <- Eq. apply occurs_append. right.
      apply occurs_append. left. unfold occurs. cbn. left. reflexivity.
    + apply occurs_capitalize_mark in H; [ | exact Hm].
      apply occurs_strip in H. left. exact (H1 H).
Qed.

Lemma simplify_long_marks (sentences : list string) (c : ascii) :
  DocumentRevisionAgent.is_mark c = true ->
  (forall s, In s sentences -> ~ occurs c s) ->
  forall log out,
    In out (fst (DocumentRevision.simplify_long sentences log)) ->
    occurs c out ->
    c = "."%char
    /\ exists e,
         In e (snd (DocumentRevision.simplify_long sentences log))
         /\ prefix "Split long sentence" (DocumentRevisionAgent.description e) = true.
Proof.
  intros Hm. induction sentences as [ | s rest IH]; intros Hclean log out Hin Hc;
    [destruct Hin | ].
  assert (Hrest : forall s', In s' rest -> ~ occurs c s').
  { intros s' H. apply Hclean. right. exact H. }
  assert (Hgrow : forall l e,
             In e (snd (DocumentRevision.simplify_long rest l)) \/ True) by auto.
  cbn [DocumentRevision.simplify_long] in Hin |- *.
  destruct (25 <? List.length (PyStr.split_ws s))%nat.
  - destruct (String.eqb_spec (DocumentRevision.simplify_sentence s) s) as [Eq | Ne].
    + destruct (DocumentRevision.simplify_long rest log) as [o l] eqn:E.
      cbn [fst snd] in Hin |- *. destruct Hin as [<- | Hin].
      * exfalso. exact (Hclean s (or_introl eq_refl) Hc).
      * specialize (IH Hrest log out). rewrite E in IH. exact (IH Hin Hc).
    + set (log1 := DocumentRevisionAgent.log_change _ _ log) in *.
      destruct (DocumentRevision.simplify_long rest log1) as [o l] eqn:E.
      cbn [fst snd] in Hin |- *. destruct Hin as [<- | Hin].
      * destruct (simplify_with_marks _ s c Hm Hc) as [H | [-> _]].
        -- exfalso. exact (Hclean s (or_introl eq_refl) H).
        -- split; [reflexivity | ].
           assert (Hkeep : forall ss l0 e0,
                      In e0 l0 -> In e0 (snd (DocumentRevision.simplify_long ss l0))).
           { clear. induction ss as [ | s ss IH]; intros l0 e0 H0; [exact H0 | ].
             cbn [DocumentRevision.simplify_long].
             destruct (25 <? List.length (PyStr.split_ws s))%nat.
             - destruct (String.eqb (DocumentRevision.simplify_sentence s) s).
               + specialize (IH l0 e0 H0).
                 destruct (DocumentRevision.simplify_long ss l0); exact IH.
               + match goal with
                 | |- context [DocumentRevision.simplify_long ss ?l1] =>
                     specialize (IH l1 e0);
                     destruct (DocumentRevision.simplify_long ss l1)
                 end.
                 apply IH. unfold DocumentRevisionAgent.log_change.
                 apply in_or_app. left. exact H0.
             - specialize (IH l0 e0 H0).
               destruct (DocumentRevision.simplify_long ss l0); exact IH. }
           eexists. split.
           ++ pose proof (Hkeep rest log1) as K. rewrite E in K. cbn [snd] in K.
              apply K. subst log1. unfold DocumentRevisionAgent.log_change.
              apply in_or_app. right. left. reflexivity.
           ++ reflexivity.
      * specialize (IH Hrest log1 out). rewrite E in IH. exact (IH Hin Hc).
  - destruct (DocumentRevision.simplify_long rest log) as [o l] eqn:E.
    cbn [fst snd] in Hin |- *. destruct Hin as [<- | Hin].
    + exfalso. exact (Hclean s (or_introl eq_refl) Hc).
    + specialize (IH Hrest log out). rewrite E in IH. exact (IH Hin Hc).
Qed.

Lemma join_occurs (c : ascii) (sep : string) (l : list string) :
  occurs c (PyStr.join sep l) ->
  occurs c sep \/ exists x, In x l /\ occurs c x.
Proof.
  induction l as [ | x l IH]; [intros [] | ].
  destruct l as [ | y l].
  - cbn. intros H. right. exists x. auto.
  - change (PyStr.join sep (x :: y :: l)) with (x ++ sep ++ PyStr.join sep (y :: l)).
    intros H. apply (proj1 (occurs_append _ _ _)) in H. destruct H as [H | H].
    + right. exists x. split; [left; reflexivity | exact H].
    + apply (proj1 (occurs_append _ _ _)) in H. destruct H as [H | H]; [auto | ].
      destruct (IH H) as [H' | [z [Hz Hc]]]; [auto | ].
      right. exists z. split; [right; exact Hz | exact Hc].
Qed.

Lemma replace_ci_occurs (c : ascii) (old new : string) (s : string) :
  forall k,
    occurs c (DocumentRevision.replace_ci_from old new k s) ->
    occurs c new \/ occurs c s.
Proof.
  induction s as [ | x s IH]; intros k; cbn [DocumentRevision.replace_ci_from];
    [auto | ].
  destruct k as [ | k].
  - destruct (prefix old (PyStr.lower (String x s))).
    + intros H. apply (proj1 (occurs_append _ _ _)) in H.
      destruct H as [H | H]; [auto | ].
      destruct (IH _ H) as [H' | H']; [auto | right; right; exact H'].
    + intros [<- | H]; [right; left; reflexivity | ].
      destruct (IH _ H) as [H' | H']; [auto | right; right; exact H'].
  - intros H. destruct (IH _ H) as [H' | H']; [auto | right; right; exact H'].
Qed.

Lemma replace_wordy_occurs (c : ascii) (table : list (string * string)) :
  forall revised log,
    occurs c (fst (DocumentRevision.replace_wordy table revised log)) ->
    occurs c revised \/ exists entry, In entry table /\ occurs c (snd entry).
Proof.
  induction table as [ | [wordy simple] rest IH]; intros revised log;
    cbn [DocumentRevision.replace_wordy]; [auto | ].
  destruct (PyStr.contains wordy (PyStr.lower revised)).
  - intros H. destruct (IH _ _ H) as [H' | [entry [He Hc]]].
    + destruct (replace_ci_occurs c wordy simple revised 0 H') as [H'' | H''];
        [ | auto].
      right. exists (wordy, simple). split; [left; reflexivity | exact H''].
    + right. exists entry. split; [right; exact He | exact Hc].
  - intros H. destruct (IH _ _ H) as [H' | [entry [He Hc]]]; [auto | ].
    right. exists entry. split; [right; exact He | exact Hc].
Qed.

Lemma replace_wordy_keeps_log (table : list (string * string)) :
  forall revised log e,
    In e log -> In e (snd (DocumentRevision.replace_wordy table revised log)).
Proof.
  induction table as [ | [wordy simple] rest IH]; intros revised log e H;
    cbn [DocumentRevision.replace_wordy]; [exact H | ].
  destruct (PyStr.contains wordy (PyStr.lower revised)); apply IH; [ | exact H].
  unfold DocumentRevisionAgent.log_change. apply in_or_app. left. exact H.
Qed.

Lemma wordy_values_no_mark (c : ascii) (entry : string * string) :
  In entry DocumentRevision.wordy_replacements ->
  occurs c (snd entry) -> DocumentRevisionAgent.is_mark c = false.
Proof.
  unfold DocumentRevision.wordy_replacements, occurs. cbn [In].
  intros H. repeat (destruct H as [<- | H]); try contradiction; cbn;
    intros Hc; repeat (destruct Hc as [<- | Hc]); try contradiction; reflexivity.
Qed.

Lemma readability_pass_marks (content : string)
  (log : DocumentRevisionAgent.revision_log) (c : ascii) :
  DocumentRevisionAgent.is_mark c = true ->
  occurs c (fst (DocumentRevision.improve_readability content log)) ->
  c = "."%char
  /\ exists e,
       In e (snd (DocumentRevision.improve_readability content log))
       /\ prefix "Split long sentence" (DocumentRevisionAgent.description e) = true.
Proof.
  intros Hm. unfold DocumentRevision.improve_readability.
  destruct (DocumentRevision.replace_jargon DocumentRevision.jargon_replacements
              content log) as [revised log1].
  pose proof (simplify_long_marks (DocumentRevision.split_sentences revised) c Hm)
    as Hlong.
  destruct (DocumentRevision.simplify_long
              (DocumentRevision.split_sentences revised) log1)
    as [new_sentences log2] eqn:E.
  intros H.
  destruct (replace_wordy_occurs c _ _ _ H) as [H' | [entry [He Hc]]].
  - destruct (join_occurs c " " new_sentences H') as [Hs | [out [Hout Hc]]].
    + unfold occurs in Hs. cbn in Hs. destruct Hs as [<- | []]. discriminate Hm.
    + specialize (Hlong ltac:(intros s Hs Hcs;
                               pose proof (split_sentences_no_mark _ _ _ Hs Hcs);
                               congruence)
                        log1 out).
      rewrite E in Hlong. cbn [fst snd] in Hlong.
      destruct (Hlong Hout Hc) as [-> [e [Hin Hp]]].
      split; [reflexivity | ]. exists e. split; [ | exact Hp].
      apply replace_wordy_keeps_log. exact Hin.
  - pose proof (wordy_values_no_mark c entry He Hc). congruence.
Qed.

(** X10. The readability pass drops the sentence marks: its result holds no
    exclamation mark and no question mark, and it holds a full stop only
    when the pass logged that it split a long sentence. *)
Theorem readability_pass_drops_sentence_marks :
  forall (content : string) (log : DocumentRevisionAgent.revision_log),
    let result := DocumentRevision.improve_readability content log in
    PyStr.contains "!" (fst result) = false
    /\ PyStr.contains "?" (fst result) = false
    /\ (PyStr.contains "." (fst result) = true ->
        exists e,
          In e (snd result)
          /\ prefix "Split long sentence" (DocumentRevisionAgent.description e) = true).
Proof.
  intros content log result.
  split; [ | split].
  - destruct (PyStr.contains "!" (fst result)) eqn:E; [ | reflexivity].
    apply (proj1 (occurs_contains _ _)) in E.
    destruct (readability_pass_marks content log "!" eq_refl E) as [H _].
    discriminate H.
  - destruct (PyStr.contains "?" (fst result)) eqn:E; [ | reflexivity].
    apply (proj1 (occurs_contains _ _)) in E.
    destruct (readability_pass_marks content log "?" eq_refl E) as [H _].
    discriminate H.
  - intros E. apply (proj1 (occurs_contains _ _)) in E.
    exact (proj2 (readability_pass_marks content log "." eq_refl E)).
Qed.

Lemma readability_pass_drops_sentence_marks_witness :
  let text :=
    "Is it ready? The report shows the number of notifications that your users received across every channel during the selected period and it also lets you compare the performance of each channel over time!" in
  fst (DocumentRevision.improve_readability text [])
  = "Is it ready The report shows the number of notifications that your users received across every channel during the selected period. It also lets you compare the performance of each channel over time"
  /\ exists e,
       In e (snd (DocumentRevision.improve_readability text []))
       /\ prefix "Split long sentence" (DocumentRevisionAgent.description e) = true.
Proof.
  intros text. split; [vm_compute; reflexivity | ].
  apply (proj2 (proj2 (readability_pass_drops_sentence_marks text []))).
  vm_compute. reflexivity.
Defined.

(** ** The text-only scorers of AdvancedAnalyzer *)

Lemma count_present_nonneg (terms : list string) (s : string) :
  0 <= PyStr.count_present terms s.
Proof. unfold PyStr.count_present. lia. Qed.

(** X11. The clamps of the text-only scorers are wider than what the checks
    can reach: the readability score never exceeds its base 80, the
    structure score stays within 55 and 95, the completeness score never
    exceeds 95 and the style score stays within 40 and 90; none reaches
    100. *)
Theorem advanced_scores_tight_ranges :
  forall (content : string) (avg : Q) (wc : Z),
    (forall s, AdvancedAnalyzer.calculate_readability_score content avg = Ok s ->
               20 <= s <= 80)
    /\ 55 <= AdvancedAnalyzer.calculate_structure_score content <= 95
    /\ 30 <= AdvancedAnalyzer.calculate_completeness_score content wc <= 95
    /\ 40 <= AdvancedAnalyzer.calculate_style_score content <= 90.
Proof.
  intros content avg wc.
  split; [ | split; [ | split]].
  - intros s. unfold AdvancedAnalyzer.calculate_readability_score.
    match goal with
    | |- context [pydiv ?a ?b] => destruct (pydiv a b) as [q | e]
    end; cbn [bind]; [ | discriminate].
    intros H. injection H as <-.
    match goal with
    | |- context [PyStr.count_present ?t ?x] =>
        pose proof (count_present_nonneg t x)
    end.
    split_ifs; lia.
  - unfold AdvancedAnalyzer.calculate_structure_score. split_ifs; lia.
  - unfold AdvancedAnalyzer.calculate_completeness_score. split_ifs; lia.
  - unfold AdvancedAnalyzer.calculate_style_score. split_ifs; lia.
Qed.

(** The local analysis returns exactly on the texts that have a word. *)
Lemma local_analysis_returns_iff (content : string) :
  (exists r, AdvancedAnalyzer.analyze_with_local_advanced content = Ok r)
  <-> PyStr.split_ws content <> [].
Proof.
  unfold AdvancedAnalyzer.analyze_with_local_advanced.
  match goal with
  | |- context [if 0 <? ?n then pydiv ?w ?n else _] =>
      assert (Havg : exists q, (if 0 <? n then pydiv w n else Ok 0%Q) = Ok q)
  end.
  { match goal with
    | |- context [if 0 <? ?n then pydiv ?w ?n else _] =>
        destruct (Z.ltb_spec 0 n) as [Hn | Hn];
        [apply pydiv_returns; lia | eauto]
    end. }
  destruct Havg as [q ->]. cbn [bind].
  destruct (advanced_readability_score_spec content q) as [Hraise Hok].
  split.
  - intros [r Hr] Hnil. rewrite (Hraise Hnil) in Hr. discriminate Hr.
  - intros Hne. destruct (Hok Hne) as [s [-> _]]. cbn [bind]. eauto.
Qed.

(** X12. The outcome of the Hugging Face request does not matter: the driver
    returns what the local analysis gives, raises when it raises (a text
    without a word), and a returned analysis is always tagged
    huggingface, whichever path produced it. *)
Theorem hugging_face_outcome_is_ignored :
  forall (openai_key : bool) (hf : string -> option string) (content : string),
    AdvancedDriver.comprehensive_analysis openai_key hf content
    = AdvancedDriver.comprehensive_analysis openai_key (fun _ => None) content
    /\ (PyStr.split_ws content = [] ->
        AdvancedDriver.comprehensive_analysis openai_key hf content
        = Raise ZeroDivisionError)
    /\ (PyStr.split_ws content <> [] ->
        exists o,
          AdvancedDriver.comprehensive_analysis openai_key hf content = Ok o
          /\ AdvancedAnalyzer.analyze_with_local_advanced content
             = Ok (AdvancedDriver.analysis_results o)
          /\ AdvancedDriver.method_used o = "huggingface").
Proof.
  intros openai_key hf content.
  assert (Hav : existsb (String.eqb "huggingface")
                  (AdvancedDriver.check_available_methods openai_key) = true)
    by (destruct openai_key; reflexivity).
  assert (Hsame : forall h,
             AdvancedDriver.comprehensive_analysis openai_key h content
             = bind (AdvancedAnalyzer.analyze_with_local_advanced content)
                 (fun result =>
                    let scores := map (fun area => AdvancedAnalyzer.score (snd area)) result in
                    bind (pydiv (fold_left Z.add scores 0) (Z.of_nat (List.length scores)))
                      (fun overall =>
                         Ok {| AdvancedDriver.method_used := "huggingface";
                               AdvancedDriver.analysis_results := result;
                               AdvancedDriver.overall_score := round1 overall;
                               AdvancedDriver.grade :=
                                 if Agent1.Qge_bool overall 90 then "A"
                                 else if Agent1.Qge_bool overall 80 then "B"
                                 else if Agent1.Qge_bool overall 70 then "C"
                                 else if Agent1.Qge_bool overall 60 then "D"
                                 else "F";
                               AdvancedDriver.category_scores :=
                                 map (fun area => (fst area, AdvancedAnalyzer.score (snd area)))
                                     result |}))).
  { intros h. unfold AdvancedDriver.comprehensive_analysis.
    rewrite Hav. cbn [negb].
    unfold AdvancedDriver.analyze_with_huggingface, AdvancedDriver.parse_hf_response.
    destruct (h content);
      destruct (AdvancedAnalyzer.analyze_with_local_advanced content) as [r | e] eqn:E;
      cbn [bind]; try rewrite E; reflexivity. }
  split; [rewrite (Hsame hf), (Hsame (fun _ => None)); reflexivity | split].
  - intros Hnil. rewrite Hsame.
    destruct (AdvancedAnalyzer.analyze_with_local_advanced content) as [r | e] eqn:E.
    + exfalso. apply (proj1 (local_analysis_returns_iff content)); eauto.
    + cbn [bind]. f_equal.
      revert E. unfold AdvancedAnalyzer.analyze_with_local_advanced.
      match goal with
      | |- context [if 0 <? ?n then pydiv ?w ?n else _] =>
          assert (Havg : exists q, (if 0 <? n then pydiv w n else Ok 0%Q) = Ok q);
          [destruct (Z.ltb_spec 0 n) as [Hn | Hn];
           [apply pydiv_returns; lia | eauto] | ]
      end.
      destruct Havg as [q ->]. cbn [bind].
      rewrite (proj1 (advanced_readability_score_spec content q) Hnil).
      cbn [bind]. intros E. injection E as <-. reflexivity.
  - intros Hne. rewrite Hsame.
    destruct (proj2 (local_analysis_returns_iff content) Hne) as [r Hr].
    rewrite Hr. cbn [bind]. cbv zeta.
    assert (Hlen : List.length
                     (map (fun area => AdvancedAnalyzer.score (snd area)) r) = 4%nat).
    { revert Hr. unfold AdvancedAnalyzer.analyze_with_local_advanced.
      match goal with
      | |- context [if ?b then ?x else ?y] => destruct (if b then x else y)
      end; cbn [bind]; [ | discriminate].
      match goal with
      | |- context [AdvancedAnalyzer.calculate_readability_score ?c ?a] =>
          destruct (AdvancedAnalyzer.calculate_readability_score c a)
      end; cbn [bind]; [ | discriminate].
      intros E. injection E as <-. reflexivity. }
    rewrite Hlen.
    destruct (pydiv_returns
                (fold_left Z.add (map (fun area => AdvancedAnalyzer.score (snd area)) r) 0)
                (Z.of_nat 4)) as [q Hq]; [lia | ].
    rewrite Hq. cbn [bind]. eexists. split; [reflexivity | split; reflexivity].
Qed.

Lemma hugging_face_outcome_is_ignored_witness :
  AdvancedDriver.comprehensive_analysis true (fun _ => Some "[]") "   "
  = Raise ZeroDivisionError
  /\ exists o,
       AdvancedDriver.comprehensive_analysis false (fun _ => Some "[]")
         "Click Reports. Select a channel." = Ok o
       /\ AdvancedDriver.method_used o = "huggingface".
Proof.
  split.
  - apply (proj1 (proj2 (hugging_face_outcome_is_ignored true
                           (fun _ => Some "[]") "   "))). reflexivity.
  - destruct (proj2 (proj2 (hugging_face_outcome_is_ignored false
                              (fun _ => Some "[]") "Click Reports. Select a channel."))
                ltac:(vm_compute; discriminate)) as [o [Ho [_ Hm]]].
    exists o. auto.
Defined.

(** ** The marketer-friendly flag of the textstat analyzer *)

(** X13. On both readability paths the result is flagged marketer-friendly
    exactly when its score is at least 70. *)
Theorem marketer_friendly_means_score_70 :
  forall (lib : TextstatAnalyzer.library) (content : string),
    exists a,
      TextstatAnalyzer.analyze_readability_fixed lib content = Ok a
      /\ TextstatAnalyzer.marketer_friendly a = (70 <=? TextstatAnalyzer.score a).
Proof.
  intros lib content.
  destruct (lib content) as [m | ] eqn:E.
  - destruct (library_path_result lib content m E) as [a [Ha [Hl _]]].
    exists a. split; [exact Ha | ].
    pose proof (ease_level_of_cases (TextstatAnalyzer.flesch_reading_ease m)) as C.
    rewrite <- Hl in C. cbn [In] in C.
    repeat (destruct C as [C | C]; [injection C as _ <- <-; reflexivity | ]).
    contradiction.
  - unfold TextstatAnalyzer.analyze_readability_fixed. rewrite E.
    unfold TextstatAnalyzer.fallback_readability_analysis.
    match goal with
    | |- context [pydiv ?w ?n] =>
        destruct (pydiv_returns w n) as [q Hq];
        [destruct (sentences_of content); [lia | apply length_cons_nonzero]
        | rewrite Hq]
    end.
    cbn [bind].
    destruct (Agent1.Qgt_bool q 25); [ | destruct (Agent1.Qgt_bool q 20)];
      eexists; (split; [reflexivity | reflexivity]).
Qed.

(** ** The scrapers *)

Lemma first_long_enough_spec (outcomes : list (option Agent1.Document)) :
  match RobustWebScraper.first_long_enough outcomes with
  | Some d =>
      In (Some d) outcomes /\ (100 < String.length (Agent1.content d))%nat
  | None =>
      forall d, In (Some d) outcomes ->
                (String.length (Agent1.content d) <= 100)%nat
  end.
Proof.
  induction outcomes as [ | [d | ] rest IH]; cbn [RobustWebScraper.first_long_enough].
  - intros d [].
  - destruct (Nat.ltb_spec 100 (String.length (Agent1.content d))) as [L | L].
    + split; [left; reflexivity | exact L].
    + destruct (RobustWebScraper.first_long_enough rest) as [d' | ].
      * destruct IH as [Hin Hl]. split; [right; exact Hin | exact Hl].
      * intros d' [E | Hin]; [injection E as <-; exact L | exact (IH d' Hin)].
  - destruct (RobustWebScraper.first_long_enough rest) as [d' | ].
    + destruct IH as [Hin Hl]. split; [right; exact Hin | exact Hl].
    + intros d' [E | Hin]; [discriminate E | exact (IH d' Hin)].
Qed.



(** X15. [scrape_article] always hands over a document. Either it was
    scraped: success is set, it has more than 100 characters of content
    and its word count is the number of words of the content; or it is
    the seed article, with success unset and the fallback flag set. *)
Theorem scrape_article_flags_fallback :
  forall (direct session get : string -> option Agent1.Document) (url : string),
    let r := MoEngageScraper.scrape_article direct session get url in
    (Scraper.success r = true
     /\ Scraper.fallback r = false
     /\ (100 < String.length (Agent1.content (Scraper.doc r)))%nat
     /\ Scraper.scraped_word_count r = word_count (Agent1.content (Scraper.doc r)))
    \/ (r = Scraper.create_fallback_content url
        /\ Scraper.success r = false
        /\ Scraper.fallback r = true).
Proof.
  intros direct session get url r. subst r.
  unfold MoEngageScraper.scrape_article.
  pose proof (first_long_enough_spec
                [direct url; session url;
                 MoEngageScraper.alternative_format get url]) as S.
  destruct (RobustWebScraper.first_long_enough _) as [d | ].
  - left. destruct S as [_ Hl]. cbn. auto.
  - right. repeat split.
Qed.

(** X16. [test_with_analyzer] returns on every scraped document; its overall
    score is the mean of four scores that add up to at most 305, so the
    grade it reports is C, D or F. *)
Theorem quick_analysis_grade_at_most_c :
  forall scraped : Scraper.Scraped,
    exists qa,
      MoEngageScraper.test_with_analyzer scraped = Ok qa
      /\ In (MoEngageScraper.readability_score qa) [45; 70; 85]
      /\ In (MoEngageScraper.structure_score qa) [75; 60]
      /\ In (MoEngageScraper.completeness_score qa) [70; 50]
      /\ In (MoEngageScraper.style_score qa) [75; 60]
      /\ In (MoEngageScraper.grade qa) ["C"; "D"; "F"].
Proof.
  intros scraped. unfold MoEngageScraper.test_with_analyzer.
  match goal with
  | |- context [if 0 <? ?n then pydiv ?w ?n else _] =>
      assert (Havg : exists q, (if 0 <? n then pydiv w n else Ok 0%Q) = Ok q);
      [destruct (Z.ltb_spec 0 n) as [Hn | Hn];
       [apply pydiv_returns; lia | eauto] | ]
  end.
  destruct Havg as [q ->]. cbn [bind].
  assert (Hgrade : forall n : Z,
             n <= 305 ->
             In (if Agent1.Qge_bool (inject_Z n / inject_Z 4) 90 then "A"
                 else if Agent1.Qge_bool (inject_Z n / inject_Z 4) 80 then "B"
                 else if Agent1.Qge_bool (inject_Z n / inject_Z 4) 70 then "C"
                 else if Agent1.Qge_bool (inject_Z n / inject_Z 4) 60 then "D"
                 else "F") ["C"; "D"; "F"]).
  { intros n Hn.
    assert (H80 : Agent1.Qge_bool (inject_Z n / inject_Z 4) 80 = false).
    { apply Qge_bool_false. unfold Qlt, Qdiv, Qmult, Qinv, inject_Z. cbn. lia. }
    assert (H90 : Agent1.Qge_bool (inject_Z n / inject_Z 4) 90 = false).
    { apply Qge_bool_false. unfold Qlt, Qdiv, Qmult, Qinv, inject_Z. cbn. lia. }
    rewrite H80, H90. split_ifs; cbn; auto. }
  destruct (Agent1.Qgt_bool q 25); [ | destruct (Agent1.Qgt_bool q 20)];
    destruct (3 <=? List.length (Agent1.headings (Scraper.doc scraped)))%nat;
    destruct (300 <? Z.of_nat (List.length
                (PyStr.split_ws (Agent1.content (Scraper.doc scraped)))));
    destruct (PyStr.contains "you" (PyStr.lower (Agent1.content (Scraper.doc scraped))));
    cbn [bind pydiv Z.eqb Z.add Pos.add Pos.succ];
    (eexists; split; [reflexivity | ]);
    cbn [MoEngageScraper.readability_score MoEngageScraper.structure_score
           MoEngageScraper.completeness_score MoEngageScraper.style_score
           MoEngageScraper.grade];
    (repeat split; try (cbn; auto 6; fail)); apply Hgrade; lia.
Qed.

(** ** The article id *)

Lemma split_char_first (sep : ascii) (s : string) :
  forall cur,
    exists piece rest,
      PyStr.split_char_from sep cur s = piece :: rest
      /\ forall x, occurs x piece -> In x cur \/ (occurs x s /\ x <> sep).
Proof.
  induction s as [ | c s IH]; intros cur; cbn [PyStr.split_char_from].
  - eexists. eexists. split; [reflexivity | ].
    intros x H. left. apply (proj1 (occurs_of_list _ _)) in H.
    apply (proj2 (in_rev _ _)) in H. exact H.
  - destruct (Ascii.eqb_spec c sep) as [E | N].
    + eexists. eexists. split; [reflexivity | ].
      intros x H. left. apply (proj1 (occurs_of_list _ _)) in H.
      apply (proj2 (in_rev _ _)) in H. exact H.
    + destruct (IH (c :: cur)) as [piece [rest [E H]]].
      exists piece, rest. split; [exact E | ].
      intros x Hx. destruct (H x Hx) as [[<- | Hin] | [Ho Hn]].
      * right. split; [left; reflexivity | exact N].
      * left. exact Hin.
      * right. split; [right; exact Ho | exact Hn].
Qed.

Lemma split_str_nonempty (sep : string) (s : string) :
  forall skip cur, AdvancedAnalyzer.split_str_from sep skip cur s <> [].
Proof.
  induction s as [ | c s IH]; intros skip cur;
    cbn [AdvancedAnalyzer.split_str_from]; [discriminate | ].
  destruct skip; [destruct (prefix sep (String c s)); [discriminate | ] | ]; apply IH.
Qed.

Lemma split_str_second (sep : string) (s : string) :
  sep <> EmptyString ->
  PyStr.contains sep s = true ->
  forall cur,
    exists a b rest, AdvancedAnalyzer.split_str_from sep 0 cur s = a :: b :: rest.
Proof.
  intros Hsep. induction s as [ | c s IH]; intros Hc cur.
  - cbn in Hc. destruct sep; [contradiction | discriminate Hc].
  - cbn [PyStr.contains] in Hc. cbn [AdvancedAnalyzer.split_str_from].
    destruct (prefix sep (String c s)).
    + destruct (AdvancedAnalyzer.split_str_from sep (String.length sep - 1) [] s)
        as [ | b rest] eqn:E; [exfalso; exact (split_str_nonempty _ _ _ _ E) | ].
      eauto.
    + cbn [orb] in Hc. apply IH. exact Hc.
Qed.

Lemma contains_false_occurs (c : ascii) (s : string) :
  ~ occurs c s -> PyStr.contains (String c EmptyString) s = false.
Proof.
  intros H. destruct (PyStr.contains (String c EmptyString) s) eqn:E;
    [ | reflexivity].
  exfalso. apply H. apply (proj1 (occurs_contains _ _)). exact E.
Qed.

(** X17. Both scrapers find an article id exactly in the URLs that contain
    [/articles/]; the id holds no hyphen and no hash sign, and the one of
    the second scraper no question mark either. *)
Theorem article_id_is_bare :
  forall url : string,
    (PyStr.contains "/articles/" url = false ->
     RobustWebScraper._extract_article_id url = None
     /\ MoEngageScraper.extract_article_id url = None)
    /\ (PyStr.contains "/articles/" url = true ->
        exists id id',
          RobustWebScraper._extract_article_id url = Some id
          /\ MoEngageScraper.extract_article_id url = Some id'
          /\ PyStr.contains "-" id = false
          /\ PyStr.contains "#" id = false
          /\ PyStr.contains "-" id' = false
          /\ PyStr.contains "#" id' = false
          /\ PyStr.contains "?" id' = false).
Proof.
  intros url. split.
  - intros H. unfold RobustWebScraper._extract_article_id,
      MoEngageScraper.extract_article_id. rewrite H. split; reflexivity.
  - intros H. unfold RobustWebScraper._extract_article_id,
      MoEngageScraper.extract_article_id. rewrite H.
    unfold AdvancedAnalyzer.split_str.
    destruct (split_str_second "/articles/" url ltac:(discriminate) H [])
      as [a [part [rest ->]]].
    unfold PyStr.split_char.
    destruct (split_char_first "-" part []) as [p1 [r1 [-> H1]]].
    destruct (split_char_first "#" p1 []) as [p2 [r2 [-> H2]]].
    destruct (split_char_first "?" p2 []) as [p3 [r3 [-> H3]]].
    exists p2, p3.
    split; [reflexivity | split; [reflexivity | ]].
    assert (N2dash : ~ occurs "-" p2).
    { intros O. destruct (H2 _ O) as [[] | [O1 _]].
      destruct (H1 _ O1) as [[] | [_ N]]. apply N. reflexivity. }
    assert (N2hash : ~ occurs "#" p2).
    { intros O. destruct (H2 _ O) as [[] | [_ N]]. apply N. reflexivity. }
    repeat split; apply contains_false_occurs; try assumption.
    + intros O. destruct (H3 _ O) as [[] | [O2 _]]. exact (N2dash O2).
    + intros O. destruct (H3 _ O) as [[] | [O2 _]]. exact (N2hash O2).
    + intros O. destruct (H3 _ O) as [[] | [_ N]]. apply N. reflexivity.
Qed.

Lemma article_id_is_bare_witness :
  RobustWebScraper._extract_article_id
    "https://help.moengage.com/hc/en-us/articles/360035738832-Explore-the-Number#top"
  = Some "360035738832"
  /\ (RobustWebScraper._extract_article_id "https://help.moengage.com/hc/en-us" = None
      /\ MoEngageScraper.extract_article_id "https://help.moengage.com/hc/en-us" = None)
  /\ exists id id',
       RobustWebScraper._extract_article_id
         "https://help.moengage.com/hc/en-us/articles/360035738832?x=1-2" = Some id
       /\ MoEngageScraper.extract_article_id
            "https://help.moengage.com/hc/en-us/articles/360035738832?x=1-2" = Some id'
       /\ PyStr.contains "?" id' = false.
Proof.
  split; [reflexivity | split].
  - apply (proj1 (article_id_is_bare "https://help.moengage.com/hc/en-us")).
    reflexivity.
  - destruct (proj2 (article_id_is_bare
                       "https://help.moengage.com/hc/en-us/articles/360035738832?x=1-2")
                eq_refl) as [id [id' [H1 [H2 [_ [_ [_ [_ H3]]]]]]]].
    exists id, id'. auto.
Defined.

(** ** The readability scorer without textstat *)

Lemma lstrip_head (s : string) (c : ascii) (rest : string) :
  PyStr.lstrip s = String c rest -> PyStr.is_space c = false /\ occurs c s.
Proof.
  unfold occurs. induction s as [ | x s IH]; cbn; [discriminate | ].
  destruct (PyStr.is_space x) eqn:E.
  - intros H. destruct (IH H) as [Hs Ho]. auto.
  - intros H. injection H as <- _. auto.
Qed.

Lemma strip_nonempty_has_word_char (s : string) :
  PyStr.nonempty (PyStr.strip s) = true ->
  exists c, occurs c s /\ PyStr.is_space c = false.
Proof.
  unfold PyStr.strip. intros H.
  destruct (PyStr.lstrip (PyStr.rev_string (PyStr.lstrip s))) as [ | c rest] eqn:E.
  - discriminate H.
  - destruct (lstrip_head _ _ _ E) as [Hs Ho].
    exists c. split; [ | exact Hs].
    apply (proj1 (occurs_rev_string _ _)) in Ho. apply occurs_lstrip. exact Ho.
Qed.

Lemma split_char_pieces (sep : ascii) (s : string) :
  forall cur piece x,
    In piece (PyStr.split_char_from sep cur s) ->
    occurs x piece -> In x cur \/ occurs x s.
Proof.
  induction s as [ | c s IH]; intros cur piece x; cbn [PyStr.split_char_from].
  - intros [<- | []] H. left. apply (proj1 (occurs_of_list _ _)) in H.
    apply (proj2 (in_rev _ _)) in H. exact H.
  - destruct (Ascii.eqb c sep).
    + intros [<- | Hin] H.
      * left. apply (proj1 (occurs_of_list _ _)) in H.
        apply (proj2 (in_rev _ _)) in H. exact H.
      * destruct (IH [] piece x Hin H) as [[] | Ho]. right. right. exact Ho.
    + intros Hin H. destruct (IH (c :: cur) piece x Hin H) as [[<- | Hc] | Ho].
      * right. left. reflexivity.
      * left. exact Hc.
      * right. right. exact Ho.
Qed.

Lemma split_ws_nonempty (s : string) :
  forall cur c,
    occurs c s -> PyStr.is_space c = false -> PyStr.split_ws_from cur s <> [].
Proof.
  assert (Hflush : forall cur s, cur <> [] -> PyStr.split_ws_from cur s <> []).
  { intros cur s0. revert cur. induction s0 as [ | x s0 IH]; intros cur Hc.
    - cbn. destruct cur; [contradiction | discriminate].
    - cbn [PyStr.split_ws_from]. destruct (PyStr.is_space x).
      + destruct cur; [contradiction | discriminate].
      + apply IH. discriminate. }
  induction s as [ | x s IH]; intros cur c Ho Hs; [destruct Ho | ].
  cbn [PyStr.split_ws_from].
  destruct Ho as [<- | Ho].
  - rewrite Hs. apply Hflush. discriminate.
  - destruct (PyStr.is_space x).
    + intros E. apply app_eq_nil in E. destruct E as [_ E].
      exact (IH [] c Ho Hs E).
    + exact (IH _ c Ho Hs).
Qed.

Lemma normalized_char (s : string) (x : ascii) :
  occurs x (PyStr.replace_char "?" "." (PyStr.replace_char "!" "." s)) ->
  PyStr.is_space x = false ->
  exists y, occurs y s /\ PyStr.is_space y = false.
Proof.
  unfold occurs. induction s as [ | c s IH]; cbn; [intros [] | ].
  intros [E | H] Hs.
  - exists c. split; [left; reflexivity | ].
    destruct (Ascii.eqb_spec c "!") as [-> | _]; [reflexivity | ].
    destruct (Ascii.eqb_spec c "?") as [-> | _]; [reflexivity | ].
    rewrite E. exact Hs.
  - destruct (IH H Hs) as [y [Hy Hsy]]. exists y. auto.
Qed.

(** A text with a sentence has a word. *)
Lemma sentence_needs_word (content : string) :
  sentences_of content <> [] -> PyStr.split_ws content <> [].
Proof.
  unfold sentences_of. intros H.
  destruct (filter _ _) as [ | piece rest] eqn:E; [contradiction | ].
  assert (Hin : In piece
                  (filter (fun s => PyStr.nonempty (PyStr.strip s))
                     (PyStr.split_char "."
                        (PyStr.replace_char "?" "." (PyStr.replace_char "!" "." content)))))
    by (rewrite E; left; reflexivity).
  apply filter_In in Hin. destruct Hin as [Hin Hne].
  destruct (strip_nonempty_has_word_char piece Hne) as [x [Hx Hs]].
  destruct (split_char_pieces _ _ [] piece x Hin Hx) as [[] | Ho].
  destruct (normalized_char content x Ho Hs) as [y [Hy Hsy]].
  exact (split_ws_nonempty content [] y Hy Hsy).
Qed.

Lemma fallback_indices (ts : Agent1.textstat) (content : string) :
  ts content = None ->
  exists avg,
    Agent1.readability_indices ts content
    = Ok {| Agent1.fk_grade := (avg * (39 # 100) + (118 # 10) - (1559 # 100))%Q;
            Agent1.fog_index := (avg * (4 # 10) + 12)%Q;
            Agent1.ease_score := ((206835 # 1000) - (1015 # 1000) * avg)%Q |}
    /\ ((sentences_of content = [] /\ avg = 20%Q)
        \/ exists w n : positive,
             Z.of_nat (List.length (PyStr.split_ws content)) = Zpos w
             /\ Z.of_nat (List.length (sentences_of content)) = Zpos n
             /\ avg = (inject_Z (Zpos w) / inject_Z (Zpos n))%Q).
Proof.
  intros Hts. unfold Agent1.readability_indices. rewrite Hts.
  pose proof (sentence_needs_word content) as Hw.
  destruct (sentences_of content) as [ | s l] eqn:Es.
  - exists 20%Q. split; [reflexivity | left; auto].
  - specialize (Hw ltac:(discriminate)).
    destruct (PyStr.split_ws content) as [ | w0 ws] eqn:Ew; [contradiction | ].
    exists (inject_Z (Z.of_nat (List.length (w0 :: ws)))
            / inject_Z (Z.of_nat (List.length (s :: l))))%Q.
    split.
    + unfold pydiv.
      destruct (Z.eqb_spec (Z.of_nat (List.length (s :: l))) 0) as [E | _];
        [cbn in E; lia | reflexivity].
    + right. exists (Pos.of_succ_nat (List.length ws)), (Pos.of_succ_nat (List.length l)).
      cbn [List.length]. rewrite !Zpos_P_of_succ_nat, !Nat2Z.inj_succ. auto.
Qed.

Ltac q_linear :=
  unfold Qle, Qlt, Qminus, Qplus, Qopp, Qdiv, inject_Z;
  repeat (unfold Qmult, Qinv; cbn [Qnum Qden]);
  rewrite ?Pos2Z.inj_mul; lia.

Lemma prefix_append (p s : string) : prefix p (p ++ s) = true.
Proof.
  induction p as [ | a p IH]; cbn; [destruct s; reflexivity | ].
  destruct (ascii_dec a a) as [_ | N]; [exact IH | contradiction].
Qed.

(** X18. When textstat raises, the formulas on the average sentence length
    take over: the Gunning Fog suggestion is then always among the
    suggestions, so the affirming suggestion never appears, and every
    text with at most 134 words per sentence, or with no sentence at all,
    scores 95. *)
Theorem readability_fallback_is_lenient :
  forall (ts : Agent1.textstat) (content : string),
    ts content = None ->
    exists r,
      Agent1._analyze_readability ts content = Ok r
      /\ (exists s, In s (Agent1.suggestions r)
                    /\ prefix "Gunning Fog index is " s = true)
      /\ Agent1.suggestions r <> [Agent1.affirm_readability]
      /\ (word_count content
          <= 134 * Z.of_nat (List.length (sentences_of content))
          \/ sentences_of content = [] ->
          Agent1.score r = 95 /\ Agent1.assessment r = "Excellent for marketers").
Proof.
  intros ts content Hts.
  destruct (fallback_indices ts content Hts) as [avg [Hm Havg]].
  rewrite (analyze_readability_ok ts content _ Hm).
  eexists. split; [reflexivity | ].
  cbn [Agent1.score Agent1.assessment Agent1.suggestions Agent1.ease_score].
  assert (Hfog : Agent1.Qgt_bool (avg * (4 # 10) + 12) 12 = true).
  { unfold Agent1.Qgt_bool. apply negb_true_iff.
    destruct (Qle_bool (avg * (4 # 10) + 12) 12) eqn:E; [ | reflexivity].
    exfalso. apply Qle_bool_iff in E.
    destruct Havg as [[_ ->] | [w [n [_ [_ ->]]]]].
    - revert E. unfold Qle. cbn. lia.
    - revert E. q_linear. }
  assert (Hshape : exists before fog after,
             Agent1.readability_suggestions
               {| Agent1.fk_grade := (avg * (39 # 100) + (118 # 10) - (1559 # 100))%Q;
                  Agent1.fog_index := (avg * (4 # 10) + 12)%Q;
                  Agent1.ease_score := ((206835 # 1000) - (1015 # 1000) * avg)%Q |}
               content
             = (before ++ fog :: after)%list
             /\ prefix "Gunning Fog index is " fog = true
             /\ (before = []
                 \/ exists t, before = ["Reading level is Grade " ++ t])).
  { unfold Agent1.readability_suggestions.
    cbn [Agent1.fk_grade Agent1.fog_index]. rewrite Hfog.
    destruct (Agent1.Qgt_bool (avg * (39 # 100) + (118 # 10) - (1559 # 100)) 10).
    - eexists [_]. eexists. eexists.
      split; [cbn [app]; reflexivity | split; [apply prefix_append | ]].
      right. eexists. reflexivity.
    - exists []. eexists. eexists.
      split; [cbn [app]; reflexivity | split; [apply prefix_append | ]].
      left. reflexivity. }
  destruct Hshape as [before [fog [after [-> [Hp Hb]]]]].
  split; [exists fog; split; [apply in_or_app; right; left; reflexivity | exact Hp] | ].
  split.
  - destruct Hb as [-> | [t ->]]; cbn [app]; intros E.
    + injection E as E _. rewrite E in Hp. discriminate Hp.
    + injection E as E _. discriminate E.
  - intros Hlen.
    assert (Hease : Agent1.Qge_bool ((206835 # 1000) - (1015 # 1000) * avg) 70 = true).
    { apply Qge_bool_true.
      destruct Havg as [[_ ->] | [w [n [Hw [Hn ->]]]]].
      - unfold Qle. cbn. lia.
      - destruct Hlen as [Hlen | Hnil];
          [ | rewrite Hnil in Hn; cbn in Hn; lia].
        unfold word_count in Hlen. rewrite Hw, Hn in Hlen.
        q_linear. }
    unfold Agent1.score_of_ease. rewrite Hease. split; reflexivity.
Qed.

Lemma readability_fallback_is_lenient_witness :
  exists r,
    Agent1._analyze_readability (fun _ => None)
      "To access the report you need to follow the steps below and click on Reports in the left sidebar and select Notification Reports from the dropdown and choose the right entry from the list."
    = Ok r
    /\ Agent1.score r = 95
    /\ Agent1.suggestions r <> [Agent1.affirm_readability].
Proof.
  destruct (readability_fallback_is_lenient (fun _ => None)
              "To access the report you need to follow the steps below and click on Reports in the left sidebar and select Notification Reports from the dropdown and choose the right entry from the list."
              eq_refl) as [r [Hr [_ [Hs H95]]]].
  exists r. split; [exact Hr | split; [ | exact Hs]].
  apply H95. left. vm_compute. discriminate.
Defined.

(** ** The revision summary *)

Lemma revision_summary_returns (log : DocumentRevisionAgent.revision_log)
  (original revised : string) :
  exists summary,
    DocumentRevision.generate_revision_summary log original revised = Ok summary
    /\ DocumentRevision.total_revisions summary = List.length log
    /\ DocumentRevision.summary_changes_by_category summary
       = DocumentRevision.changes_by_category log
    /\ DocumentRevision.revision_categories summary
       = map fst (DocumentRevision.changes_by_category log).
Proof.
  unfold DocumentRevision.generate_revision_summary,
    DocumentRevision.estimate_readability_improvement.
  destruct (get_content_stats_returns original) as [so ->].
  destruct (get_content_stats_returns revised) as [sr ->].
  cbn [bind]. eexists. split; [reflexivity | cbn; auto].
Qed.

(** X8. The revision summary always comes back; its per-category counts
    add up to its total number of revisions, each category of the log is
    listed once with the number of its entries, and a category without
    entry is no key of the counts. *)
Theorem revision_summary_counts_add_up :
  forall (log : DocumentRevisionAgent.revision_log) (original revised : string),
    exists summary,
      DocumentRevision.generate_revision_summary log original revised = Ok summary
      /\ DocumentRevision.total_revisions summary = List.length log
      /\ fold_right (fun kv acc => snd kv + acc) 0
           (DocumentRevision.summary_changes_by_category summary)
         = Z.of_nat (DocumentRevision.total_revisions summary)
      /\ NoDup (DocumentRevision.revision_categories summary)
      /\ (forall cat,
             In cat (DocumentRevision.revision_categories summary)
             <-> In cat (map DocumentRevisionAgent.category log))
      /\ (forall cat,
             In cat (map DocumentRevisionAgent.category log) ->
             Agent1.lookup cat (DocumentRevision.summary_changes_by_category summary)
             = Ok (Z.of_nat
                     (List.length
                        (filter (fun e => String.eqb (DocumentRevisionAgent.category e) cat)
                                log))))
      /\ (forall cat,
             ~ In cat (map DocumentRevisionAgent.category log) ->
             Agent1.lookup cat (DocumentRevision.summary_changes_by_category summary)
             = Raise (KeyError cat)).
Proof.
  intros log original revised.
  destruct (revision_summary_returns log original revised)
    as [summary [Hs [Ht [Hc Hk]]]].
  destruct (changes_by_category_counts log) as [T [N [K [Hin Hout]]]].
  exists summary. rewrite Ht, Hc, Hk.
  split; [exact Hs | split; [reflexivity | ]].
  split; [exact T | split; [exact N | split; [exact K | split; [exact Hin | exact Hout]]]].
Qed.

Lemma revision_summary_counts_add_up_witness :
  let entry (c : string) : DocumentRevisionAgent.RevisionEntry :=
    {| DocumentRevisionAgent.category := c;
       DocumentRevisionAgent.description := "Added Overview section" |} in
  let log := [entry "readability"; entry "structure"; entry "readability"] in
  exists summary,
    DocumentRevision.generate_revision_summary log "Click Reports. Wait!" "Click Reports"
    = Ok summary
    /\ DocumentRevision.summary_changes_by_category summary
       = [("readability", 2); ("structure", 1)]
    /\ Agent1.lookup "style" (DocumentRevision.summary_changes_by_category summary)
       = Raise (KeyError "style").
Proof.
  intros entry log.
  destruct (revision_summary_counts_add_up log "Click Reports. Wait!" "Click Reports")
    as [summary [Hs [_ [_ [_ [_ [_ Hout]]]]]]].
  exists summary. split; [exact Hs | split].
  - vm_compute in Hs. injection Hs as <-. reflexivity.
  - apply Hout. cbn. intros [H | [H | [H | []]]]; discriminate H.
Defined.
